(** * GeoIPS processing workflows: a shallow embedding

    This development embeds the orchestration code of the GeoIPS
    "procflows" and states its natural-language specification as theorems:

    - [geoips/filenames/duplicate_files.py]            (module [DuplicateFiles])
    - [geoips/interface_modules/procflows/single_source.py] (module [SingleSource])
    - [geoips/interface_modules/procflows/config_based.py]  (modules
      [ConfigBased], [ConfigDicts] and [ConfigReads])
    - [geoips/interface_modules/coverage_checks/center_radius_rgba.py]
      (module [CenterRadiusRgba])

    Conventions of the embedding.

    - A Python exception is a value of [exn]; code that can raise returns
      [res A].  Code that mutates objects shared with its caller runs in a
      store-passing monad over an explicit object store.
    - Plugins (readers, algorithms, interpolators, output formats, filename
      formats) and the product/output metadata accessors of [geoips.dev] are
      collaborators outside this code base.  They are [Variable]s of the
      section that embeds their caller.  A collaborator whose failure the
      caller neither handles nor depends on is taken as a total function.
    - A Python [dict] whose iteration order is observable is an association
      list in insertion order; one that is only looked up and updated is a
      [gmap].  A nested dict that several objects hold after a shallow copy
      has an identity, and an item written into it shows in each of them.
    - A Python [float] is a binary64 number, a [spec_float] of the standard
      library; products of floats round to nearest, ties to even. *)

From Stdlib Require Import ZArith QArith List String Bool Lia SpecFloat.
From stdpp Require Import base option list gmap strings fin_maps.

Open Scope string_scope.
Open Scope list_scope.
Set Warnings "-register-all".

(** ** Python exceptions and results *)

Inductive exn : Type :=
| KeyError (key : string)
| TypeError (msg : string)
| ValueError (msg : string)
| UnboundLocalError (var : string)
| AttributeError (attribute : string)
| PluginError (msg : string).

Inductive res (A : Type) : Type :=
| Ok (a : A)
| Raise (e : exn).
Arguments Ok {A} a.
Arguments Raise {A} e.

Definition res_bind {A B} (m : res A) (k : A -> res B) : res B :=
  match m with
  | Ok a => k a
  | Raise e => Raise e
  end.

#[global] Instance res_mbind : MBind res := fun A B k m => res_bind m k.
#[global] Instance res_mret : MRet res := fun A a => Ok a.

Definition is_ok {A} (m : res A) : bool :=
  match m with Ok _ => true | Raise _ => false end.

(** ** Computations over an object store

    [St S A] is a computation that reads and updates a store of type [S]
    and returns an [A] or raises. *)

Definition St (S A : Type) : Type := S -> res (A * S).

#[global] Instance St_ret {S} : MRet (St S) := fun A a h => Ok (a, h).
#[global] Instance St_bind {S} : MBind (St S) := fun A B k m h =>
  match m h with
  | Ok (a, h') => k a h'
  | Raise e => Raise e
  end.

Definition raise {S A} (e : exn) : St S A := fun _ => Raise e.

Definition lift {S A} (r : res A) : St S A := fun h =>
  match r with
  | Ok a => Ok (a, h)
  | Raise e => Raise e
  end.

Lemma bind_ok {S A B} (m : St S A) (k : A -> St S B) h a h' :
  m h = Ok (a, h') -> (m ≫= k) h = k a h'.
Proof. intros Hm. unfold mbind, St_bind. by rewrite Hm. Qed.

Lemma bind_raise {S A B} (m : St S A) (k : A -> St S B) h e :
  m h = Raise e -> (m ≫= k) h = Raise e.
Proof. intros Hm. unfold mbind, St_bind. by rewrite Hm. Qed.

Lemma bind_inv {S A B} (m : St S A) (k : A -> St S B) h b h' :
  (m ≫= k) h = Ok (b, h') ->
  exists a h1, m h = Ok (a, h1) /\ k a h1 = Ok (b, h').
Proof.
  unfold mbind, St_bind. destruct (m h) as [[a h1]|e]; [|discriminate].
  intros Hk. eauto.
Qed.

Lemma ret_ok {S A} (a : A) (h : S) : (mret a : St S A) h = Ok (a, h).
Proof. reflexivity. Qed.

Lemma lift_ok {S A} (r : res A) a (h : S) : r = Ok a -> lift r h = Ok (a, h).
Proof. intros ->. reflexivity. Qed.

Lemma ret_inv {S A} (a b : A) (h h' : S) :
  (mret a : St S A) h = Ok (b, h') -> b = a /\ h' = h.
Proof. intros [= <- <-]. done. Qed.

Lemma lift_inv {S A} (r : res A) a (h h' : S) :
  lift r h = Ok (a, h') -> r = Ok a /\ h' = h.
Proof. unfold lift. destruct r; intros [= <- <-]; done. Qed.

(** Inversion of a successful bind, naming the intermediate result. *)
Ltac minv H a h H1 := apply bind_inv in H as (a & h & H1 & H).

(** ** Insertion-ordered dictionaries

    [d[k] = v] keeps the position of an existing key and appends a new one;
    [list(d.keys())] is the list of first components. *)

Section OrderedDict.
Context {K V : Type} `{EqDecision K}.

Definition odict := list (K * V).

Fixpoint od_get (d : list (K * V)) (k : K) : option V :=
    match d with
    | [] => None
    | (k', v) :: d' => if decide (k = k') then Some v else od_get d' k
    end.

Fixpoint od_set (d : list (K * V)) (k : K) (v : V) : list (K * V) :=
    match d with
    | [] => [(k, v)]
    | (k', v') :: d' =>
        if decide (k = k') then (k', v) :: d' else (k', v') :: od_set d' k v
    end.

Definition od_keys (d : list (K * V)) : list K := map fst d.

Definition od_mem (d : list (K * V)) (k : K) : bool :=
    match od_get d k with Some _ => true | None => false end.

Lemma od_get_set_eq d k v : od_get (od_set d k v) k = Some v.
Proof.
    induction d as [|[k' v'] d IH]; simpl.
    - destruct (decide (k = k)); congruence.
    - destruct (decide (k = k')) as [->|Hne]; simpl.
      + destruct (decide (k' = k')); congruence.
      + destruct (decide (k = k')); [contradiction|exact IH].
Qed.

Lemma od_get_set_ne d k k' v : k <> k' -> od_get (od_set d k v) k' = od_get d k'.
Proof.
    intros Hne. induction d as [|[k0 v0] d IH]; simpl.
    - destruct (decide (k' = k)); congruence.
    - destruct (decide (k = k0)) as [->|Hk]; simpl.
      + destruct (decide (k' = k0)); congruence.
      + destruct (decide (k' = k0)); [reflexivity|exact IH].
Qed.
Lemma od_keys_set_new d k v :
  od_get d k = None -> od_keys (od_set d k v) = od_keys d ++ [k].
Proof.
  induction d as [|[k' v'] d IH]; simpl; [done|].
  destruct (decide (k = k')); [discriminate|].
  intros Hget. simpl. by rewrite <- IH.
Qed.

Lemma od_keys_set_old d k v :
  od_mem d k = true -> od_keys (od_set d k v) = od_keys d.
Proof.
  unfold od_mem. induction d as [|[k' v'] d IH]; simpl; [discriminate|].
  destruct (decide (k = k')); [done|].
  intros Hget. simpl. by rewrite IH.
Qed.

Lemma od_get_none_keys d k : od_get d k = None -> k ∉ od_keys d.
Proof.
  induction d as [|[k' v'] d IH]; simpl; [intros _; apply not_elem_of_nil|].
  destruct (decide (k = k')); [discriminate|].
  intros Hget. apply not_elem_of_cons. split; [done|by apply IH].
Qed.

Lemma od_mem_set d k v : od_mem (od_set d k v) k = true.
Proof. unfold od_mem. by rewrite od_get_set_eq. Qed.

End OrderedDict.

Section OrderedDictFacts.
Context {K V : Type} `{EqDecision K}.

Lemma od_keys_set_elem (d : list (K * V)) k v x :
  x ∈ od_keys (od_set d k v) <-> x = k \/ x ∈ od_keys d.
Proof.
  induction d as [|[k' v'] d IH]; simpl.
  - rewrite list_elem_of_singleton. split; [by left|].
    intros [->|H]; [done|by apply elem_of_nil in H].
  - destruct (decide (k = k')) as [->|Hne]; simpl.
    + rewrite elem_of_cons. tauto.
    + rewrite !elem_of_cons, IH. tauto.
Qed.

Lemma od_get_in_keys (d : list (K * V)) k :
  k ∈ od_keys d -> is_Some (od_get d k).
Proof.
  intros Hin. destruct (od_get d k) eqn:Hget; [by eexists|].
  by apply od_get_none_keys in Hget.
Qed.

Lemma od_get_in (d : list (K * V)) k v : od_get d k = Some v -> (k, v) ∈ d.
Proof.
  induction d as [|[k' v'] d IH]; simpl; [discriminate|].
  destruct (decide (k = k')) as [->|Hne].
  - intros [= ->]. by left.
  - intros Hget. right. by apply IH.
Qed.

Lemma od_set_in (d : list (K * V)) k v kv :
  kv ∈ od_set d k v -> kv = (k, v) \/ kv ∈ d.
Proof.
  induction d as [|[k' v'] d IH]; simpl.
  - rewrite list_elem_of_singleton. by left.
  - destruct (decide (k = k')) as [->|Hne]; rewrite !elem_of_cons.
    + intros [->|H]; [by left|by right; right].
    + intros [->|H]; [by right; left|].
      destruct (IH H); [by left|by right; right].
Qed.

End OrderedDictFacts.

(** * geoips/filenames/duplicate_files.py *)

Module DuplicateFiles.

(** The value stored for a file name in the [fnames] dictionary: the field
      ["filename_format"] is the only one [remove_duplicates] reads. *)
Record fname_entry : Type := { filename_format : string }.

Section RemoveDuplicates.
(** The state of the output directories: a hook called with
      [remove_files=True] deletes files, so later hooks observe what
      earlier ones did. *)
Context {World : Type}.

(** [<filename_format>_remove_duplicates(fname, remove_files)]. *)
Definition dup_hook : Type :=
    string -> bool -> World -> (list string * list string) * World.

(** [getattr(import_module(plugin.__module__),
      f"{filename_format}_remove_duplicates")] when [hasattr] holds. *)
Variable remove_duplicates_hook : string -> option dup_hook.

(** The [for fname in fnames] loop, with its two accumulators. *)
Fixpoint remove_duplicates_loop (fnames : list (string * fname_entry))
      (remove_files : bool) (removed_files saved_files : list string)
      (w : World) : (list string * list string) * World :=
    match fnames with
    | [] => ((removed_files, saved_files), w)
    | (fname, entry) :: rest =>
        match remove_duplicates_hook (filename_format entry) with
        | Some fnamer_remove_dups =>
            let '((curr_removed_files, curr_saved_files), w') :=
              fnamer_remove_dups fname remove_files w in
            remove_duplicates_loop rest remove_files
              (removed_files ++ curr_removed_files)
              (saved_files ++ curr_saved_files) w'
        | None =>
            (* LOG.warning("SKIPPING DUPLICATE REMOVAL ...") *)
            remove_duplicates_loop rest remove_files removed_files saved_files w
        end
    end.

Definition remove_duplicates (fnames : list (string * fname_entry))
      (remove_files : bool) (w : World) : (list string * list string) * World :=
    remove_duplicates_loop fnames remove_files [] [] w.

(** *** Reference behaviour: the hooks that exist, called in input order *)

Definition hooked (fnames : list (string * fname_entry))
      : list (string * dup_hook) :=
    omap (fun fe : string * fname_entry =>
            match remove_duplicates_hook (filename_format (snd fe)) with
            | Some h => Some (fst fe, h)
            | None => None
            end) fnames.

Fixpoint run_hooks (calls : list (string * dup_hook)) (remove_files : bool)
      (w : World) : list (list string * list string) * World :=
    match calls with
    | [] => ([], w)
    | (fname, h) :: rest =>
        let '(r, w') := h fname remove_files w in
        let '(rs, w'') := run_hooks rest remove_files w' in
        (r :: rs, w'')
    end.

Lemma hooked_cons fname entry rest :
    hooked ((fname, entry) :: rest) =
    match remove_duplicates_hook (filename_format entry) with
    | Some h => (fname, h) :: hooked rest
    | None => hooked rest
    end.
Proof.
    unfold hooked. simpl.
    by destruct (remove_duplicates_hook (filename_format entry)).
Qed.

Lemma remove_duplicates_loop_spec fnames remove_files removed saved w :
    remove_duplicates_loop fnames remove_files removed saved w =
    let '(rs, w') := run_hooks (hooked fnames) remove_files w in
    ((removed ++ concat (map fst rs), saved ++ concat (map snd rs)), w').
Proof.
    revert removed saved w.
    induction fnames as [|[fname entry] rest IH]; intros removed saved w.
    - simpl. by rewrite !app_nil_r.
    - rewrite hooked_cons. simpl.
      destruct (remove_duplicates_hook (filename_format entry)) as [h|] eqn:Hh.
      + simpl. destruct (h fname remove_files w) as [[cr cs] w1] eqn:Hcall.
        rewrite IH.
        destruct (run_hooks (hooked rest) remove_files w1) as [rs w2].
        simpl. by rewrite <- !app_assoc.
      + apply IH.
Qed.

Lemma hooked_app l1 l2 : hooked (l1 ++ l2) = hooked l1 ++ hooked l2.
Proof. unfold hooked. apply omap_app. Qed.

(** C10.  [remove_duplicates] calls the [<format>_remove_duplicates] hook
      exactly for the file names whose format defines one, in the iteration
      order of the input, and returns the concatenation of the hooks'
      removed lists and of their saved lists.  A file name whose format has
      no hook is skipped: it triggers no call and adds nothing to either
      list, so the result is the one obtained without that entry.  An empty
      input gives two empty lists. *)
Theorem remove_duplicates_hooks_only :
    (forall fnames remove_files w,
        remove_duplicates fnames remove_files w =
        let '(rs, w') := run_hooks (hooked fnames) remove_files w in
        ((concat (map fst rs), concat (map snd rs)), w'))
    /\ (forall l1 fname entry l2 remove_files w,
        remove_duplicates_hook (filename_format entry) = None ->
        remove_duplicates (l1 ++ (fname, entry) :: l2) remove_files w =
        remove_duplicates (l1 ++ l2) remove_files w)
    /\ (forall fnames remove_files w,
        (forall fname entry, In (fname, entry) fnames ->
           remove_duplicates_hook (filename_format entry) = None) ->
        remove_duplicates fnames remove_files w = (([], []), w))
    /\ (forall remove_files w,
        remove_duplicates [] remove_files w = (([], []), w)).
Proof.
    assert (Hspec : forall fnames remove_files w,
        remove_duplicates fnames remove_files w =
        let '(rs, w') := run_hooks (hooked fnames) remove_files w in
        ((concat (map fst rs), concat (map snd rs)), w')).
    { intros. unfold remove_duplicates. by rewrite remove_duplicates_loop_spec. }
    split; [exact Hspec|]. split; [|split].
    - intros l1 fname entry l2 remove_files w Hnone.
      rewrite !Hspec, !hooked_app.
      by rewrite hooked_cons, Hnone.
    - intros fnames remove_files w Hnone. rewrite Hspec.
      replace (hooked fnames) with (@nil (string * dup_hook)); [reflexivity|].
      induction fnames as [|[f e] rest IH]; [reflexivity|].
      rewrite hooked_cons, (Hnone f e) by (left; reflexivity).
      apply IH. intros f' e' Hin. apply (Hnone f' e'). by right.
    - reflexivity.
Qed.
End RemoveDuplicates.
End DuplicateFiles.

(** * geoips/interface_modules/procflows/single_source.py *)

Module SingleSource.

(** ** Data model *)

(** Values of the free-form [sector_info] and [proj_dict] mappings. *)
Inductive info_val : Type :=
| InfoNum (q : Q)
| InfoStr (s : string).

(** A pyresample area definition with the attributes GeoIPS attaches. *)
Record AreaDefinition : Type := {
  name : string;
  area_id : string;
  description : string;
  sector_type : string;
  sector_info : gmap string info_val;
  proj_dict : gmap string info_val;
  x_size : Z;
  y_size : Z;
  pixel_size_x : Q;
  pixel_size_y : Q;
  area_extent : Q * Q * Q * Q
}.

(** [d[key]] on a mapping: [KeyError] when the key is absent. *)
Definition dict_item {V} (d : gmap string V) (key : string) : res V :=
  match d !! key with
  | Some v => Ok v
  | None => Raise (KeyError key)
  end.

(** Python's [int(x)] on a number: truncation toward zero. *)
Definition py_int (x : Q) : Z := Z.quot (Qnum x) (Zpos (Qden x)).

(** [x < y] on numbers. *)
Definition Qltb (x y : Q) : bool := negb (Qle_bool y x).

Lemma Qltb_lt x y : Qltb x y = true <-> (x < y)%Q.
Proof.
  unfold Qltb. rewrite negb_true_iff. split.
  - intros Hle. apply Qnot_le_lt. intros Hyx.
    apply Qle_bool_iff in Hyx. congruence.
  - intros Hlt. destruct (Qle_bool y x) eqn:Hle; [|done].
    apply Qle_bool_iff in Hle. by apply Qlt_not_le in Hlt.
Qed.

(** ** Python floats

    The scale factors of [pad_area_definition] are Python floats, and
    [area_def.y_size * y_scale_factor] is a product of binary64 numbers that
    [int] then truncates.  The model computes it as the code does: numbers are
    [spec_float] values with 53 bits of precision, every operation rounds to
    nearest, ties to even.  A scale factor is given by the decimal it is
    written as ([1.5] is [15 / 10]) and read as the nearest float.  [int] of
    an infinity or of a nan raises in Python; the sizes and factors of an
    area definition are far from that range, and [py_int_of_float] gives 0
    there. *)

(** [float(n)] of an integer. *)
Definition py_float_of_int (n : Z) : spec_float :=
  binary_normalize 53 1024 n 0 false.

(** The float a decimal literal denotes. *)
Definition py_float (q : Q) : spec_float :=
  SFdiv 53 1024 (py_float_of_int (Qnum q)) (py_float_of_int (Zpos (Qden q))).

(** [int(x)] of a float: truncation toward zero. *)
Definition py_int_of_float (x : spec_float) : Z :=
  match x with
  | S754_finite s m e =>
      let magnitude :=
        match e with
        | Zneg k => Z.shiftr (Zpos m) (Zpos k)
        | _ => Z.shiftl (Zpos m) e
        end in
      if s then (- magnitude)%Z else magnitude
  | _ => 0%Z
  end.

(** [int(n * f)] for an integer [n] and a float [f]. *)
Definition py_int_times_float (n : Z) (f : Q) : Z :=
  py_int_of_float (SFmul 53 1024 (py_float_of_int n) (py_float f)).

Section BinaryFloats.

Local Open Scope Z_scope.

Lemma iter_pos_peano {A} (f : A -> A) (n : positive) (x : A) :
  SpecFloat.iter_pos f n x = Pos.iter f x n.
Proof.
  revert x. induction n as [n IH|n IH|]; intros x; cbn [SpecFloat.iter_pos Pos.iter].
  - rewrite !IH. by rewrite <- !Pos.iter_swap.
  - by rewrite !IH.
  - reflexivity.
Qed.

Lemma shr_1_even (m : Z) :
  0 < m -> Z.even m = true ->
  shr_1 {| shr_m := m; shr_r := false; shr_s := false |}
  = {| shr_m := m / 2; shr_r := false; shr_s := false |}.
Proof.
  intros Hm Heven. destruct m as [|p|p]; [lia| |lia].
  destruct p as [p|p|]; [discriminate| |discriminate].
  cbn [shr_1 orb]. f_equal.
  change (Z.pos p~0) with (2 * Z.pos p). by rewrite Z.mul_comm, Z.div_mul.
Qed.

Lemma shr_exact (n : positive) (m : Z) :
  0 < m -> (2 ^ Z.pos n | m) ->
  SpecFloat.iter_pos shr_1 n {| shr_m := m; shr_r := false; shr_s := false |}
  = {| shr_m := m / 2 ^ Z.pos n; shr_r := false; shr_s := false |}.
Proof.
  rewrite iter_pos_peano. revert m.
  induction n as [|n IH] using Pos.peano_ind; intros m Hm [k Hk].
  - cbn [Pos.iter]. change (2 ^ 1) with 2 in *.
    apply shr_1_even; [done|]. subst m. by rewrite Z.even_mul, orb_true_r.
  - rewrite Pos2Z.inj_succ, Z.pow_succ_r in * by lia.
    rewrite Pos.iter_succ, <- Pos.iter_swap.
    rewrite shr_1_even; [| done |subst m; by rewrite Z.mul_assoc, Z.even_mul, Z.even_mul, orb_true_r].
    assert (Hhalf : m / 2 = k * 2 ^ Z.pos n).
    { subst m. rewrite (Z.mul_comm 2), Z.mul_assoc. by rewrite Z.div_mul. }
    rewrite IH.
    + f_equal. rewrite <- Z.div_div by lia. reflexivity.
    + rewrite Hhalf. assert (0 < 2 ^ Z.pos n) by (apply Z.pow_pos_nonneg; lia). nia.
    + rewrite Hhalf. by exists k.
Qed.

Lemma digits2_pos_size p : digits2_pos p = Pos.size p.
Proof. induction p as [p IH|p IH|]; cbn; by rewrite ?IH. Qed.

Lemma Zdigits2_log2 m : 0 < m -> Zdigits2 m = Z.log2 m + 1.
Proof.
  destruct m as [|p|p]; [lia| |lia]. intros _. cbn [Zdigits2].
  rewrite digits2_pos_size.
  destruct p as [p|p|]; cbn [Pos.size Z.log2]; lia.
Qed.

Lemma shr_fexp_kept m e :
  0 < m -> Z.log2 m + 1 <= 53 -> -1074 <= e ->
  shr_fexp 53 1024 m e loc_Exact
  = ({| shr_m := m; shr_r := false; shr_s := false |}, e).
Proof.
  intros Hm Hd He.
  unfold shr_fexp, shr, fexp, emin. rewrite Zdigits2_log2 by done.
  cbn [shr_record_of_loc].
  destruct (Z.max (Z.log2 m + 1 + e - 53) (3 - 1024 - 53) - e) eqn:Hn;
    [reflexivity|lia|reflexivity].
Qed.

Lemma round_tail sx m e :
  0 < m -> Z.log2 m + 1 <= 53 -> -1074 <= e <= 971 ->
  (let '(mrs, e') := shr_fexp 53 1024 m e loc_Exact in
   match shr_m mrs with
   | 0 => S754_zero sx
   | Z.pos m =>
       if e' <=? 1024 - 53 then S754_finite sx m e' else S754_infinity sx
   | Z.neg _ => S754_nan
   end) = S754_finite sx (Z.to_pos m) e.
Proof.
  intros Hm Hd He. rewrite shr_fexp_kept by (done || lia).
  cbn [shr_m]. destruct m as [|p|p]; [lia| |lia].
  cbn [Z.to_pos].
  destruct (Z.leb_spec e (1024 - 53)); [reflexivity|lia].
Qed.

Lemma round_kept sx m e :
  0 < m -> Z.log2 m + 1 <= 53 -> -1074 <= e <= 971 ->
  binary_round_aux 53 1024 sx m e loc_Exact = S754_finite sx (Z.to_pos m) e.
Proof.
  intros Hm Hd He.
  unfold binary_round_aux. rewrite shr_fexp_kept by (done || lia).
  cbn [shr_m loc_of_shr_record round_nearest_even].
  by apply round_tail.
Qed.

Lemma round_exact sx m e n :
  0 < m -> 0 < n -> Z.log2 m + 1 = 53 + n -> (2 ^ n | m) ->
  -1074 <= e + n <= 971 ->
  binary_round_aux 53 1024 sx m e loc_Exact
  = S754_finite sx (Z.to_pos (m / 2 ^ n)) (e + n).
Proof.
  intros Hm Hn Hd Hdiv He.
  assert (Hpow : 0 < 2 ^ n) by (apply Z.pow_pos_nonneg; lia).
  assert (Hq : 0 < m / 2 ^ n).
  { destruct Hdiv as [k ->]. rewrite Z.div_mul by lia. nia. }
  assert (Hshr : shr_fexp 53 1024 m e loc_Exact
                 = ({| shr_m := m / 2 ^ n; shr_r := false; shr_s := false |},
                    e + n)).
  { unfold shr_fexp, shr, fexp, emin. rewrite Zdigits2_log2 by done.
    cbn [shr_record_of_loc].
    replace (Z.max (Z.log2 m + 1 + e - 53) (3 - 1024 - 53) - e) with n by lia.
    destruct n as [|pn|pn]; [lia| |lia].
    by rewrite shr_exact. }
  unfold binary_round_aux. rewrite Hshr.
  cbn [shr_m loc_of_shr_record round_nearest_even].
  apply round_tail; [done| |done].
  rewrite <- Z.shiftr_div_pow2 by lia.
  rewrite Z.log2_shiftr by done. lia.
Qed.

Lemma iter_xO_pow2 p k : Z.pos (Pos.iter xO p k) = Z.pos p * 2 ^ Z.pos k.
Proof.
  induction k as [|k IH] using Pos.peano_ind.
  - cbn [Pos.iter]. change (2 ^ 1) with 2. lia.
  - rewrite Pos.iter_succ, Pos2Z.inj_succ, Z.pow_succ_r by lia.
    change (Z.pos (Pos.iter xO p k)~0) with (2 * Z.pos (Pos.iter xO p k)).
    rewrite IH. lia.
Qed.

Lemma py_float_of_int_exact n :
  0 < n -> Z.log2 n < 53 ->
  py_float_of_int n
  = S754_finite false (Z.to_pos (n * 2 ^ (52 - Z.log2 n))) (Z.log2 n - 52).
Proof.
  intros Hn Hd. destruct n as [|p|p]; [lia| |lia].
  unfold py_float_of_int, binary_normalize, binary_round, fexp, emin.
  pose proof (Zdigits2_log2 (Z.pos p) Hn) as Hdig. cbn [Zdigits2] in Hdig.
  rewrite Hdig. unfold shl_align.
  replace (Z.max (Z.log2 (Z.pos p) + 1 + 0 - 53) (3 - 1024 - 53) - 0)
    with (Z.log2 (Z.pos p) - 52) by lia.
  destruct (Z.log2 (Z.pos p) - 52) as [|k|k] eqn:Hk; [|lia|].
  - replace (52 - Z.log2 (Z.pos p)) with 0 by lia.
    rewrite Z.mul_1_r. apply round_kept; lia.
  - assert (Hshift : 52 - Z.log2 (Z.pos p) = Z.pos k) by lia.
    rewrite Hshift, <- iter_xO_pow2.
    replace (Z.max (Z.log2 (Z.pos p) + 1 + 0 - 53) (3 - 1024 - 53))
      with (Z.neg k) by lia.
    apply round_kept; [lia| |lia].
    rewrite iter_xO_pow2, Z.log2_mul_pow2 by lia. lia.
Qed.

Definition one_and_a_half : spec_float := S754_finite false 6755399441055744 (-52).

Lemma py_float_one_and_a_half : py_float 1.5 = one_and_a_half.
Proof. vm_compute. reflexivity. Qed.

Lemma py_int_times_one_and_a_half n :
  0 <= n < 2 ^ 51 -> py_int_times_float n 1.5 = 3 * n / 2.
Proof.
  intros [Hn Hlt]. unfold py_int_times_float. rewrite py_float_one_and_a_half.
  destruct (decide (n = 0)) as [->|Hne]; [reflexivity|].
  assert (Hpos : 0 < n) by lia.
  assert (Hlog : Z.log2 n < 51) by (apply Z.log2_lt_pow2; lia).
  pose proof (Z.log2_nonneg n) as Hlog0.
  rewrite py_float_of_int_exact by lia.
  unfold one_and_a_half. cbn [SFmul xorb].
  set (d := Z.log2 n) in *.
  assert (Hp : 0 < 2 ^ (52 - d)) by (apply Z.pow_pos_nonneg; lia).
  assert (Hm : Z.pos (Z.to_pos (n * 2 ^ (52 - d)) * 6755399441055744)
               = 3 * n * 2 ^ (103 - d)).
  { rewrite Pos2Z.inj_mul, Z2Pos.id by nia.
    change (Z.pos 6755399441055744) with (3 * 2 ^ 51).
    replace (103 - d) with (52 - d + 51) by lia.
    rewrite Z.pow_add_r by lia. ring. }
  rewrite Hm.
  set (L := Z.log2 (3 * n)).
  assert (HL : d + 1 <= L <= d + 2 /\ L <= 52).
  { subst L d. pose proof (Z.log2_spec n Hpos) as [Hlo Hhi].
    rewrite <- Z.add_1_r, Z.pow_add_r in Hhi by lia. change (2 ^ 1) with 2 in Hhi.
    split; [split|].
    - apply Z.log2_le_pow2; [lia|].
      rewrite Z.pow_add_r by lia. change (2 ^ 1) with 2. lia.
    - assert (Z.log2 (3 * n) < Z.log2 n + 3); [|lia].
      apply Z.log2_lt_pow2; [lia|].
      replace (Z.log2 n + 3) with (Z.log2 n + 1 + 2) by lia.
      rewrite !Z.pow_add_r by lia. change (2 ^ 1) with 2. change (2 ^ 2) with 4.
      lia.
    - assert (Z.log2 (3 * n) < 53); [|lia].
      apply Z.log2_lt_pow2; [lia|].
      change (2 ^ 53) with (4 * 2 ^ 51). lia. }
  destruct HL as [[HL1 HL2] HL3].
  assert (Hlogm : Z.log2 (3 * n * 2 ^ (103 - d)) = L + (103 - d)).
  { rewrite Z.log2_mul_pow2 by lia. subst L. lia. }
  rewrite (round_exact false _ _ (L + 51 - d)).
  - replace (d - 52 + -52 + (L + 51 - d)) with (L - 53) by lia.
    destruct (L - 53) as [|k|k] eqn:Hk; [lia|lia|].
    cbn [py_int_of_float].
    assert (Hpow : 0 < 2 ^ (L + 51 - d)) by (apply Z.pow_pos_nonneg; lia).
    assert (Hq : 3 * n * 2 ^ (103 - d) / 2 ^ (L + 51 - d)
                 = 3 * n * 2 ^ (52 - L)).
    { replace (103 - d) with (52 - L + (L + 51 - d)) by lia.
      rewrite Z.pow_add_r, Z.mul_assoc, Z.div_mul by lia. reflexivity. }
    rewrite Hq.
    assert (Hp2 : 0 < 2 ^ (52 - L)) by (apply Z.pow_pos_nonneg; lia).
    rewrite Z2Pos.id by nia.
    rewrite Z.shiftr_div_pow2 by lia.
    replace (Z.pos k) with (52 - L + 1) by lia.
    rewrite Z.pow_add_r by lia. change (2 ^ 1) with 2.
    rewrite <- Z.div_div by lia.
    by rewrite Z.div_mul by lia.
  - assert (0 < 2 ^ (103 - d)) by (apply Z.pow_pos_nonneg; lia). nia.
  - lia.
  - rewrite Hlogm. lia.
  - exists (3 * n * 2 ^ (52 - L)).
    replace (103 - d) with (52 - L + (L + 51 - d)) by lia.
    rewrite Z.pow_add_r by lia. ring.
  - lia.
Qed.

End BinaryFloats.

(** ** [pad_area_definition] *)

Section PadAreaDefinition.

(** [geoips.sector_utils.utils.is_sector_type(area_def, sector_type_str)]. *)
Variable is_sector_type : AreaDefinition -> string -> bool.

(** [clat_clon_resolution_shape(area_id, long_description, clat, clon,
    projection, num_lines, num_samples, pixel_width, pixel_height)] of
    [geoips.interface_modules.area_def_generators]. *)
Variable clat_clon_resolution_shape :
  string -> string -> info_val -> info_val -> string -> Z -> Z -> Q -> Q ->
  AreaDefinition.

(** [geoips.sector_utils.utils.copy_sector_info(src, dest)]. *)
Variable copy_sector_info : AreaDefinition -> AreaDefinition -> AreaDefinition.

(** The pixel counts of the padded area: the scale factors apply, except for
    the two full-swath sources. *)
Definition padded_shape (area_def : AreaDefinition) (source_name : option string)
    (x_scale_factor y_scale_factor : Q) : Z * Z :=
  let num_lines := py_int_times_float (y_size area_def) y_scale_factor in
  let num_samples := py_int_times_float (x_size area_def) x_scale_factor in
  match source_name with
  | Some s =>
      if bool_decide (s ∈ ["amsu-b"; "mhs"]) then
        (py_int (inject_Z (y_size area_def) * 1), py_int (inject_Z (x_size area_def) * 5))
      else (num_lines, num_samples)
  | None => (num_lines, num_samples)
  end.

(** The centre of the padded area: the storm centre for tc sectors, the
    projection centre otherwise. *)
Definition padded_center (area_def : AreaDefinition) : res (info_val * info_val) :=
  if is_sector_type area_def "tc" then
    clat ← dict_item (sector_info area_def) "clat";
    clon ← dict_item (sector_info area_def) "clon";
    mret (clat, clon)
  else
    clat ← dict_item (proj_dict area_def) "lat_0";
    clon ← dict_item (proj_dict area_def) "lon_0";
    mret (clat, clon).

Definition pad_area_definition (area_def : AreaDefinition)
    (source_name : option string) (force_pad : bool)
    (x_scale_factor y_scale_factor : Q) : res AreaDefinition :=
  if is_sector_type area_def "tc" || force_pad then
    let '(num_lines, num_samples) :=
      padded_shape area_def source_name x_scale_factor y_scale_factor in
    '(clat, clon) ← padded_center area_def;
    let pad_area_def :=
      clat_clon_resolution_shape (area_id area_def) (description area_def)
        clat clon "eqc" num_lines num_samples
        (pixel_size_x area_def) (pixel_size_y area_def) in
    mret (copy_sector_info area_def pad_area_def)
  else
    mret area_def.

(** C7.  For an area definition whose sector type is not "tc", padding with
    [force_pad=False] returns the input area definition itself, whatever the
    source name and the scale factors: name, extents and every other field
    are those of the input.  A padded area (pixel counts scaled by the scale
    factors, or [y_size * 1] by [x_size * 5] for the sources amsu-b and mhs)
    is built only for a tc sector or when [force_pad] is set. *)
Theorem pad_area_definition_identity_unless_tc_or_forced :
  (forall area_def source_name x_scale_factor y_scale_factor,
      is_sector_type area_def "tc" = false ->
      pad_area_definition area_def source_name false
        x_scale_factor y_scale_factor = Ok area_def)
  /\ (forall area_def source_name force_pad x_scale_factor y_scale_factor clat clon,
      is_sector_type area_def "tc" || force_pad = true ->
      padded_center area_def = Ok (clat, clon) ->
      pad_area_definition area_def source_name force_pad
        x_scale_factor y_scale_factor =
      Ok (copy_sector_info area_def
            (clat_clon_resolution_shape (area_id area_def) (description area_def)
               clat clon "eqc"
               (fst (padded_shape area_def source_name x_scale_factor y_scale_factor))
               (snd (padded_shape area_def source_name x_scale_factor y_scale_factor))
               (pixel_size_x area_def) (pixel_size_y area_def)))).
Proof.
  split.
  - intros area_def source_name xs ys Htc.
    unfold pad_area_definition. by rewrite Htc.
  - intros area_def source_name force_pad xs ys clat clon Hpad Hcenter.
    unfold pad_area_definition. rewrite Hpad.
    destruct (padded_shape area_def source_name xs ys) as [nl ns].
    by rewrite Hcenter.
Qed.

(** *** The padded area: its size and its centre *)

Lemma py_int_times_one (n : Z) : py_int (inject_Z n * 1) = n.
Proof.
  unfold py_int, inject_Z, Qmult. simpl. rewrite Z.mul_1_r. apply Z.quot_1_r.
Qed.

Lemma py_int_times_five (n : Z) : py_int (inject_Z n * 5) = (n * 5)%Z.
Proof. unfold py_int, inject_Z, Qmult. simpl. apply Z.quot_1_r. Qed.

(** The pixel counts of a padded area.  For the sources amsu-b and mhs they
    are the original number of lines and five times the original number of
    samples, whatever the scale factors.  For every other source, and when
    no source is given, they are [int(y_size * y_scale_factor)] lines and
    [int(x_size * x_scale_factor)] samples, the products being products of
    floats (finite ones: [int] of an infinite product raises, which is
    outside the model); with the default factors of 1.5, which every caller
    of the procflows uses, that is [3 * y_size / 2] lines and
    [3 * x_size / 2] samples, rounded down, for sizes below [2 ^ 51]. *)
Theorem padded_shape_default_factors area_def source_name :
  (forall s x_scale_factor y_scale_factor,
     source_name = Some s -> s = "amsu-b" \/ s = "mhs" ->
     padded_shape area_def source_name x_scale_factor y_scale_factor
     = (y_size area_def, (x_size area_def * 5)%Z))
  /\ ((forall s, source_name = Some s -> s <> "amsu-b" /\ s <> "mhs") ->
      (forall x_scale_factor y_scale_factor,
         padded_shape area_def source_name x_scale_factor y_scale_factor
         = (py_int_times_float (y_size area_def) y_scale_factor,
            py_int_times_float (x_size area_def) x_scale_factor))
      /\ ((0 <= y_size area_def < 2 ^ 51)%Z ->
          (0 <= x_size area_def < 2 ^ 51)%Z ->
          padded_shape area_def source_name 1.5 1.5
          = ((3 * y_size area_def / 2)%Z, (3 * x_size area_def / 2)%Z))).
Proof.
  split.
  - intros s xs ys -> Hs. unfold padded_shape. rewrite bool_decide_eq_true_2.
    + by rewrite py_int_times_one, py_int_times_five.
    + destruct Hs as [-> | ->]; [by left|by right; left].
  - intros Hsrc.
    assert (Hshape : forall xs ys,
               padded_shape area_def source_name xs ys
               = (py_int_times_float (y_size area_def) ys,
                  py_int_times_float (x_size area_def) xs)).
    { intros xs ys. unfold padded_shape. destruct source_name as [s|]; [|done].
      destruct (Hsrc s eq_refl) as [H1 H2].
      rewrite bool_decide_eq_false_2; [done|].
      intros Hin. apply elem_of_cons in Hin as [->|Hin]; [done|].
      by apply list_elem_of_singleton in Hin. }
    split; [exact Hshape|].
    intros Hy Hx. rewrite Hshape.
    by rewrite !py_int_times_one_and_a_half.
Qed.

(** The centre of a padded area is read from [sector_info] ([clat],
    [clon]) for a tc sector and from [proj_dict] ([lat_0], [lon_0])
    otherwise, never from the other mapping: when the mapping that is read
    lacks its key, padding fails with the [KeyError] of that key. *)
Theorem pad_area_definition_centre area_def source_name force_pad
    x_scale_factor y_scale_factor :
  (is_sector_type area_def "tc" = true ->
   sector_info area_def !! "clat" = None ->
   pad_area_definition area_def source_name force_pad x_scale_factor
     y_scale_factor = Raise (KeyError "clat"))
  /\ (is_sector_type area_def "tc" = true ->
      is_Some (sector_info area_def !! "clat") ->
      sector_info area_def !! "clon" = None ->
      pad_area_definition area_def source_name force_pad x_scale_factor
        y_scale_factor = Raise (KeyError "clon"))
  /\ (is_sector_type area_def "tc" = false -> force_pad = true ->
      proj_dict area_def !! "lat_0" = None ->
      pad_area_definition area_def source_name force_pad x_scale_factor
        y_scale_factor = Raise (KeyError "lat_0"))
  /\ (is_sector_type area_def "tc" = false -> force_pad = true ->
      is_Some (proj_dict area_def !! "lat_0") ->
      proj_dict area_def !! "lon_0" = None ->
      pad_area_definition area_def source_name force_pad x_scale_factor
        y_scale_factor = Raise (KeyError "lon_0")).
Proof.
  unfold pad_area_definition, padded_center, dict_item.
  destruct (padded_shape area_def source_name x_scale_factor y_scale_factor)
    as [num_lines num_samples].
  repeat split.
  - intros -> ->. reflexivity.
  - intros -> [clat ->] ->. reflexivity.
  - intros -> -> ->. reflexivity.
  - intros -> -> [clat ->] ->. reflexivity.
Qed.

End PadAreaDefinition.

(** ** [verify_area_def] *)

Section VerifyAreaDef.

(** [geoips.sector_utils.utils.filter_area_defs_actual_time(area_defs,
    actual_datetime)]. *)
Variable filter_area_defs_actual_time :
  list AreaDefinition -> Z -> list AreaDefinition.

(** A [datetime] is a count of microseconds; [timedelta(hours=h)] is the
    span of [h] hours. *)
Definition timedelta_hours (h : Z) : Z := (h * 3600000000)%Z.

Definition verify_area_def (area_defs : list AreaDefinition)
    (check_area_def : AreaDefinition)
    (data_start_datetime data_end_datetime : Z) (time_range_hours : Z)
    : res bool :=
  (* the only assignment of new_area_defs is under the [if] *)
  let new_area_defs :=
    if (data_end_datetime - data_start_datetime <? timedelta_hours time_range_hours)%Z
    then Some (filter_area_defs_actual_time area_defs data_start_datetime)
    else None in
  match new_area_defs with
  | None => Raise (UnboundLocalError "new_area_defs")
  | Some new_area_defs =>
      if negb (bool_decide (name check_area_def ∈ map name new_area_defs))
      then mret false
      else mret true
  end.

(** [time_range_hours=3] *)
Definition verify_area_def_default area_defs check_area_def
    data_start_datetime data_end_datetime : res bool :=
  verify_area_def area_defs check_area_def data_start_datetime data_end_datetime 3.

(** C5.  When the data time span (end minus start) is not less than
    [time_range_hours], [new_area_defs] is never assigned and the call fails
    where the variable is first read, with no boolean returned; a call whose
    time span is strictly under [time_range_hours] returns a boolean: whether
    the checked area's name is among the time-filtered areas. *)
Theorem verify_area_def_unbound_on_long_span :
  (forall area_defs check_area_def data_start_datetime data_end_datetime
          time_range_hours,
      (timedelta_hours time_range_hours
         <= data_end_datetime - data_start_datetime)%Z ->
      verify_area_def area_defs check_area_def data_start_datetime
        data_end_datetime time_range_hours
      = Raise (UnboundLocalError "new_area_defs"))
  /\ (forall area_defs check_area_def data_start_datetime data_end_datetime
             time_range_hours,
      (data_end_datetime - data_start_datetime
         < timedelta_hours time_range_hours)%Z ->
      verify_area_def area_defs check_area_def data_start_datetime
        data_end_datetime time_range_hours
      = Ok (bool_decide
              (name check_area_def ∈
                 map name (filter_area_defs_actual_time area_defs
                             data_start_datetime)))).
Proof.
  split; intros area_defs check_area_def t0 t1 h Hspan; unfold verify_area_def.
  - destruct (Z.ltb_spec (t1 - t0) (timedelta_hours h)) as [Hlt|Hge]; [lia|].
    reflexivity.
  - destruct (Z.ltb_spec (t1 - t0) (timedelta_hours h)) as [Hlt|Hge]; [|lia].
    by destruct (bool_decide _).
Qed.

End VerifyAreaDef.

(** ** Datasets and output bookkeeping *)

(** A numeric (masked) array: shape and flattened samples. *)
Inductive ndarray : Type := NdArray (shape : list nat) (data : list Q).

(** Configuration values, as read from YAML or the command line. *)
Inductive pyval : Type :=
| PyNone
| PyBool (b : bool)
| PyNum (q : Q)
| PyStr (s : string)
| PyList (l : list pyval)
| PyDict (d : list (string * pyval)).

(** An xarray dataset: its variables in order, the length of its [time]
    dimension when it has one, and its attributes.  The attributes the
    workflows read are typed fields, each present or absent; the remaining
    ones are kept in [other_attrs].

    [attrs["filename_extra_fields"]] is a dict of its own, and [attrs.copy()]
    is shallow: a dataset whose attributes were copied from another holds the
    same dict object, and an item written into it shows in both.
    [filename_extra_fields] is the content of that dict as the dataset reads
    it, and [filename_extra_fields_id] names the dict object while the
    attribute is present; it is what tells a shared dict from an equal one
    in the object store of [get_alg_xarray]. *)
Record Dataset : Type := {
  ds_variables : list (string * ndarray);
  time_dim : option nat;
  source_name : option string;
  start_datetime : option Z;
  end_datetime : option Z;
  minimum_coverage : option Q;
  product_name_attr : option string;
  filename_extra_fields : option (gmap string info_val);
  filename_extra_fields_id : nat;
  other_attrs : gmap string pyval
}.

(** [xarray_obj.<attribute>]: [AttributeError] when the attribute is absent. *)
Definition get_attr {A} (attribute : string) (v : option A) : res A :=
  match v with
  | Some a => Ok a
  | None => Raise (AttributeError attribute)
  end.

(** The value stored under a file name in [output_fnames] and in
    [metadata_fnames]. *)
Inductive fname_info : Type :=
| OutputInfo (filename_format : string)
    (filename_format_kwargs : list (string * pyval)) (product_name : string)
| MetadataInfo (filename_format : string)
    (filename_format_kwargs : list (string * pyval))
    (metadata_filename_format : option string)
    (metadata_filename_format_kwargs : list (string * pyval))
    (product_name : string).

Definition OUTPUT_FAMILIES_WITH_OUTFNAMES_ARG : list string :=
  ["xrdict_varlist_outfnames_to_outlist";
   "xrdict_area_product_outfnames_to_outlist"].

Definition OUTPUT_FAMILIES_WITH_NO_OUTFNAMES_ARG : list string :=
  ["xrdict_area_product_to_outlist"].

Definition FILENAME_FORMATS_WITHOUT_COVG : list string :=
  ["xarray_metadata_to_filename"; "xarray_area_product_to_filename"].

Definition FILENAME_FORMATS_FOR_XARRAY_DICT_TO_OUTPUT_FORMAT : list string :=
  ["xarray_metadata_to_filename"; "xarray_area_product_to_filename"].

Definition PRODUCT_FAMILIES_FOR_XARRAY_DICT_TO_OUTPUT_FORMAT : list string :=
  ["sectored_xarray_dict_to_output_format";
   "unsectored_xarray_dict_to_output_format";
   "unsectored_xarray_dict_area_to_output_format"].

(** [s in l] for a list of strings. *)
Definition str_in (s : string) (l : list string) : bool := bool_decide (s ∈ l).

(** From [str_in s [a; b; ...] = true], one goal per element. *)
Ltac family_cases H :=
  apply bool_decide_eq_true_1 in H;
  repeat (apply elem_of_cons in H; destruct H as [H|H]);
  [..|by apply elem_of_nil in H].

Section Output.

(** The output specification ([output_dict], or the command-line arguments
    of the single-source workflow) and the plotting parameters a colormap
    plugin returns are opaque here. *)
Context {OutputDict MplColors CmapArgs : Type}.

(** Keyword-argument values handed to plugins. *)
Inductive kwarg : Type :=
| KwCfg (v : pyval)
| KwOutputDict (d : OutputDict)
| KwInfo (i : fname_info)
| KwStr (s : string)
| KwColors (c : option MplColors).

(** How a filename-format plugin is called, by family. *)
Inductive filename_call : Type :=
| FnameData (area_def : option AreaDefinition) (xarray_obj : Dataset)
    (product_names : list string) (covg : Q) (kwargs : list (string * pyval))
| FnameXarrayMetadata (xarray_obj : Dataset) (kwargs : list (string * pyval))
| FnameXarrayAreaProduct (xarray_obj : Dataset)
    (area_def : option AreaDefinition) (product_name : string)
    (kwargs : list (string * pyval))
| FnameStandard (area_def : option AreaDefinition) (xarray_obj : Dataset)
    (product_name : string) (covg : Q) (kwargs : list (string * pyval))
| FnameStandardMetadata (area_def : option AreaDefinition)
    (xarray_obj : Dataset) (output_fname : string)
    (kwargs : list (string * pyval)).

(** How an output-format plugin is called, by family. *)
Inductive output_call : Type :=
| OutXarrayData (xarray_obj : Dataset) (product_names : list string)
    (output_fnames : list string)
| OutImage (area_def : AreaDefinition) (xarray_obj : Dataset)
    (product_name : string) (output_fnames : list string)
    (product_name_title : string) (mpl_colors_info : option MplColors)
    (kwargs : list (string * kwarg))
| OutUnprojected (xarray_obj : Dataset) (product_name : string)
    (output_fnames : list string) (product_name_title : string)
    (mpl_colors_info : option MplColors) (kwargs : list (string * kwarg))
| OutImageOverlay (area_def : AreaDefinition) (xarray_obj : Dataset)
    (product_name : string) (output_fnames : list string)
    (product_name_title : string) (mpl_colors_info : option MplColors)
    (kwargs : list (string * kwarg))
| OutXrdictAreaProductOutfnames (xarray_dict : option (list (string * Dataset)))
    (area_def : option AreaDefinition) (product_name : string)
    (output_fnames : list string) (kwargs : list (string * kwarg))
| OutXrdictAreaProduct (xarray_dict : option (list (string * Dataset)))
    (area_def : option AreaDefinition) (product_name : string)
    (kwargs : list (string * kwarg))
| OutXrdictVarlistOutfnames (xobjs : list (string * Dataset))
    (variables : list string) (output_fnames : list string)
    (kwargs : list (string * kwarg))
| OutStandardMetadata (area_def : option AreaDefinition) (xarray_obj : Dataset)
    (metadata_yaml_filename : string) (product_filename : string)
    (kwargs : list (string * kwarg)).

(** *** Collaborators *)

(** [geoips.dev.output_config] *)
Variable get_output_format : OutputDict -> string.
(** [get_output_format_kwargs(output_dict, xarray_obj=None, area_def=None)] *)
Variable get_output_format_kwargs :
  OutputDict -> option Dataset -> option AreaDefinition -> list (string * kwarg).
Variable get_filename_formats : OutputDict -> list string.
Variable get_filename_format_kwargs : string -> OutputDict -> list (string * pyval).
Variable get_metadata_filename_format : string -> OutputDict -> option string.
Variable get_metadata_filename_format_kwargs :
  option string -> OutputDict -> list (string * pyval).
Variable get_metadata_output_format : OutputDict -> string.
Variable get_metadata_output_format_kwargs : OutputDict -> list (string * kwarg).

(** [geoips.dev.product] *)
Variable get_product_type : string -> string -> string.
Variable get_product_display_name : string -> string -> string.
Variable get_cmap_name : string -> string -> option string.
Variable get_cmap_args : string -> string -> CmapArgs.
(** The coverage the file name carries: the product's [fname_covg_func],
    found by [get_covg_from_product], applied with its [fname_covg_args];
    finding the function and applying it can both fail. *)
Variable fname_covg :
  string -> Dataset -> option AreaDefinition -> option OutputDict -> res Q.

(** [geoips.interfaces]: a plugin is named by a string; it has a family, a
    list of accepted parameter names and a call behaviour.  An output-format
    plugin returns a Python object: [Some l] is a list of file names, [None]
    anything else. *)
Variable output_family : string -> string.
Variable output_parameters : string -> list string.
Variable output_plugin : string -> output_call -> res (option (list string)).
Variable filename_family : string -> string.
Variable filename_parameters : string -> list string.
Variable filename_plugin : string -> filename_call -> option string.
Variable colormap_plugin : string -> CmapArgs -> MplColors.

(** *** [remove_unsupported_kwargs] *)

Definition remove_unsupported_kwargs {V} (parameters : list string)
    (requested_kwargs : list (string * V)) : list (string * V) :=
  filter (fun kv => str_in (fst kv) parameters = true) requested_kwargs.

(** Reading a local variable that is assigned on some paths only. *)
Definition read_local {A} (var : string) (v : option A) : res A :=
  match v with
  | Some a => Ok a
  | None => Raise (UnboundLocalError var)
  end.

(** *** [get_filename] *)

Definition get_filename (filename_format : string) (product_name : string)
    (alg_xarray : Dataset) (area_def : option AreaDefinition)
    (supported_filenamer_types : option (list string))
    (output_dict : option OutputDict)
    (filename_format_kwargs : list (string * pyval)) : res (option string) :=
  let family := filename_family filename_format in
  if match supported_filenamer_types with
     | Some supported => negb (str_in family supported)
     | None => false
     end
  then Raise (TypeError "UNSUPPORTED filename_format")
  else
    (* They all use covg except those in list *)
    covg ←
      (if negb (str_in family FILENAME_FORMATS_WITHOUT_COVG) then
         _ ← get_attr "source_name" (source_name alg_xarray);
         covg ← fname_covg product_name alg_xarray area_def output_dict;
         mret (Some covg)
       else mret None);
    let curr_kwargs :=
      remove_unsupported_kwargs (filename_parameters filename_format)
        filename_format_kwargs in
    if String.eqb family "data" then
      covg ← read_local "covg" covg;
      mret (filename_plugin filename_format
              (FnameData area_def alg_xarray
                 [product_name; "latitude"; "longitude"] covg curr_kwargs))
    else if String.eqb family "xarray_metadata_to_filename" then
      mret (filename_plugin filename_format
              (FnameXarrayMetadata alg_xarray curr_kwargs))
    else if String.eqb family "xarray_area_product_to_filename" then
      mret (filename_plugin filename_format
              (FnameXarrayAreaProduct alg_xarray area_def product_name curr_kwargs))
    else
      covg ← read_local "covg" covg;
      mret (filename_plugin filename_format
              (FnameStandard area_def alg_xarray product_name covg curr_kwargs)).

(** *** [get_output_filenames] *)

Fixpoint get_output_filenames_loop (fname_formats : list string)
    (output_dict : OutputDict) (product_name : string) (xarray_obj : Dataset)
    (area_def : option AreaDefinition)
    (supported_filenamer_types : option (list string))
    (output_fnames : list (string * fname_info))
    (metadata_fnames : list (option string * fname_info))
    : res (list (string * fname_info) * list (option string * fname_info)) :=
  match fname_formats with
  | [] => mret (output_fnames, metadata_fnames)
  | filename_format :: rest =>
      let filename_format_kwargs :=
        get_filename_format_kwargs filename_format output_dict in
      let metadata_filename_format :=
        get_metadata_filename_format filename_format output_dict in
      let metadata_filename_format_kwargs :=
        get_metadata_filename_format_kwargs metadata_filename_format output_dict in
      output_fname ← get_filename filename_format product_name xarray_obj
                       area_def supported_filenamer_types (Some output_dict)
                       filename_format_kwargs;
      (* [get_filename] has removed the unsupported keys from the very
         dictionary [filename_format_kwargs] refers to *)
      let filename_format_kwargs :=
        remove_unsupported_kwargs (filename_parameters filename_format)
          filename_format_kwargs in
      match output_fname with
      | None =>
          get_output_filenames_loop rest output_dict product_name xarray_obj
            area_def supported_filenamer_types output_fnames metadata_fnames
      | Some output_fname =>
          let output_fnames :=
            od_set output_fnames output_fname
              (OutputInfo filename_format filename_format_kwargs product_name) in
          let '(metadata_fname, metadata_filename_format_kwargs) :=
            match metadata_filename_format with
            | Some mff =>
                if negb (String.eqb mff "") &&
                   String.eqb (filename_family mff) "standard_metadata"
                then
                  let kw := remove_unsupported_kwargs (filename_parameters mff)
                              metadata_filename_format_kwargs in
                  (filename_plugin mff
                     (FnameStandardMetadata area_def xarray_obj output_fname kw),
                   kw)
                else (None, metadata_filename_format_kwargs)
            | None => (None, metadata_filename_format_kwargs)
            end in
          let metadata_fnames :=
            od_set metadata_fnames metadata_fname
              (MetadataInfo filename_format filename_format_kwargs
                 metadata_filename_format metadata_filename_format_kwargs
                 product_name) in
          get_output_filenames_loop rest output_dict product_name xarray_obj
            area_def supported_filenamer_types output_fnames metadata_fnames
      end
  end.

Definition get_output_filenames (fname_formats : list string)
    (output_dict : OutputDict) (product_name : string) (xarray_obj : Dataset)
    (area_def : option AreaDefinition)
    (supported_filenamer_types : option (list string))
    : res (list (string * fname_info) * list (option string * fname_info)) :=
  get_output_filenames_loop fname_formats output_dict product_name xarray_obj
    area_def supported_filenamer_types [] [].

(** *** [output_all_metadata] *)

(** The comparison [returned != expected] of a plugin's return value with a
    list of file names. *)
Definition differs (returned : option (list string)) (expected : list string) : bool :=
  match returned with
  | Some l => negb (bool_decide (l = expected))
  | None => true
  end.

Definition did_not_produce : exn := ValueError "Did not produce expected products".

(** The [for curr_output in curr_outputs] loop; [metadata_fnames[curr_output]]
    is looked up with the file name as key. *)
Fixpoint record_metadata_outputs (curr_outputs : list string)
    (metadata_fnames : list (option string * fname_info))
    (final_outputs : list (string * fname_info))
    : res (list (string * fname_info)) :=
  match curr_outputs with
  | [] => mret final_outputs
  | curr_output :: rest =>
      match od_get metadata_fnames (Some curr_output) with
      | Some info =>
          record_metadata_outputs rest metadata_fnames
            (od_set final_outputs curr_output info)
      | None => Raise (KeyError curr_output)
      end
  end.

(** The loop over [zip(metadata_fnames, output_fnames)]; the keyword
    arguments are one dictionary updated across iterations. *)
Fixpoint output_all_metadata_loop (pairs : list (option string * string))
    (output_dict : OutputDict)
    (output_fnames : list (string * fname_info))
    (metadata_fnames : list (option string * fname_info))
    (xarray_obj : Dataset) (area_def : option AreaDefinition)
    (metadata_output_format : string)
    (metadata_output_format_kwargs : list (string * kwarg))
    (final_outputs : list (string * fname_info))
    : res (list (string * fname_info)) :=
  match pairs with
  | [] => mret final_outputs
  | (None, _) :: rest =>
      output_all_metadata_loop rest output_dict output_fnames metadata_fnames
        xarray_obj area_def metadata_output_format
        metadata_output_format_kwargs final_outputs
  | (Some metadata_fname, output_fname) :: rest =>
      minfo ← match od_get metadata_fnames (Some metadata_fname) with
              | Some i => Ok i | None => Raise (KeyError metadata_fname) end;
      oinfo ← match od_get output_fnames output_fname with
              | Some i => Ok i | None => Raise (KeyError output_fname) end;
      let kw := od_set metadata_output_format_kwargs "metadata_fname_dict" (KwInfo minfo) in
      let kw := od_set kw "output_fname_dict" (KwInfo oinfo) in
      let kw := od_set kw "output_dict" (KwOutputDict output_dict) in
      let output_kwargs :=
        remove_unsupported_kwargs (output_parameters metadata_output_format) kw in
      if String.eqb (output_family metadata_output_format) "standard_metadata" then
        curr_outputs ← output_plugin metadata_output_format
                         (OutStandardMetadata area_def xarray_obj metadata_fname
                            output_fname output_kwargs);
        if differs curr_outputs [metadata_fname] then Raise did_not_produce
        else
          final_outputs ← record_metadata_outputs [metadata_fname]
                            metadata_fnames final_outputs;
          output_all_metadata_loop rest output_dict output_fnames metadata_fnames
            xarray_obj area_def metadata_output_format output_kwargs final_outputs
      else
        output_all_metadata_loop rest output_dict output_fnames metadata_fnames
          xarray_obj area_def metadata_output_format output_kwargs final_outputs
  end.

Definition output_all_metadata (output_dict : OutputDict)
    (output_fnames : list (string * fname_info))
    (metadata_fnames : list (option string * fname_info))
    (xarray_obj : Dataset) (area_def : option AreaDefinition)
    : res (list (string * fname_info)) :=
  let final_outputs := output_fnames in
  output_all_metadata_loop
    (zip (od_keys metadata_fnames) (od_keys output_fnames))
    output_dict output_fnames metadata_fnames xarray_obj area_def
    (get_metadata_output_format output_dict)
    (get_metadata_output_format_kwargs output_dict) final_outputs.

(** *** [plot_data] *)

(** The check that follows a call with pre-computed file names:
    [if output_products != list(output_fnames.keys()): raise ValueError]. *)
Definition expect_products (output_products : option (list string))
    (output_fnames : list (string * fname_info)) : res unit :=
  if differs output_products (od_keys output_fnames)
  then Raise did_not_produce
  else mret tt.

(** The file names [plot_data] computes before rendering. *)
Definition plot_data_filenames (output_dict : OutputDict) (alg_xarray : Dataset)
    (area_def : AreaDefinition) (product_name : string) (no_output : bool)
    : res (list (string * fname_info) * list (option string * fname_info)) :=
  if no_output ||
     str_in (output_family (get_output_format output_dict))
       OUTPUT_FAMILIES_WITH_NO_OUTFNAMES_ARG
  then mret ([], [])
  else get_output_filenames (get_filename_formats output_dict) output_dict
         product_name alg_xarray (Some area_def) None.

Definition plot_data (output_dict : OutputDict) (alg_xarray : Dataset)
    (area_def : AreaDefinition) (product_name : string)
    (output_kwargs : list (string * kwarg))
    (fused_xarray_dict : option (list (string * Dataset))) (no_output : bool)
    : res (list (string * fname_info)) :=
  let output_kwargs := od_set output_kwargs "output_dict" (KwOutputDict output_dict) in
  let output_format := get_output_format output_dict in
  let family := output_family output_format in
  '(output_fnames, metadata_fnames) ←
    plot_data_filenames output_dict alg_xarray area_def product_name no_output;
  _ ← (if String.eqb family "xarray_data" then
         output_products ← output_plugin output_format
           (OutXarrayData alg_xarray [product_name; "latitude"; "longitude"]
              (od_keys output_fnames));
         expect_products output_products output_fnames
       else
         src ← get_attr "source_name" (source_name alg_xarray);
         let mpl_colors_info :=
           match get_cmap_name product_name src with
           | Some cmap_plugin_name =>
               Some (colormap_plugin cmap_plugin_name
                       (get_cmap_args product_name src))
           | None => None
           end in
         let title := get_product_display_name product_name src in
         let output_kwargs :=
           remove_unsupported_kwargs (output_parameters output_format) output_kwargs in
         if String.eqb family "image" then
           output_products ← output_plugin output_format
             (OutImage area_def alg_xarray product_name (od_keys output_fnames)
                title mpl_colors_info output_kwargs);
           expect_products output_products output_fnames
         else if String.eqb family "unprojected" then
           output_products ← output_plugin output_format
             (OutUnprojected alg_xarray product_name (od_keys output_fnames)
                title mpl_colors_info output_kwargs);
           expect_products output_products output_fnames
         else if String.eqb family "image_overlay" then
           output_products ← output_plugin output_format
             (OutImageOverlay area_def alg_xarray product_name
                (od_keys output_fnames) title mpl_colors_info output_kwargs);
           expect_products output_products output_fnames
         else if String.eqb family "xrdict_area_product_outfnames_to_outlist" then
           let output_kwargs := od_set output_kwargs "product_name_title" (KwStr title) in
           let output_kwargs := od_set output_kwargs "mpl_colors_info" (KwColors mpl_colors_info) in
           let output_kwargs :=
             remove_unsupported_kwargs (output_parameters output_format) output_kwargs in
           output_products ← output_plugin output_format
             (OutXrdictAreaProductOutfnames fused_xarray_dict (Some area_def)
                product_name (od_keys output_fnames) output_kwargs);
           expect_products output_products output_fnames
         else if String.eqb family "xrdict_area_product_to_outlist" then
           let output_kwargs := od_set output_kwargs "product_name_title" (KwStr title) in
           let output_kwargs := od_set output_kwargs "mpl_colors_info" (KwColors mpl_colors_info) in
           let output_kwargs :=
             remove_unsupported_kwargs (output_parameters output_format) output_kwargs in
           output_products ← output_plugin output_format
             (OutXrdictAreaProduct fused_xarray_dict (Some area_def)
                product_name output_kwargs);
           (* No input filename list, no check that output filename list matches *)
           mret tt
         else
           Raise (ValueError "Unsupported output family"));
  output_all_metadata output_dict output_fnames metadata_fnames alg_xarray
    (Some area_def).

(** *** [process_xarray_dict_to_output_format] *)

(** [xobjs["METADATA"]] *)
Definition bundle_item (xobjs : list (string * Dataset)) (key : string) : res Dataset :=
  match od_get xobjs key with
  | Some d => Ok d
  | None => Raise (KeyError key)
  end.

Definition process_xarray_dict_to_output_format
    (xobjs : list (string * Dataset)) (variables : list string)
    (product_name : string) (output_dict : OutputDict)
    (area_def : option AreaDefinition) : res (list (string * fname_info)) :=
  let output_format := get_output_format output_dict in
  let output_format_kwargs := get_output_format_kwargs output_dict None None in
  metadata ← bundle_item xobjs "METADATA";
  src ← get_attr "source_name" (source_name metadata);
  let product_type := get_product_type product_name src in
  if negb (str_in product_type PRODUCT_FAMILIES_FOR_XARRAY_DICT_TO_OUTPUT_FORMAT)
  then Raise (TypeError "UNSUPPORTED product_type")
  else
    let family := output_family output_format in
    (* Only get output filenames if needed *)
    fnames ←
      (if str_in family OUTPUT_FAMILIES_WITH_OUTFNAMES_ARG then
         r ← get_output_filenames (get_filename_formats output_dict) output_dict
               product_name metadata area_def
               (Some FILENAME_FORMATS_FOR_XARRAY_DICT_TO_OUTPUT_FORMAT);
         mret (Some r)
       else mret None);
    let output_format_kwargs :=
      if od_mem output_format_kwargs "output_dict" then output_format_kwargs
      else od_set output_format_kwargs "output_dict" (KwOutputDict output_dict) in
    let output_format_kwargs :=
      remove_unsupported_kwargs (output_parameters output_format)
        output_format_kwargs in
    _ ← (if String.eqb family "xrdict_varlist_outfnames_to_outlist" then
           '(output_fnames, _) ← read_local "output_fnames" fnames;
           curr_products ← output_plugin output_format
             (OutXrdictVarlistOutfnames xobjs variables (od_keys output_fnames)
                output_format_kwargs);
           expect_products curr_products output_fnames
         else if String.eqb family "xrdict_area_product_outfnames_to_outlist" then
           '(output_fnames, _) ← read_local "output_fnames" fnames;
           curr_products ← output_plugin output_format
             (OutXrdictAreaProductOutfnames (Some xobjs) area_def product_name
                (od_keys output_fnames) output_format_kwargs);
           expect_products curr_products output_fnames
         else if String.eqb family "xrdict_area_product_to_outlist" then
           curr_products ← output_plugin output_format
             (OutXrdictAreaProduct (Some xobjs) area_def product_name
                output_format_kwargs);
           (* No input filename list, no check that output filename list matches *)
           mret tt
         else Raise (TypeError "UNSUPPORTED output_format"));
    (* final_products is assigned only when file names were pre-generated *)
    final_products ←
      (if str_in family OUTPUT_FAMILIES_WITH_OUTFNAMES_ARG then
         '(output_fnames, metadata_fnames) ← read_local "output_fnames" fnames;
         r ← output_all_metadata output_dict output_fnames metadata_fnames
               metadata area_def;
         mret (Some r)
       else mret None);
    read_local "final_products" final_products.

(** *** [process_sectored_data_output] *)

Definition process_sectored_data_output (xobjs : list (string * Dataset))
    (variables : list string) (product_name : string)
    (output_dict : OutputDict) (area_def : option AreaDefinition)
    : res (list string) :=
  let output_products := [] in
  metadata ← bundle_item xobjs "METADATA";
  src ← get_attr "source_name" (source_name metadata);
  if String.eqb (get_product_type product_name src)
       "sectored_xarray_dict_to_output_format"
  then
    r ← process_xarray_dict_to_output_format xobjs variables product_name
          output_dict area_def;
    mret (output_products ++ od_keys r)
  else mret output_products.

(** *** The file-list check *)

(** The list of file names a call hands to the renderer, when its family
    takes one. *)
Definition call_output_fnames (call : output_call) : option (list string) :=
  match call with
  | OutXarrayData _ _ fnames => Some fnames
  | OutImage _ _ _ fnames _ _ _ => Some fnames
  | OutUnprojected _ _ fnames _ _ _ => Some fnames
  | OutImageOverlay _ _ _ fnames _ _ _ => Some fnames
  | OutXrdictAreaProductOutfnames _ _ _ fnames _ => Some fnames
  | OutXrdictVarlistOutfnames _ _ fnames _ => Some fnames
  | OutXrdictAreaProduct _ _ _ _ => None
  | OutStandardMetadata _ _ _ _ _ => None
  end.

(** The families [plot_data] renders with pre-computed file names. *)
Definition PLOT_DATA_CHECKED_FAMILIES : list string :=
  ["xarray_data"; "image"; "unprojected"; "image_overlay";
   "xrdict_area_product_outfnames_to_outlist"].

Lemma expect_products_match output_fnames :
  expect_products (Some (od_keys output_fnames)) output_fnames = Ok tt.
Proof.
  unfold expect_products, differs.
  by rewrite bool_decide_eq_true_2.
Qed.

Lemma expect_products_mismatch returned output_fnames :
  returned <> Some (od_keys output_fnames) ->
  expect_products returned output_fnames = Raise did_not_produce.
Proof.
  intros Hne. unfold expect_products, differs.
  destruct returned as [l|]; [|reflexivity].
  rewrite bool_decide_eq_false_2; [reflexivity|]. congruence.
Qed.

Lemma expect_products_inv returned output_fnames u :
  expect_products returned output_fnames = Ok u ->
  returned = Some (od_keys output_fnames).
Proof.
  unfold expect_products, differs. destruct returned as [l|]; [|discriminate].
  destruct (bool_decide_reflect (l = od_keys output_fnames)) as [->|Hne];
    [reflexivity|discriminate].
Qed.

Example str_in_outfnames_arg :
  str_in "xrdict_area_product_to_outlist" OUTPUT_FAMILIES_WITH_OUTFNAMES_ARG = false.
Proof. reflexivity. Qed.

(** C1, as the code has it.  For the family without pre-declared file names,
    [process_xarray_dict_to_output_format] performs no check on the list the
    renderer returns, but it never assigns [final_products] either: once the
    renderer has returned, whatever it returned, the function fails at its
    [return final_products]. *)
Theorem process_xarray_dict_no_outfnames_family_unbound
    xobjs variables product_name output_dict area_def metadata src :
  od_get xobjs "METADATA" = Some metadata ->
  source_name metadata = Some src ->
  str_in (get_product_type product_name src)
    PRODUCT_FAMILIES_FOR_XARRAY_DICT_TO_OUTPUT_FORMAT = true ->
  output_family (get_output_format output_dict) = "xrdict_area_product_to_outlist" ->
  (forall call, is_ok (output_plugin (get_output_format output_dict) call) = true) ->
  process_xarray_dict_to_output_format xobjs variables product_name output_dict
    area_def = Raise (UnboundLocalError "final_products").
Proof.
  intros Hmeta Hsrc Htype Hfam Hplugin.
  unfold process_xarray_dict_to_output_format, bundle_item.
  rewrite Hmeta. simpl. rewrite Hsrc. simpl. rewrite Htype, Hfam. simpl.
  match goal with
  | |- context [output_plugin ?f ?c] =>
      specialize (Hplugin c); destruct (output_plugin f c); [|discriminate]
  end.
  reflexivity.
Qed.

Ltac step_plugin_in Hok Hcall :=
  match type of Hok with
  | context [output_plugin ?f ?c] =>
      destruct (output_plugin f c) as [?r|?e] eqn:Hcall; simpl in Hok
  end.

(** In [plot_data], for each family rendered with pre-computed file names:
    a successful return means the renderer was handed the pre-computed list
    and returned exactly that list; and when the renderer returns anything
    else, the call fails with the did-not-produce-expected-products
    [ValueError]. *)
Theorem plot_data_checks_products
    output_dict alg_xarray area_def product_name output_kwargs
    fused_xarray_dict no_output output_fnames metadata_fnames src :
  plot_data_filenames output_dict alg_xarray area_def product_name no_output
    = Ok (output_fnames, metadata_fnames) ->
  source_name alg_xarray = Some src ->
  str_in (output_family (get_output_format output_dict))
    PLOT_DATA_CHECKED_FAMILIES = true ->
  (forall final,
      plot_data output_dict alg_xarray area_def product_name output_kwargs
        fused_xarray_dict no_output = Ok final ->
      exists call,
        call_output_fnames call = Some (od_keys output_fnames) /\
        output_plugin (get_output_format output_dict) call
          = Ok (Some (od_keys output_fnames)))
  /\ ((forall call,
         call_output_fnames call = Some (od_keys output_fnames) ->
         exists r, output_plugin (get_output_format output_dict) call = Ok r /\
                   r <> Some (od_keys output_fnames)) ->
      plot_data output_dict alg_xarray area_def product_name output_kwargs
        fused_xarray_dict no_output = Raise did_not_produce).
Proof.
  intros Hnames Hsrc Hfam. unfold plot_data. rewrite Hnames. simpl.
  family_cases Hfam; rewrite Hfam; simpl; rewrite ?Hsrc; simpl; split.
  all: try (intros final Hok; step_plugin_in Hok Hcall; [|discriminate];
            match type of Hok with
            | context [expect_products ?r ?f] =>
                destruct (expect_products r f) as [u|e] eqn:Hexp;
                [apply expect_products_inv in Hexp; subst|discriminate]
            end;
            eexists; split; [|exact Hcall]; reflexivity).
  all: intros Hbad;
       match goal with
       | |- context [output_plugin ?f ?c] =>
           destruct (Hbad c eq_refl) as (r & Hr & Hne); rewrite Hr; simpl
       end;
       by rewrite (expect_products_mismatch _ _ Hne).
Qed.

(** In [plot_data], for the family without pre-declared file names no
    comparison is made: whatever list the renderer returns, the call
    succeeds, and its result is the (empty) set of pre-declared products. *)
Theorem plot_data_no_outfnames_family_unchecked
    output_dict alg_xarray area_def product_name output_kwargs
    fused_xarray_dict no_output src :
  source_name alg_xarray = Some src ->
  output_family (get_output_format output_dict) = "xrdict_area_product_to_outlist" ->
  (forall call, is_ok (output_plugin (get_output_format output_dict) call) = true) ->
  plot_data output_dict alg_xarray area_def product_name output_kwargs
    fused_xarray_dict no_output = Ok [].
Proof.
  intros Hsrc Hfam Hplugin. unfold plot_data, plot_data_filenames.
  rewrite Hfam. simpl. rewrite orb_true_r. simpl. rewrite Hsrc. simpl.
  match goal with
  | |- context [output_plugin ?f ?c] =>
      specialize (Hplugin c); destruct (output_plugin f c); [|discriminate]
  end.
  reflexivity.
Qed.

(** In [process_xarray_dict_to_output_format], for the two families called
    with pre-computed file names: a successful return means the renderer
    returned exactly the list it was handed, and a renderer returning
    anything else makes the call fail with the did-not-produce-expected-
    products [ValueError]. *)
Theorem process_xarray_dict_checks_products
    xobjs variables product_name output_dict area_def metadata src
    output_fnames metadata_fnames :
  od_get xobjs "METADATA" = Some metadata ->
  source_name metadata = Some src ->
  str_in (get_product_type product_name src)
    PRODUCT_FAMILIES_FOR_XARRAY_DICT_TO_OUTPUT_FORMAT = true ->
  str_in (output_family (get_output_format output_dict))
    OUTPUT_FAMILIES_WITH_OUTFNAMES_ARG = true ->
  get_output_filenames (get_filename_formats output_dict) output_dict
    product_name metadata area_def
    (Some FILENAME_FORMATS_FOR_XARRAY_DICT_TO_OUTPUT_FORMAT)
    = Ok (output_fnames, metadata_fnames) ->
  (forall final,
      process_xarray_dict_to_output_format xobjs variables product_name
        output_dict area_def = Ok final ->
      exists call,
        call_output_fnames call = Some (od_keys output_fnames) /\
        output_plugin (get_output_format output_dict) call
          = Ok (Some (od_keys output_fnames)))
  /\ ((forall call,
         call_output_fnames call = Some (od_keys output_fnames) ->
         exists r, output_plugin (get_output_format output_dict) call = Ok r /\
                   r <> Some (od_keys output_fnames)) ->
      process_xarray_dict_to_output_format xobjs variables product_name
        output_dict area_def = Raise did_not_produce).
Proof.
  intros Hmeta Hsrc Htype Hfam Hnames.
  unfold process_xarray_dict_to_output_format, bundle_item.
  rewrite Hmeta. simpl. rewrite Hsrc. simpl. rewrite Htype. simpl.
  pose proof Hfam as Hfam'.
  family_cases Hfam; rewrite Hfam in *; simpl; rewrite Hnames; simpl; split.
  all: try (intros final Hok; step_plugin_in Hok Hcall; [|discriminate];
            match type of Hok with
            | context [expect_products ?r ?f] =>
                destruct (expect_products r f) as [u|e] eqn:Hexp;
                [apply expect_products_inv in Hexp; subst|discriminate]
            end;
            eexists; split; [|exact Hcall]; reflexivity).
  all: intros Hbad;
       match goal with
       | |- context [output_plugin ?f ?c] =>
           destruct (Hbad c eq_refl) as (r & Hr & Hne); rewrite Hr; simpl
       end;
       by rewrite (expect_products_mismatch _ _ Hne).
Qed.

(** *** Keyword arguments *)

(** [remove_unsupported_kwargs] leaves exactly the requested keyword
    arguments whose name is a parameter of the plugin, each with its value
    and in the order they had; the removed ones are exactly those whose name
    the plugin does not take; and a second pass removes nothing more. *)
Theorem remove_unsupported_kwargs_keeps_supported {V} (parameters : list string)
    (requested_kwargs : list (string * V)) :
  (forall k v,
      (k, v) ∈ remove_unsupported_kwargs parameters requested_kwargs
      <-> (k, v) ∈ requested_kwargs /\ k ∈ parameters)
  /\ sublist (remove_unsupported_kwargs parameters requested_kwargs)
       requested_kwargs
  /\ remove_unsupported_kwargs parameters
       (remove_unsupported_kwargs parameters requested_kwargs)
     = remove_unsupported_kwargs parameters requested_kwargs.
Proof.
  unfold remove_unsupported_kwargs. split; [|split].
  - intros k v. rewrite list_elem_of_filter. unfold str_in. simpl.
    rewrite bool_decide_eq_true. tauto.
  - apply sublist_filter.
  - by apply list_filter_filter_r.
Qed.

(** *** The file names computed before rendering *)

(** Whether the plugin family of a filename format is accepted, whether
    the family takes the coverage, and the coverage itself as [get_filename]
    obtains it: it reads [alg_xarray.source_name] to find the coverage
    function, then applies the function. *)
Definition family_supported (supported : option (list string))
    (filename_format : string) : bool :=
  match supported with
  | Some l => str_in (filename_family filename_format) l
  | None => true
  end.

Definition needs_covg (filename_format : string) : bool :=
  negb (str_in (filename_family filename_format) FILENAME_FORMATS_WITHOUT_COVG).

Definition covg_for_filename (product_name : string) (alg_xarray : Dataset)
    (area_def : option AreaDefinition) (output_dict : option OutputDict) : res Q :=
  _ ← get_attr "source_name" (source_name alg_xarray);
  fname_covg product_name alg_xarray area_def output_dict.

Lemma get_filename_outcome filename_format product_name alg_xarray area_def
    supported output_dict kwargs :
  if family_supported supported filename_format then
    if needs_covg filename_format then
      match covg_for_filename product_name alg_xarray area_def output_dict with
      | Ok _ =>
          is_ok (get_filename filename_format product_name alg_xarray area_def
                   supported output_dict kwargs) = true
      | Raise e =>
          get_filename filename_format product_name alg_xarray area_def
            supported output_dict kwargs = Raise e
      end
    else
      is_ok (get_filename filename_format product_name alg_xarray area_def
               supported output_dict kwargs) = true
  else
    get_filename filename_format product_name alg_xarray area_def supported
      output_dict kwargs = Raise (TypeError "UNSUPPORTED filename_format").
Proof.
  unfold get_filename, family_supported, needs_covg, covg_for_filename.
  assert (Hsup : match supported with
                 | Some l => negb (str_in (filename_family filename_format) l)
                 | None => false
                 end
                 = negb match supported with
                        | Some l => str_in (filename_family filename_format) l
                        | None => true
                        end) by (by destruct supported).
  rewrite Hsup. clear Hsup.
  destruct (match supported with
            | Some l => str_in (filename_family filename_format) l
            | None => true
            end); [|reflexivity].
  cbn [negb].
  destruct (str_in (filename_family filename_format)
              FILENAME_FORMATS_WITHOUT_COVG) eqn:Hwithout; cbn [negb].
  - family_cases Hwithout; rewrite Hwithout; reflexivity.
  - destruct (get_attr "source_name" (source_name alg_xarray)) as [src|e];
      [|reflexivity].
    cbn [mbind res_mbind res_bind].
    destruct (fname_covg product_name alg_xarray area_def output_dict)
      as [covg|e]; [|reflexivity].
    cbn [mbind res_mbind res_bind mret res_mret].
    repeat match goal with
           | |- context [if ?c then _ else _] => destruct c
           end; reflexivity.
Qed.

(** Whether [get_filename] returns on a filename format. *)
Definition filename_obtainable (supported : option (list string))
    (product_name : string) (xarray_obj : Dataset)
    (area_def : option AreaDefinition) (output_dict : OutputDict)
    (filename_format : string) : bool :=
  family_supported supported filename_format
  && (negb (needs_covg filename_format)
      || is_ok (covg_for_filename product_name xarray_obj area_def
                  (Some output_dict))).

Lemma get_filename_is_ok filename_format product_name alg_xarray area_def
    supported output_dict kwargs :
  is_ok (get_filename filename_format product_name alg_xarray area_def
           supported (Some output_dict) kwargs)
  = filename_obtainable supported product_name alg_xarray area_def output_dict
      filename_format.
Proof.
  pose proof (get_filename_outcome filename_format product_name alg_xarray
                area_def supported (Some output_dict) kwargs) as H.
  unfold filename_obtainable.
  destruct (family_supported supported filename_format); [|by rewrite H].
  destruct (needs_covg filename_format); [|done].
  destruct (covg_for_filename product_name alg_xarray area_def
              (Some output_dict)); [done|by rewrite H].
Qed.

Lemma get_output_filenames_loop_step filename_format rest output_dict
    product_name xarray_obj area_def supported output_fnames metadata_fnames :
  match get_filename filename_format product_name xarray_obj area_def
          supported (Some output_dict)
          (get_filename_format_kwargs filename_format output_dict) with
  | Ok _ =>
      exists o m,
        get_output_filenames_loop (filename_format :: rest) output_dict
          product_name xarray_obj area_def supported output_fnames
          metadata_fnames
        = get_output_filenames_loop rest output_dict product_name xarray_obj
            area_def supported o m
  | Raise e =>
      get_output_filenames_loop (filename_format :: rest) output_dict
        product_name xarray_obj area_def supported output_fnames
        metadata_fnames = Raise e
  end.
Proof.
  cbn [get_output_filenames_loop].
  destruct (get_filename filename_format product_name xarray_obj area_def
              supported (Some output_dict)
              (get_filename_format_kwargs filename_format output_dict))
    as [fname|e]; [|reflexivity].
  cbn [mbind res_mbind res_bind].
  destruct fname as [fname|]; [|eauto].
  match goal with
  | |- context [let '(_, _) := ?e in _] => destruct e
  end.
  eauto.
Qed.

Lemma get_output_filenames_loop_is_ok fname_formats output_dict product_name
    xarray_obj area_def supported output_fnames metadata_fnames :
  is_ok (get_output_filenames_loop fname_formats output_dict product_name
           xarray_obj area_def supported output_fnames metadata_fnames)
  = forallb (filename_obtainable supported product_name xarray_obj area_def
               output_dict) fname_formats.
Proof.
  revert output_fnames metadata_fnames.
  induction fname_formats as [|f rest IH]; intros o m; [reflexivity|].
  cbn [forallb].
  rewrite <- (get_filename_is_ok f product_name xarray_obj area_def supported
                output_dict (get_filename_format_kwargs f output_dict)).
  pose proof (get_output_filenames_loop_step f rest output_dict product_name
                xarray_obj area_def supported o m) as Hstep.
  destruct (get_filename f product_name xarray_obj area_def supported
              (Some output_dict) (get_filename_format_kwargs f output_dict))
    as [fname|e].
  - destruct Hstep as (o' & m' & ->). by rewrite IH.
  - by rewrite Hstep.
Qed.

Lemma get_output_filenames_loop_unsupported fname_formats output_dict
    product_name xarray_obj area_def supported output_fnames metadata_fnames :
  is_ok (covg_for_filename product_name xarray_obj area_def (Some output_dict))
    = true ->
  forallb (family_supported supported) fname_formats = false ->
  get_output_filenames_loop fname_formats output_dict product_name xarray_obj
    area_def supported output_fnames metadata_fnames
  = Raise (TypeError "UNSUPPORTED filename_format").
Proof.
  intros Hcovg. revert output_fnames metadata_fnames.
  induction fname_formats as [|f rest IH]; intros o m Hall; [discriminate|].
  cbn [forallb] in Hall.
  pose proof (get_output_filenames_loop_step f rest output_dict product_name
                xarray_obj area_def supported o m) as Hstep.
  pose proof (get_filename_outcome f product_name xarray_obj area_def supported
                (Some output_dict) (get_filename_format_kwargs f output_dict))
    as Hout.
  destruct (family_supported supported f).
  - destruct (get_filename f product_name xarray_obj area_def supported
                (Some output_dict) (get_filename_format_kwargs f output_dict))
      as [fname|e].
    + destruct Hstep as (o' & m' & ->). by apply IH.
    + exfalso. destruct (needs_covg f); [|discriminate].
      destruct (covg_for_filename product_name xarray_obj area_def
                  (Some output_dict)); discriminate.
  - by rewrite Hout in Hstep.
Qed.

Lemma get_output_filenames_loop_no_covg fname_formats output_dict
    product_name xarray_obj area_def supported output_fnames metadata_fnames e :
  covg_for_filename product_name xarray_obj area_def (Some output_dict)
    = Raise e ->
  forallb (family_supported supported) fname_formats = true ->
  existsb needs_covg fname_formats = true ->
  get_output_filenames_loop fname_formats output_dict product_name xarray_obj
    area_def supported output_fnames metadata_fnames = Raise e.
Proof.
  intros Hcovg. revert output_fnames metadata_fnames.
  induction fname_formats as [|f rest IH]; intros o m Hall Hneeds;
    [discriminate|].
  cbn [forallb existsb] in Hall, Hneeds.
  apply andb_true_iff in Hall as [Hf Hall].
  pose proof (get_output_filenames_loop_step f rest output_dict product_name
                xarray_obj area_def supported o m) as Hstep.
  pose proof (get_filename_outcome f product_name xarray_obj area_def supported
                (Some output_dict) (get_filename_format_kwargs f output_dict))
    as Hout.
  rewrite Hf, Hcovg in Hout.
  destruct (needs_covg f).
  - by rewrite Hout in Hstep.
  - destruct (get_filename f product_name xarray_obj area_def supported
                (Some output_dict) (get_filename_format_kwargs f output_dict))
      as [fname|e0]; [|discriminate].
    destruct Hstep as (o' & m' & ->). by apply IH.
Qed.

(** What makes [get_output_filenames] fail.  It returns exactly when every
    filename format is of a supported plugin family (any family, when
    [supported_filenamer_types] is left out) and, if some format is of a
    family that takes the coverage, the dataset has a [source_name] and the
    coverage function returns.  With the coverage at hand, a format of an
    unsupported family makes it raise the unsupported-filename-format
    [TypeError]; with every family supported and a format that takes the
    coverage, a dataset without [source_name] makes it raise the
    [AttributeError], and a failing coverage function its own error. *)
Theorem get_output_filenames_failures fname_formats output_dict product_name
    xarray_obj area_def supported :
  is_ok (get_output_filenames fname_formats output_dict product_name xarray_obj
           area_def supported)
  = forallb (filename_obtainable supported product_name xarray_obj area_def
               output_dict) fname_formats
  /\ (is_ok (covg_for_filename product_name xarray_obj area_def
               (Some output_dict)) = true ->
      forallb (family_supported supported) fname_formats = false ->
      get_output_filenames fname_formats output_dict product_name xarray_obj
        area_def supported
      = Raise (TypeError "UNSUPPORTED filename_format"))
  /\ (forallb (family_supported supported) fname_formats = true ->
      existsb needs_covg fname_formats = true ->
      (source_name xarray_obj = None ->
       get_output_filenames fname_formats output_dict product_name xarray_obj
         area_def supported = Raise (AttributeError "source_name"))
      /\ (forall src e,
            source_name xarray_obj = Some src ->
            fname_covg product_name xarray_obj area_def (Some output_dict)
              = Raise e ->
            get_output_filenames fname_formats output_dict product_name
              xarray_obj area_def supported = Raise e)).
Proof.
  unfold get_output_filenames. split; [|split].
  - apply get_output_filenames_loop_is_ok.
  - apply get_output_filenames_loop_unsupported.
  - intros Hall Hneeds. split.
    + intros Hsrc. apply get_output_filenames_loop_no_covg; [|done|done].
      unfold covg_for_filename. by rewrite Hsrc.
    + intros src e Hsrc Hcovg.
      apply get_output_filenames_loop_no_covg; [|done|done].
      unfold covg_for_filename. by rewrite Hsrc.
Qed.

(** Whether a filename format comes with a metadata file name: its
    metadata filename format is set, and is a plugin of family
    [standard_metadata]. *)
Definition names_metadata (output_dict : OutputDict) (filename_format : string)
    : bool :=
  match get_metadata_filename_format filename_format output_dict with
  | Some mff =>
      negb (String.eqb mff "") &&
      String.eqb (filename_family mff) "standard_metadata"
  | None => false
  end.

Lemma get_output_filenames_loop_none_key fname_formats output_dict product_name
    xarray_obj area_def supported o m o' m' :
  (forall f, f ∈ fname_formats -> names_metadata output_dict f = false) ->
  od_keys m = match o with [] => [] | _ => [None] end ->
  get_output_filenames_loop fname_formats output_dict product_name xarray_obj
    area_def supported o m = Ok (o', m') ->
  od_keys m' = match o' with [] => [] | _ => [None] end.
Proof.
  revert o m.
  induction fname_formats as [|f rest IH]; intros o m Hnone Hinv Hrun.
  - by injection Hrun as <- <-.
  - cbn [get_output_filenames_loop] in Hrun.
    destruct (get_filename f product_name xarray_obj area_def supported
                (Some output_dict) (get_filename_format_kwargs f output_dict))
      as [fname|e]; [|discriminate].
    cbn [mbind res_mbind res_bind] in Hrun.
    assert (Hrest : forall g, g ∈ rest -> names_metadata output_dict g = false).
    { intros g Hg. apply Hnone. by right. }
    destruct fname as [fname|]; [|by eapply IH].
    assert (Hf : names_metadata output_dict f = false) by (apply Hnone; by left).
    unfold names_metadata in Hf.
    match type of Hrun with
    | context [let '(_, _) := ?e in _] =>
        destruct e as [metadata_fname kw] eqn:Hpair
    end.
    assert (metadata_fname = None) as ->.
    { destruct (get_metadata_filename_format f output_dict) as [mff|].
      - rewrite Hf in Hpair. by injection Hpair as <- <-.
      - by injection Hpair as <- <-. }
    eapply IH; [exact Hrest| |exact Hrun].
    assert (Ho : forall info : fname_info,
              exists kv l, od_set o fname info = kv :: l).
    { intros info. destruct o as [|[k0 v0] o]; simpl; [eauto|].
      destruct (decide (fname = k0)); eauto. }
    match goal with
    | |- context [od_set o fname ?info] => destruct (Ho info) as (kv & l & ->)
    end.
    destruct m as [|[k0 v0] m]; [done|].
    destruct o as [|kv0 o]; [done|].
    simpl in Hinv. injection Hinv as -> Hm.
    apply map_eq_nil in Hm as ->. simpl.
    reflexivity.
Qed.

(** When no filename format comes with a metadata file name, every entry of
    [metadata_fnames] is stored under the one key [None]: however many file
    names were computed, [metadata_fnames] has that single key (and none
    when no file name was computed). *)
Theorem get_output_filenames_shared_none_key fname_formats output_dict
    product_name xarray_obj area_def supported output_fnames metadata_fnames :
  (forall f, f ∈ fname_formats -> names_metadata output_dict f = false) ->
  get_output_filenames fname_formats output_dict product_name xarray_obj
    area_def supported = Ok (output_fnames, metadata_fnames) ->
  od_keys metadata_fnames = match output_fnames with [] => [] | _ => [None] end.
Proof.
  intros Hnone Hrun.
  by eapply (get_output_filenames_loop_none_key _ _ _ _ _ _ [] []).
Qed.

(** *** The metadata outputs *)

Lemma output_all_metadata_loop_skips pairs output_dict output_fnames
    metadata_fnames xarray_obj area_def metadata_output_format kwargs
    final_outputs :
  (forall p, p ∈ pairs -> fst p ∈ od_keys metadata_fnames
                          /\ snd p ∈ od_keys output_fnames) ->
  (forall p, p ∈ pairs -> fst p = None)
  \/ output_family metadata_output_format <> "standard_metadata" ->
  output_all_metadata_loop pairs output_dict output_fnames metadata_fnames
    xarray_obj area_def metadata_output_format kwargs final_outputs
  = Ok final_outputs.
Proof.
  revert kwargs.
  induction pairs as [|[mk ok] rest IH]; intros kwargs Hkeys Hskip; [done|].
  assert (Hrest : forall p, p ∈ rest -> fst p ∈ od_keys metadata_fnames
                                        /\ snd p ∈ od_keys output_fnames).
  { intros p Hp. apply Hkeys. by right. }
  assert (Hskip' : (forall p, p ∈ rest -> fst p = None)
                   \/ output_family metadata_output_format <> "standard_metadata").
  { destruct Hskip as [Hnone|Hfam]; [left|by right].
    intros p Hp. apply Hnone. by right. }
  destruct mk as [metadata_fname|]; cbn [output_all_metadata_loop].
  - destruct Hskip as [Hnone|Hfam].
    { specialize (Hnone (Some metadata_fname, ok)). simpl in Hnone.
      discriminate Hnone. by left. }
    destruct (Hkeys (Some metadata_fname, ok)) as [Hm Ho]; [by left|].
    simpl in Hm, Ho.
    destruct (od_get_in_keys _ _ Hm) as [minfo ->].
    destruct (od_get_in_keys _ _ Ho) as [oinfo ->].
    cbn [mbind res_mbind res_bind].
    rewrite (proj2 (String.eqb_neq _ _) Hfam).
    by apply IH.
  - by apply IH.
Qed.

Lemma zip_keys_in {A B} (l1 : list A) (l2 : list B) p :
  p ∈ zip l1 l2 -> fst p ∈ l1 /\ snd p ∈ l2.
Proof.
  destruct p as [a b]. intros Hp. split.
  - by eapply elem_of_zip_l.
  - by eapply elem_of_zip_r.
Qed.

(** [output_all_metadata] has nothing to write, calls no plugin and returns
    the output file names as they are, when every key of [metadata_fnames]
    is [None], and also when the metadata output format is not of family
    [standard_metadata]. *)
Theorem output_all_metadata_nothing_to_write output_dict output_fnames
    metadata_fnames xarray_obj area_def :
  (forall k, k ∈ od_keys metadata_fnames -> k = None)
  \/ output_family (get_metadata_output_format output_dict)
     <> "standard_metadata" ->
  output_all_metadata output_dict output_fnames metadata_fnames xarray_obj
    area_def = Ok output_fnames.
Proof.
  intros Hskip. unfold output_all_metadata.
  apply output_all_metadata_loop_skips.
  - intros p Hp. by apply zip_keys_in.
  - destruct Hskip as [Hnone|Hfam]; [left|by right].
    intros p Hp. apply Hnone. by apply zip_keys_in in Hp as [Hp _].
Qed.

Lemma output_all_metadata_loop_keys pairs output_dict output_fnames
    metadata_fnames xarray_obj area_def metadata_output_format kwargs
    final_outputs final :
  output_all_metadata_loop pairs output_dict output_fnames metadata_fnames
    xarray_obj area_def metadata_output_format kwargs final_outputs
  = Ok final ->
  (forall k, k ∈ od_keys final_outputs -> k ∈ od_keys final)
  /\ (forall k, k ∈ od_keys final ->
        k ∈ od_keys final_outputs
        \/ (exists o, (Some k, o) ∈ pairs
                      /\ output_family metadata_output_format
                         = "standard_metadata"
                      /\ exists kw,
                           output_plugin metadata_output_format
                             (OutStandardMetadata area_def xarray_obj k o kw)
                           = Ok (Some [k]))).
Proof.
  revert kwargs final_outputs.
  induction pairs as [|[mk ok] rest IH]; intros kwargs final_outputs Hrun.
  - injection Hrun as <-. split; [done|]. intros k Hk. by left.
  - destruct mk as [metadata_fname|]; cbn [output_all_metadata_loop] in Hrun.
    + destruct (od_get metadata_fnames (Some metadata_fname)) as [minfo|] eqn:Hm;
        [|discriminate].
      destruct (od_get output_fnames ok) as [oinfo|]; [|discriminate].
      cbn [mbind res_mbind res_bind] in Hrun.
      destruct (String.eqb (output_family metadata_output_format)
                  "standard_metadata") eqn:Hfam.
      * match type of Hrun with
        | context [output_plugin ?f ?c] =>
            destruct (output_plugin f c) as [curr|e] eqn:Hcall;
            cbn [mbind res_mbind res_bind] in Hrun; [|discriminate]
        end.
        destruct (differs curr [metadata_fname]) eqn:Hdiff; [discriminate|].
        assert (curr = Some [metadata_fname]) as ->.
        { unfold differs in Hdiff. destruct curr as [l|]; [|discriminate].
          apply negb_false_iff, bool_decide_eq_true_1 in Hdiff. by subst. }
        cbn [record_metadata_outputs] in Hrun. rewrite Hm in Hrun.
        cbn [mret res_mret res_bind] in Hrun.
        apply IH in Hrun as [Hsub Hsup]. split.
        -- intros k Hk. apply Hsub. apply od_keys_set_elem. by right.
        -- intros k Hk. destruct (Hsup k Hk) as [Hin|(o & Ho & Hrest)].
           ++ apply od_keys_set_elem in Hin as [->|Hin]; [|by left].
              right. exists ok. split; [by left|].
              split; [by apply String.eqb_eq|]. eauto.
           ++ right. exists o. split; [by right|done].
      * apply IH in Hrun as [Hsub Hsup]. split; [done|].
        intros k Hk. destruct (Hsup k Hk) as [Hin|(o & Ho & Hrest)]; [by left|].
        right. exists o. split; [by right|done].
    + apply IH in Hrun as [Hsub Hsup]. split; [done|].
      intros k Hk. destruct (Hsup k Hk) as [Hin|(o & Ho & Hrest)]; [by left|].
      right. exists o. split; [by right|done].
Qed.

(** When [output_all_metadata] returns, every output file name is among the
    final outputs, and every other final output is a metadata file name
    that the metadata output plugin, called for that name and the output
    file name paired with it, returned as its one product. *)
Theorem output_all_metadata_final_outputs output_dict output_fnames
    metadata_fnames xarray_obj area_def final :
  output_all_metadata output_dict output_fnames metadata_fnames xarray_obj
    area_def = Ok final ->
  (forall k, k ∈ od_keys output_fnames -> k ∈ od_keys final)
  /\ (forall k, k ∈ od_keys final ->
        k ∈ od_keys output_fnames
        \/ (exists o kw,
              (Some k, o) ∈ zip (od_keys metadata_fnames) (od_keys output_fnames)
              /\ output_plugin (get_metadata_output_format output_dict)
                   (OutStandardMetadata area_def xarray_obj k o kw)
                 = Ok (Some [k]))).
Proof.
  intros Hrun. unfold output_all_metadata in Hrun.
  apply output_all_metadata_loop_keys in Hrun as [Hsub Hsup].
  split; [done|]. intros k Hk.
  destruct (Hsup k Hk) as [Hin|(o & Ho & _ & kw & Hcall)]; [by left|].
  right. eauto.
Qed.

(** *** [plot_data] without file names, and on unknown families *)

Lemma output_all_metadata_empty output_dict xarray_obj area_def :
  output_all_metadata output_dict [] [] xarray_obj area_def = Ok [].
Proof. reflexivity. Qed.

(** With [no_output=True], [plot_data] computes no file name, but it still
    calls the output plugin (with an empty list of file names): a plugin
    that raises makes the call raise, and when the call returns, it returns
    no product. *)
Theorem plot_data_no_output output_dict alg_xarray area_def product_name
    output_kwargs fused_xarray_dict src :
  source_name alg_xarray = Some src ->
  str_in (output_family (get_output_format output_dict))
    (PLOT_DATA_CHECKED_FAMILIES ++ OUTPUT_FAMILIES_WITH_NO_OUTFNAMES_ARG)
    = true ->
  (forall final,
      plot_data output_dict alg_xarray area_def product_name output_kwargs
        fused_xarray_dict true = Ok final ->
      final = []
      /\ exists call, is_ok (output_plugin (get_output_format output_dict) call)
                      = true)
  /\ (forall e,
        (forall call,
            output_plugin (get_output_format output_dict) call = Raise e) ->
        plot_data output_dict alg_xarray area_def product_name output_kwargs
          fused_xarray_dict true = Raise e).
Proof.
  intros Hsrc Hfam. unfold plot_data, plot_data_filenames.
  cbn [orb mret res_mret mbind res_mbind res_bind].
  family_cases Hfam; rewrite Hfam; simpl; rewrite ?Hsrc; simpl; split.
  all: try (intros final Hok;
            match type of Hok with
            | context [output_plugin ?f ?c] =>
                destruct (output_plugin f c) as [r|e0] eqn:Hcall;
                [|discriminate]; simpl in Hok
            end;
            split;
            [repeat match type of Hok with
                    | context [expect_products ?r ?f] =>
                        destruct (expect_products r f); [|discriminate];
                        simpl in Hok
                    end;
             by injection Hok as <-
            |eexists; by rewrite Hcall]).
  all: intros e Hraise; by rewrite Hraise.
Qed.

(** An output format whose family is none of those [plot_data] knows makes
    it raise the unsupported-output-family [ValueError], once the file names
    are computed; no output plugin is called. *)
Theorem plot_data_unsupported_family output_dict alg_xarray area_def
    product_name output_kwargs fused_xarray_dict no_output src output_fnames
    metadata_fnames :
  plot_data_filenames output_dict alg_xarray area_def product_name no_output
    = Ok (output_fnames, metadata_fnames) ->
  source_name alg_xarray = Some src ->
  str_in (output_family (get_output_format output_dict))
    (PLOT_DATA_CHECKED_FAMILIES ++ OUTPUT_FAMILIES_WITH_NO_OUTFNAMES_ARG)
    = false ->
  plot_data output_dict alg_xarray area_def product_name output_kwargs
    fused_xarray_dict no_output
  = Raise (ValueError "Unsupported output family").
Proof.
  intros Hnames Hsrc Hfam.
  apply bool_decide_eq_false_1 in Hfam.
  assert (Hne : forall f,
    f ∈ PLOT_DATA_CHECKED_FAMILIES ++ OUTPUT_FAMILIES_WITH_NO_OUTFNAMES_ARG ->
    String.eqb (output_family (get_output_format output_dict)) f = false).
  { intros f Hf. apply String.eqb_neq. intros Heq. apply Hfam. by rewrite Heq. }
  unfold plot_data. rewrite Hnames.
  cbn [mbind res_mbind res_bind].
  rewrite !Hne by (vm_compute; set_solver).
  by rewrite Hsrc.
Qed.

(** [process_xarray_dict_to_output_format] refuses a product whose type is
    not one of the three xarray-dict families with the unsupported-product-
    type [TypeError], and an output format whose family is none of the three
    xarray-dict output families with the unsupported-output-format
    [TypeError]; in both cases no output plugin is called. *)
Theorem process_xarray_dict_unsupported xobjs variables product_name
    output_dict area_def metadata src :
  od_get xobjs "METADATA" = Some metadata ->
  source_name metadata = Some src ->
  (str_in (get_product_type product_name src)
     PRODUCT_FAMILIES_FOR_XARRAY_DICT_TO_OUTPUT_FORMAT = false ->
   process_xarray_dict_to_output_format xobjs variables product_name
     output_dict area_def = Raise (TypeError "UNSUPPORTED product_type"))
  /\ (str_in (get_product_type product_name src)
        PRODUCT_FAMILIES_FOR_XARRAY_DICT_TO_OUTPUT_FORMAT = true ->
      str_in (output_family (get_output_format output_dict))
        (OUTPUT_FAMILIES_WITH_OUTFNAMES_ARG
           ++ OUTPUT_FAMILIES_WITH_NO_OUTFNAMES_ARG) = false ->
      process_xarray_dict_to_output_format xobjs variables product_name
        output_dict area_def = Raise (TypeError "UNSUPPORTED output_format")).
Proof.
  intros Hmeta Hsrc.
  unfold process_xarray_dict_to_output_format, bundle_item.
  rewrite Hmeta. simpl. rewrite Hsrc. simpl. split.
  - by intros ->.
  - intros -> Hfam.
    apply bool_decide_eq_false_1 in Hfam.
    assert (Hne : forall f,
      f ∈ OUTPUT_FAMILIES_WITH_OUTFNAMES_ARG
            ++ OUTPUT_FAMILIES_WITH_NO_OUTFNAMES_ARG ->
      String.eqb (output_family (get_output_format output_dict)) f = false).
    { intros f Hf. apply String.eqb_neq. intros Heq. apply Hfam. by rewrite Heq. }
    assert (Hout : str_in (output_family (get_output_format output_dict))
                     OUTPUT_FAMILIES_WITH_OUTFNAMES_ARG = false).
    { apply bool_decide_eq_false_2. intros Hin. apply Hfam.
      change (output_family (get_output_format output_dict)
                ∈ OUTPUT_FAMILIES_WITH_OUTFNAMES_ARG
                    ++ OUTPUT_FAMILIES_WITH_NO_OUTFNAMES_ARG).
      apply elem_of_app. by left. }
    rewrite Hout. simpl.
    by rewrite !Hne by (vm_compute; set_solver).
Qed.

(** When no filename format comes with a metadata file name, what
    [plot_data] returns is exactly the output file names it computed before
    rendering, with no metadata output added. *)
Theorem plot_data_returns_output_fnames output_dict alg_xarray area_def
    product_name output_kwargs fused_xarray_dict no_output output_fnames
    metadata_fnames final :
  (forall f, f ∈ get_filename_formats output_dict ->
             names_metadata output_dict f = false) ->
  plot_data_filenames output_dict alg_xarray area_def product_name no_output
    = Ok (output_fnames, metadata_fnames) ->
  plot_data output_dict alg_xarray area_def product_name output_kwargs
    fused_xarray_dict no_output = Ok final ->
  final = output_fnames.
Proof.
  intros Hnone Hnames Hrun.
  assert (Hkeys : forall k, k ∈ od_keys metadata_fnames -> k = None).
  { unfold plot_data_filenames in Hnames.
    destruct (no_output || _).
    - injection Hnames as <- <-. intros k Hk. by apply elem_of_nil in Hk.
    - unfold get_output_filenames in Hnames.
      apply (get_output_filenames_loop_none_key _ _ _ _ _ _ [] []) in Hnames;
        [|done|done].
      rewrite Hnames. intros k Hk.
      destruct output_fnames; [by apply elem_of_nil in Hk|].
      by apply list_elem_of_singleton in Hk. }
  unfold plot_data in Hrun. rewrite Hnames in Hrun.
  cbn [mbind res_mbind res_bind] in Hrun.
  match type of Hrun with
  | (?m ≫= _) = _ => destruct m; [|discriminate]
  end.
  cbn [mbind res_mbind res_bind] in Hrun.
  rewrite output_all_metadata_nothing_to_write in Hrun by (by left).
  by injection Hrun.
Qed.

End Output.

(** ** The coverage gate and the rendering step of [single_source]

    The part of the per-area loop body that follows the construction of
    [alg_xarray]: both coverage values, the attributes added to the
    dataset, the minimum coverage in force, the skip, and the rendering. *)

(** [minimum_coverage = 10], then the dataset attribute when it has one,
    then the command-line value when there is one. *)
Definition minimum_coverage_in_force
    (command_line_minimum_coverage : option Q) (alg_xarray : Dataset) : Q :=
  let required := 10%Q in
  let required :=
    match minimum_coverage alg_xarray with
    | Some m => m
    | None => required
    end in
  match command_line_minimum_coverage with
  | Some m => m
  | None => required
  end.

(** [covg < minimum_coverage and fname_covg < minimum_coverage] *)
Definition insufficient_coverage (covg fname_covg_value required : Q) : bool :=
  Qltb covg required && Qltb fname_covg_value required.

Inductive product_outcome : Type :=
| SkippedInsufficientCoverage
| Rendered (curr_products : list (string * fname_info)).

(** [alg_xarray.attrs["filename_extra_fields"] = new_attrs[...]] *)
Definition with_extra_fields (fields : gmap string info_val) (d : Dataset) : Dataset :=
  {| ds_variables := ds_variables d; time_dim := time_dim d;
     source_name := source_name d;
     start_datetime := start_datetime d; end_datetime := end_datetime d;
     minimum_coverage := minimum_coverage d;
     product_name_attr := product_name_attr d;
     filename_extra_fields := Some fields;
     filename_extra_fields_id := filename_extra_fields_id d;
     other_attrs := other_attrs d |}.

Section SingleSourceLoop.

Context {CommandLineArgs Kwargs : Type}.

(** [get_minimum_coverage(product_name, output_dict)] of
    [geoips.dev.output_config]; the product's image-production and file-name
    coverage functions applied with their arguments;
    [get_output_format_kwargs]; and [plot_data], defined above, with the
    plugins it reaches. *)
Variable get_minimum_coverage : string -> CommandLineArgs -> option Q.
Variable image_production_covg :
  string -> Dataset -> AreaDefinition -> CommandLineArgs -> Q.
Variable fname_covg : string -> Dataset -> AreaDefinition -> CommandLineArgs -> Q.
Variable get_output_format_kwargs :
  CommandLineArgs -> Dataset -> AreaDefinition -> Kwargs.
Variable plot_data :
  CommandLineArgs -> Dataset -> AreaDefinition -> string -> Kwargs ->
  res (list (string * fname_info)).

(** From [output_format_kwargs = ...] on: the product is rendered. *)
Definition render_area_product (command_line_args : CommandLineArgs)
    (alg_xarray : Dataset) (area_def : AreaDefinition) (product_name : string)
    : res product_outcome :=
  let output_format_kwargs :=
    get_output_format_kwargs command_line_args alg_xarray area_def in
  curr_products ← plot_data command_line_args alg_xarray area_def product_name
                    output_format_kwargs;
  mret (Rendered curr_products).

Definition single_source_render (command_line_args : CommandLineArgs)
    (alg_xarray : Dataset) (area_def : AreaDefinition) (product_name : string)
    (new_extra_fields : gmap string info_val) : res product_outcome :=
  _ ← get_attr "source_name" (source_name alg_xarray);
  let covg := image_production_covg product_name alg_xarray area_def command_line_args in
  let fname_covg_value :=
    fname_covg product_name alg_xarray area_def command_line_args in
  let alg_xarray := with_extra_fields new_extra_fields alg_xarray in
  let required :=
    minimum_coverage_in_force (get_minimum_coverage product_name command_line_args)
      alg_xarray in
  if insufficient_coverage covg fname_covg_value required then
    (* Insufficient coverage, SKIPPING *)
    mret SkippedInsufficientCoverage
  else
    render_area_product command_line_args alg_xarray area_def product_name.

End SingleSourceLoop.

(** ** The object store

    [get_alg_xarray] creates datasets, updates them in place and hands
    references to plugins that may do the same, so datasets live in a store
    and are denoted by references.  A dataset bundle ([sect_xarrays]) maps
    dataset keys to references, in insertion order. *)

Abbreviation loc := nat.
Abbreviation store := (list Dataset).
Abbreviation bundle := (list (string * nat)).

Abbreviation M := (St store).

(** A new object. *)
Definition alloc (d : Dataset) : M loc := fun h => Ok (length h, h ++ [d]).

(** Reading through a reference; a reference that denotes nothing never
    arises from [alloc]. *)
Definition load (l : loc) : M Dataset := fun h =>
  match h !! l with
  | Some d => Ok (d, h)
  | None => Raise (PluginError "dangling reference")
  end.

(** In-place update of the object a reference denotes. *)
Definition modify (l : loc) (f : Dataset -> Dataset) : M unit := fun h =>
  match h !! l with
  | Some d => Ok (tt, <[l := f d]> h)
  | None => Raise (PluginError "dangling reference")
  end.

(** [xarray.Dataset()] *)
Definition empty_dataset : Dataset :=
  {| ds_variables := []; time_dim := None; source_name := None;
     start_datetime := None; end_datetime := None; minimum_coverage := None;
     product_name_attr := None; filename_extra_fields := None;
     filename_extra_fields_id := 0; other_attrs := ∅ |}.

(** [dest.attrs = src.attrs.copy()]: a shallow copy, so the destination
    holds the [filename_extra_fields] dict of the source, not a copy of it. *)
Definition with_attrs_of (src dest : Dataset) : Dataset :=
  {| ds_variables := ds_variables dest; time_dim := time_dim dest;
     source_name := source_name src;
     start_datetime := start_datetime src; end_datetime := end_datetime src;
     minimum_coverage := minimum_coverage src;
     product_name_attr := product_name_attr src;
     filename_extra_fields := filename_extra_fields src;
     filename_extra_fields_id := filename_extra_fields_id src;
     other_attrs := other_attrs src |}.

(** [ds[varname] = xarray.DataArray(arr)] *)
Definition set_variable (varname : string) (arr : ndarray) (d : Dataset) : Dataset :=
  {| ds_variables := od_set (ds_variables d) varname arr; time_dim := time_dim d;
     source_name := source_name d;
     start_datetime := start_datetime d; end_datetime := end_datetime d;
     minimum_coverage := minimum_coverage d;
     product_name_attr := product_name_attr d;
     filename_extra_fields := filename_extra_fields d;
     filename_extra_fields_id := filename_extra_fields_id d;
     other_attrs := other_attrs d |}.

(** [ds.attrs["product_name"] = product_name] *)
Definition set_product_name (product_name : string) (d : Dataset) : Dataset :=
  {| ds_variables := ds_variables d; time_dim := time_dim d;
     source_name := source_name d;
     start_datetime := start_datetime d; end_datetime := end_datetime d;
     minimum_coverage := minimum_coverage d;
     product_name_attr := Some product_name;
     filename_extra_fields := filename_extra_fields d;
     filename_extra_fields_id := filename_extra_fields_id d;
     other_attrs := other_attrs d |}.

(** [fields[field_name] = field_value] as one dataset holding the dict
    reads it; a dataset without the attribute is given a dict first. *)
Definition stamp_extra_field (field_name : string) (field_value : info_val)
    (d : Dataset) : Dataset :=
  let fields :=
    match filename_extra_fields d with
    | Some fields => fields
    | None => ∅
    end in
  {| ds_variables := ds_variables d; time_dim := time_dim d;
     source_name := source_name d;
     start_datetime := start_datetime d; end_datetime := end_datetime d;
     minimum_coverage := minimum_coverage d;
     product_name_attr := product_name_attr d;
     filename_extra_fields := Some (<[field_name := field_value]> fields);
     filename_extra_fields_id := filename_extra_fields_id d;
     other_attrs := other_attrs d |}.

(** Two datasets hold the same [filename_extra_fields] dict object. *)
Definition same_extra_fields (d1 d2 : Dataset) : bool :=
  match filename_extra_fields d1, filename_extra_fields d2 with
  | Some _, Some _ =>
      Nat.eqb (filename_extra_fields_id d1) (filename_extra_fields_id d2)
  | _, _ => false
  end.

(** The name of a dict object that no dataset of the store holds. *)
Definition fresh_extra_fields_id (h : store) : nat :=
  S (foldr Nat.max 0 (filename_extra_fields_id <$> h)).

(** [xarray_obj.attrs["filename_extra_fields"] = {}]: a new, empty dict. *)
Definition new_extra_fields (id : nat) (d : Dataset) : Dataset :=
  {| ds_variables := ds_variables d; time_dim := time_dim d;
     source_name := source_name d;
     start_datetime := start_datetime d; end_datetime := end_datetime d;
     minimum_coverage := minimum_coverage d;
     product_name_attr := product_name_attr d;
     filename_extra_fields := Some ∅;
     filename_extra_fields_id := id;
     other_attrs := other_attrs d |}.

(** [xarray_obj.attrs["filename_extra_fields"][field_name] = field_value]:
    the item is written into the dict object the dataset holds, so every
    dataset of the store that holds this object reads it afterwards. *)
Definition write_extra_field (holder : Dataset) (field_name : string)
    (field_value : info_val) : M unit := fun h =>
  Ok (tt,
      (fun d => if same_extra_fields holder d
                then stamp_extra_field field_name field_value d else d) <$> h).

(** [add_filename_extra_field(xarray_obj, field_name, field_value)]: updates
    the dataset in place and returns the reference it was given. *)
Definition add_filename_extra_field (xarray_obj : loc) (field_name : string)
    (field_value : info_val) : M loc :=
  d ← load xarray_obj;
  _ ← match filename_extra_fields d with
      | Some _ => mret tt
      | None => fun h =>
          modify xarray_obj (new_extra_fields (fresh_extra_fields_id h)) h
      end;
  d ← load xarray_obj;
  _ ← write_extra_field d field_name field_value;
  mret xarray_obj.

(** [combine_filename_extra_fields(source_xarray, dest_xarray)]: every extra
    field of the source is assigned into the destination's. *)
Definition combine_filename_extra_fields (source_xarray dest_xarray : Dataset)
    : Dataset :=
  match filename_extra_fields source_xarray with
  | Some fields =>
      foldl (fun dest kv => stamp_extra_field (fst kv) (snd kv) dest)
        dest_xarray (map_to_list fields)
  | None => dest_xarray
  end.

(** [sect_xarrays[key]] *)
Definition bundle_ref (sect_xarrays : bundle) (key : string) : M loc :=
  match od_get sect_xarrays key with
  | Some l => mret l
  | None => raise (KeyError key)
  end.

(** [set(xs).issubset(ys)] *)
Definition issubset (xs ys : list string) : bool :=
  forallb (fun x => str_in x ys) xs.

(** [needle in haystack] on two strings: the substring test. *)
Fixpoint str_contains_from (fuel : nat) (needle haystack : string) : bool :=
  if String.prefix needle haystack then true
  else match fuel, haystack with
       | S fuel', String _ rest => str_contains_from fuel' needle rest
       | _, _ => false
       end.

Definition str_contains (needle haystack : string) : bool :=
  str_contains_from (String.length haystack) needle haystack.

(** A Python condition on an optional list: [None] and [[]] are false. *)
Definition truthy_list {A} (v : option (list A)) : bool :=
  match v with
  | Some (_ :: _) => true
  | _ => false
  end.

Lemma bundle_ref_ok sect_xarrays key l h :
  od_get sect_xarrays key = Some l -> bundle_ref sect_xarrays key h = Ok (l, h).
Proof. intros Hget. unfold bundle_ref. by rewrite Hget. Qed.

Lemma load_ok l d (h : store) : h !! l = Some d -> load l h = Ok (d, h).
Proof. intros Hl. unfold load. by rewrite Hl. Qed.


(** ** [get_alg_xarray] *)

(** *** The extra filename fields of a dataset *)

Lemma modify_inv l f (h h' : store) u :
  modify l f h = Ok (u, h') ->
  exists d, h !! l = Some d /\ h' = <[l := f d]> h.
Proof.
  unfold modify. destruct (h !! l) as [d|]; [|discriminate].
  intros [= <- <-]. eauto.
Qed.

Lemma load_inv l d (h h' : store) :
  load l h = Ok (d, h') -> h !! l = Some d /\ h' = h.
Proof.
  unfold load. destruct (h !! l) as [d0|]; [|discriminate].
  by intros [= <- <-].
Qed.

Lemma modify_ok l f (h : store) d :
  h !! l = Some d -> modify l f h = Ok (tt, <[l := f d]> h).
Proof. intros Hl. unfold modify. by rewrite Hl. Qed.

Lemma fresh_extra_fields_id_above (h : store) l d :
  h !! l = Some d -> filename_extra_fields_id d < fresh_extra_fields_id h.
Proof.
  unfold fresh_extra_fields_id. revert l.
  induction h as [|d0 h IH]; intros l Hl; [done|].
  destruct l as [|l]; cbn in *.
  - injection Hl as ->. lia.
  - specialize (IH _ Hl). lia.
Qed.

(** The dataset already has the attribute: the item is written into its
    dict, and shows in every dataset that holds the same dict. *)
Lemma add_filename_extra_field_shared l field v (h : store) d fields :
  h !! l = Some d ->
  filename_extra_fields d = Some fields ->
  add_filename_extra_field l field v h
  = Ok (l, (fun d0 => if same_extra_fields d d0
                      then stamp_extra_field field v d0 else d0) <$> h).
Proof.
  intros Hl Hfields. unfold add_filename_extra_field.
  rewrite (bind_ok _ _ _ _ _ (load_ok _ _ _ Hl)). rewrite Hfields.
  erewrite bind_ok by reflexivity.
  rewrite (bind_ok _ _ _ _ _ (load_ok _ _ _ Hl)).
  reflexivity.
Qed.

(** The dataset has no such attribute: it is given a dict of its own, which
    no other dataset holds. *)
Lemma add_filename_extra_field_new l field v (h : store) d :
  h !! l = Some d ->
  filename_extra_fields d = None ->
  add_filename_extra_field l field v h
  = Ok (l, <[l := stamp_extra_field field v
                    (new_extra_fields (fresh_extra_fields_id h) d)]> h).
Proof.
  intros Hl Hfields. unfold add_filename_extra_field.
  rewrite (bind_ok _ _ _ _ _ (load_ok _ _ _ Hl)). rewrite Hfields.
  erewrite bind_ok by (cbv beta; by apply modify_ok).
  pose proof (lookup_lt_Some _ _ _ Hl) as Hlt.
  set (d1 := new_extra_fields (fresh_extra_fields_id h) d).
  erewrite bind_ok by (apply load_ok; by apply list_lookup_insert_eq).
  unfold write_extra_field, mbind, St_bind, mret, St_ret. do 2 f_equal.
  rewrite list_fmap_insert.
  assert (Hself : same_extra_fields d1 d1 = true).
  { unfold same_extra_fields, d1. cbn. apply Nat.eqb_refl. }
  rewrite Hself. f_equal.
  apply list_eq. intros k. rewrite list_lookup_fmap.
  destruct (h !! k) as [dk|] eqn:Hk; [|done]. cbn [fmap option_fmap option_map].
  f_equal.
  assert (Hother : same_extra_fields d1 dk = false); [|by rewrite Hother].
  unfold same_extra_fields, d1.
  cbn [new_extra_fields filename_extra_fields filename_extra_fields_id].
  destruct (filename_extra_fields dk); [|done].
  apply Nat.eqb_neq. pose proof (fresh_extra_fields_id_above _ _ _ Hk). lia.
Qed.

Lemma add_filename_extra_field_inv l field v (h h' : store) r :
  add_filename_extra_field l field v h = Ok (r, h') ->
  r = l /\ exists d, h !! l = Some d
       /\ add_filename_extra_field l field v h = Ok (l, h').
Proof.
  intros Hadd. pose proof Hadd as Hrun. unfold add_filename_extra_field in Hadd.
  minv Hadd d h1 Hload. apply load_inv in Hload as [Hl ->].
  minv Hadd u h2 Hprep. minv Hadd d1 h3 Hload. minv Hadd u' h4 Hwrite.
  injection Hadd as <- <-. split; [done|]. eauto.
Qed.

Lemma add_filename_extra_field_returns l field v (h : store) :
  (final_xarray ← (r ← add_filename_extra_field l field v; mret (Some r));
   lift (read_local "final_xarray" final_xarray)) h
  = add_filename_extra_field l field v h.
Proof.
  destruct (add_filename_extra_field l field v h) as [[r h']|e] eqn:Hadd.
  - pose proof (add_filename_extra_field_inv _ _ _ _ _ _ Hadd) as [-> _].
    erewrite bind_ok; [|erewrite bind_ok by exact Hadd; reflexivity].
    reflexivity.
  - erewrite bind_raise; [done|]. by erewrite bind_raise.
Qed.

Lemma same_extra_fields_refl d fields :
  filename_extra_fields d = Some fields -> same_extra_fields d d = true.
Proof. intros H. unfold same_extra_fields. rewrite H. apply Nat.eqb_refl. Qed.

(** What a call leaves in the store: the dataset it was given holds the
    field, and every other dataset is as it was, but for the new item in
    the dict when it holds the same one. *)
Lemma add_filename_extra_field_effect l field v (h : store) d :
  h !! l = Some d ->
  exists h' d' fields,
    add_filename_extra_field l field v h = Ok (l, h')
    /\ length h' = length h
    /\ h' !! l = Some d'
    /\ ds_variables d' = ds_variables d
    /\ product_name_attr d' = product_name_attr d
    /\ filename_extra_fields d' = Some fields
    /\ fields !! field = Some v
    /\ (forall k dk, k <> l -> h !! k = Some dk ->
          h' !! k = Some (if same_extra_fields d dk
                          then stamp_extra_field field v dk else dk)).
Proof.
  intros Hl. pose proof (lookup_lt_Some _ _ _ Hl) as Hlt.
  destruct (filename_extra_fields d) as [fields|] eqn:Hfields.
  - eexists _, (stamp_extra_field field v d), _.
    split; [by eapply add_filename_extra_field_shared|].
    split; [by rewrite length_fmap|].
    split.
    { rewrite list_lookup_fmap, Hl. cbn.
      by rewrite (same_extra_fields_refl _ _ Hfields). }
    do 2 (split; [reflexivity|]).
    cbn [stamp_extra_field filename_extra_fields].
    split; [reflexivity|].
    split; [by rewrite lookup_insert_eq|].
    intros k dk _ Hk. by rewrite list_lookup_fmap, Hk.
  - eexists _, _, _.
    split; [by eapply add_filename_extra_field_new|].
    split; [by rewrite length_insert|].
    split; [by apply list_lookup_insert_eq|].
    do 2 (split; [reflexivity|]).
    cbn [stamp_extra_field new_extra_fields filename_extra_fields].
    split; [reflexivity|].
    split; [by rewrite lookup_insert_eq|].
    intros k dk Hne Hk. rewrite list_lookup_insert_ne by done.
    unfold same_extra_fields. by rewrite Hfields.
Qed.

(** [add_filename_extra_field] updates the dataset it is given in place and
    returns that same dataset.  Afterwards the field reads back as the
    value just set, the dataset has its other extra fields as before (a
    dataset without [filename_extra_fields] gets a mapping with this one
    field), and its variables and other attributes are untouched.  The
    item is written into the dict the dataset holds: every other dataset
    that holds the same dict, as after [attrs.copy()], reads the new field
    too, and the datasets that do not hold it are untouched. *)
Theorem add_filename_extra_field_reads_back xarray_obj field_name field_value
    (h : store) d :
  h !! xarray_obj = Some d ->
  exists h' d' fields,
    add_filename_extra_field xarray_obj field_name field_value h
      = Ok (xarray_obj, h')
    /\ length h' = length h
    /\ h' !! xarray_obj = Some d'
    /\ filename_extra_fields d' = Some fields
    /\ fields !! field_name = Some field_value
    /\ (forall other, other <> field_name ->
          fields !! other = (filename_extra_fields d ≫= (.!! other)))
    /\ ds_variables d' = ds_variables d
    /\ source_name d' = source_name d
    /\ product_name_attr d' = product_name_attr d
    /\ minimum_coverage d' = minimum_coverage d
    /\ other_attrs d' = other_attrs d
    /\ (forall l dl, h !! l = Some dl -> same_extra_fields d dl = true ->
          h' !! l = Some (stamp_extra_field field_name field_value dl))
    /\ (forall l dl, l <> xarray_obj -> h !! l = Some dl ->
          same_extra_fields d dl = false -> h' !! l = Some dl).
Proof.
  intros Hl. pose proof (lookup_lt_Some _ _ _ Hl) as Hlt.
  destruct (filename_extra_fields d) as [fields|] eqn:Hfields.
  - eexists _, (stamp_extra_field field_name field_value d), _.
    split; [by eapply add_filename_extra_field_shared|].
    split; [by rewrite length_fmap|].
    split.
    { rewrite list_lookup_fmap, Hl. cbn.
      by rewrite (same_extra_fields_refl _ _ Hfields). }
    cbn [stamp_extra_field filename_extra_fields]. rewrite Hfields.
    split; [reflexivity|].
    split; [by rewrite lookup_insert_eq|].
    split; [intros other Hne; by rewrite lookup_insert_ne|].
    do 5 (split; [reflexivity|]).
    split.
    + intros l dl Hdl Hsame. rewrite list_lookup_fmap, Hdl. cbn.
      by rewrite Hsame.
    + intros l dl _ Hdl Hsame. rewrite list_lookup_fmap, Hdl. cbn.
      by rewrite Hsame.
  - eexists _, _, _.
    split; [by eapply add_filename_extra_field_new|].
    split; [by rewrite length_insert|].
    split; [by apply list_lookup_insert_eq|].
    cbn [stamp_extra_field new_extra_fields filename_extra_fields].
    split; [reflexivity|].
    split; [by rewrite lookup_insert_eq|].
    split; [intros other Hne; by rewrite lookup_insert_ne|].
    do 5 (split; [reflexivity|]).
    split.
    + intros l dl _ Hsame. unfold same_extra_fields in Hsame.
      by rewrite Hfields in Hsame.
    + intros l dl Hne Hdl _. by rewrite list_lookup_insert_ne.
Qed.

Lemma stamp_all_fields (l : list (string * info_val)) (dest : Dataset) :
  NoDup (fst <$> l) ->
  l <> [] ->
  filename_extra_fields
    (foldl (fun dest kv => stamp_extra_field (fst kv) (snd kv) dest) dest l)
  = Some (list_to_map l ∪ default ∅ (filename_extra_fields dest)).
Proof.
  revert dest. induction l as [|[k v] l IH]; intros dest Hnd Hne; [done|].
  apply NoDup_cons in Hnd as [Hk Hnd]. cbn [foldl fst snd].
  destruct (decide (l = [])) as [->|Hl].
  - cbn. by rewrite insert_empty, <- insert_union_singleton_l.
  - rewrite IH by done. cbn [stamp_extra_field filename_extra_fields default].
    f_equal. cbn [list_to_map foldr]. cbn.
    rewrite <- insert_union_l. symmetry. apply insert_union_r.
    by apply not_elem_of_list_to_map_1.
Qed.

Lemma stamp_all_other_attributes (l : list (string * info_val)) (dest : Dataset) :
  let d' := foldl (fun dest kv => stamp_extra_field (fst kv) (snd kv) dest)
              dest l in
  ds_variables d' = ds_variables dest
  /\ source_name d' = source_name dest
  /\ product_name_attr d' = product_name_attr dest
  /\ minimum_coverage d' = minimum_coverage dest
  /\ other_attrs d' = other_attrs dest.
Proof.
  revert dest. induction l as [|[k v] l IH]; intros dest; [done|].
  cbv zeta in *. cbn [foldl fst snd].
  by destruct (IH (stamp_extra_field k v dest)) as (-> & -> & -> & -> & ->).
Qed.

(** [combine_filename_extra_fields] gives the destination every extra field
    of the source: afterwards its extra fields are those of the source,
    together with the ones it had under other names.  A source without
    [filename_extra_fields], or with an empty one, leaves the destination as
    it is; in particular a destination without the attribute stays without
    it.  Variables and other attributes of the destination are kept. *)
Theorem combine_filename_extra_fields_union source_xarray dest_xarray :
  filename_extra_fields (combine_filename_extra_fields source_xarray dest_xarray)
  = match filename_extra_fields source_xarray with
    | Some fields =>
        if decide (fields = ∅) then filename_extra_fields dest_xarray
        else Some (fields ∪ default ∅ (filename_extra_fields dest_xarray))
    | None => filename_extra_fields dest_xarray
    end
  /\ ds_variables (combine_filename_extra_fields source_xarray dest_xarray)
     = ds_variables dest_xarray
  /\ source_name (combine_filename_extra_fields source_xarray dest_xarray)
     = source_name dest_xarray
  /\ product_name_attr (combine_filename_extra_fields source_xarray dest_xarray)
     = product_name_attr dest_xarray
  /\ other_attrs (combine_filename_extra_fields source_xarray dest_xarray)
     = other_attrs dest_xarray.
Proof.
  unfold combine_filename_extra_fields.
  destruct (filename_extra_fields source_xarray) as [fields|]; [|done].
  split.
  - destruct (decide (fields = ∅)) as [->|Hne].
    + by rewrite map_to_list_empty.
    + rewrite stamp_all_fields.
      * by rewrite list_to_map_to_list.
      * apply NoDup_fst_map_to_list.
      * intros Hnil. by apply map_to_list_empty_iff in Hnil.
  - destruct (stamp_all_other_attributes (map_to_list fields) dest_xarray)
      as (? & ? & ? & ? & ?).
    done.
Qed.

Section GetAlgXarray.

Context {AlgArgs InterpArgs : Type}.

(** What an algorithm plugin is called on, by algorithm family. *)
Inductive alg_input : Type :=
| AlgXarray (xarray_obj : loc)
| AlgXarrayDictArea (xarray_dict : bundle) (area_def : AreaDefinition)
| AlgXarrayDict (xarray_dict : bundle)
| AlgKey (key : string)
| AlgListNumpy (arrays : list ndarray).

(** *** Collaborators *)

(** [geoips.dev.product], each applied to the product and source names. *)
Variable get_required_variables : string -> string -> list string.
Variable get_requested_datasets_for_variables :
  string -> string -> list (string * list string).
Variable get_product_type : string -> string -> string.
Variable get_alg_name : string -> string -> string.
Variable get_alg_args : string -> string -> AlgArgs.
Variable get_interp_name : string -> string -> option string.
Variable get_interp_args : string -> string -> InterpArgs.

(** Algorithm plugins, by name: the family, and the call, which returns an
    array for the [..._to_numpy] families and a dataset for the
    [..._to_xarray] ones. *)
Variable alg_family : string -> string.
Variable alg_plugin_numpy : string -> alg_input -> AlgArgs -> store -> res ndarray.
Variable alg_plugin_xarray : string -> alg_input -> AlgArgs -> M loc.

(** Interpolator plugins, by name:
    [interp_plugin(area_def, input_xarray, output_xarray, **interp_args)]
    with [interp_args["varlist"]] passed last.  The result is a reference:
    the output dataset it was given, updated, or another dataset. *)
Variable interp_plugin :
  string -> AreaDefinition -> loc -> loc -> InterpArgs -> list string -> M loc.

(** [geoips.xarray_utils.data.sector_xarrays(xobjs, area_def, varlist,
    hours_before_sector_time, hours_after_sector_time, drop)]. *)
Variable sector_xarrays :
  bundle -> AreaDefinition -> list string -> Z -> Z -> bool -> M bundle.

(** [ds.isel(time=i)], [xarray.concat(datasets, dim="dim_2")] and
    [geoips.geoips_utils.copy_standard_metadata(orig, dest, force=False)]. *)
Variable isel_time : Dataset -> nat -> Dataset.
Variable concat_dim_2 : list Dataset -> Dataset.
Variable copy_standard_metadata : Dataset -> Dataset -> Dataset.

(** A call that reads the store and returns an array. *)
Definition numpy_call (f : store -> res ndarray) : M ndarray := fun h =>
  match f h with
  | Ok a => Ok (a, h)
  | Raise e => Raise e
  end.

(** [ds[varname].to_masked_array()] *)
Definition dataset_array (d : Dataset) (varname : string) : res ndarray :=
  match od_get (ds_variables d) varname with
  | Some a => Ok a
  | None => Raise (KeyError varname)
  end.

(** *** The algorithm-first families *)

(** Family [xarray_to_numpy]: the loop over [sect_xarrays.keys()].  The
    selection test reads the parameter [variable_names]. *)
Fixpoint alg_first_xarray_to_numpy (dsnames : list string)
    (sect_xarrays : bundle) (variable_names : option (list string))
    (alg_name : string) (alg_args : AlgArgs) (alg_xarray : loc)
    (product_name : string) : M unit :=
  match dsnames with
  | [] => mret tt
  | dsname :: rest =>
      names ← match variable_names with
              | Some names => mret names
              | None => raise (TypeError "'NoneType' object is not iterable")
              end;
      ds_ref ← bundle_ref sect_xarrays dsname;
      ds ← load ds_ref;
      _ ← (if issubset names (od_keys (ds_variables ds)) then
             arr ← numpy_call (alg_plugin_numpy alg_name (AlgXarray ds_ref) alg_args);
             modify alg_xarray (set_variable product_name arr)
           else mret tt);
      alg_first_xarray_to_numpy rest sect_xarrays variable_names alg_name
        alg_args alg_xarray product_name
  end.

(** Family [xarray_to_xarray]: the inner loop iterates the bundle itself,
    that is its keys; [varname in curr_sect_xarray] is a test on the key, and
    the log call of the second match evaluates
    [curr_sect_xarrays[varname].shape]. *)
Fixpoint alg_first_select_inner (keys : list string) (curr_sect_xarrays : bundle)
    (varname : string) (input_alg_xarray : option string) : M (option string) :=
  match keys with
  | [] => mret input_alg_xarray
  | curr_sect_xarray :: rest =>
      input_alg_xarray ←
        (if str_contains varname curr_sect_xarray then
           match input_alg_xarray with
           | None => mret (Some curr_sect_xarray)
           | Some _ =>
               ds_ref ← bundle_ref curr_sect_xarrays varname;
               ds ← load ds_ref;
               if od_mem (ds_variables ds) "shape" ||
                  bool_decide (is_Some (other_attrs ds !! "shape"))
               then mret input_alg_xarray
               else raise (AttributeError "shape")
           end
         else mret input_alg_xarray);
      alg_first_select_inner rest curr_sect_xarrays varname input_alg_xarray
  end.

Fixpoint alg_first_select (variables : list string) (curr_sect_xarrays : bundle)
    (input_alg_xarray : option string) : M (option string) :=
  match variables with
  | [] => mret input_alg_xarray
  | varname :: rest =>
      input_alg_xarray ← alg_first_select_inner (od_keys curr_sect_xarrays)
                           curr_sect_xarrays varname input_alg_xarray;
      alg_first_select rest curr_sect_xarrays input_alg_xarray
  end.

(** Family [list_numpy_to_numpy]: the arrays of the required variables, and
    the sectored dataset that becomes [alg_xarray]. *)
Fixpoint alg_first_collect_inner (values : list loc) (varname : string)
    (numpys : list ndarray) (alg_xarray : loc) : M (list ndarray * loc) :=
  match values with
  | [] => mret (numpys, alg_xarray)
  | curr_sect_xarray :: rest =>
      ds ← load curr_sect_xarray;
      if str_in varname (od_keys (ds_variables ds)) then
        arr ← lift (dataset_array ds varname);
        alg_first_collect_inner rest varname (numpys ++ [arr]) curr_sect_xarray
      else alg_first_collect_inner rest varname numpys alg_xarray
  end.

Fixpoint alg_first_collect (variables : list string) (curr_sect_xarrays : bundle)
    (numpys : list ndarray) (alg_xarray : loc) : M (list ndarray * loc) :=
  match variables with
  | [] => mret (numpys, alg_xarray)
  | varname :: rest =>
      '(numpys, alg_xarray) ← alg_first_collect_inner (map snd curr_sect_xarrays)
                                varname numpys alg_xarray;
      alg_first_collect rest curr_sect_xarrays numpys alg_xarray
  end.

(** The dispatch on the algorithm family; the result is what [alg_xarray]
    refers to afterwards. *)
Definition alg_first_apply (sect_xarrays curr_sect_xarrays : bundle)
    (area_def : AreaDefinition) (product_name : string)
    (variables : list string) (variable_names : option (list string))
    (alg_family : option string) (alg : option (string * AlgArgs))
    (alg_xarray : loc) : M loc :=
  let family_is f :=
    match alg_family with Some fam => String.eqb fam f | None => false end in
  if family_is "xarray_to_numpy" then
    '(alg_name, alg_args) ← lift (read_local "alg_plugin" alg);
    _ ← alg_first_xarray_to_numpy (od_keys sect_xarrays) sect_xarrays
          variable_names alg_name alg_args alg_xarray product_name;
    mret alg_xarray
  else if family_is "xarray_dict_area_def_to_numpy" then
    '(alg_name, alg_args) ← lift (read_local "alg_plugin" alg);
    arr ← numpy_call (alg_plugin_numpy alg_name
                        (AlgXarrayDictArea sect_xarrays area_def) alg_args);
    _ ← modify alg_xarray (set_variable product_name arr);
    mret alg_xarray
  else if family_is "xarray_dict_to_xarray" then
    '(alg_name, alg_args) ← lift (read_local "alg_plugin" alg);
    alg_plugin_xarray alg_name (AlgXarrayDict sect_xarrays) alg_args
  else if family_is "xarray_to_xarray" then
    input_alg_xarray ← alg_first_select variables curr_sect_xarrays None;
    match input_alg_xarray with
    | None =>
        raise (ValueError "No required variables in any xarrays for xarray_to_xarray alg type")
    | Some input_alg_xarray =>
        '(alg_name, alg_args) ← lift (read_local "alg_plugin" alg);
        alg_plugin_xarray alg_name (AlgKey input_alg_xarray) alg_args
    end
  else if family_is "list_numpy_to_numpy" then
    '(numpys, alg_xarray) ← alg_first_collect variables curr_sect_xarrays [] alg_xarray;
    '(alg_name, alg_args) ← lift (read_local "alg_plugin" alg);
    arr ← numpy_call (alg_plugin_numpy alg_name (AlgListNumpy numpys) alg_args);
    _ ← modify alg_xarray (set_variable product_name arr);
    mret alg_xarray
  else mret alg_xarray.

(** The algorithm-first branch, from [alg_xarray = xarray.Dataset()] to its
    [return final_xarray]. *)
Definition alg_first_branch (sect_xarrays curr_sect_xarrays : bundle)
    (metadata : Dataset) (area_def : AreaDefinition) (product_name : string)
    (product_type : string) (variables : list string)
    (variable_names : option (list string))
    (alg_family : option string) (alg : option (string * AlgArgs))
    (interp : option string) (interp_args : option InterpArgs) : M loc :=
  alg_xarray ← alloc (with_attrs_of metadata empty_dataset);
  alg_xarray ← alg_first_apply sect_xarrays curr_sect_xarrays area_def
                 product_name variables variable_names alg_family alg alg_xarray;
  final_xarray ←
    (if String.eqb product_type "alg_cmap" then
       (* No interpolation required *)
       mret (Some alg_xarray)
     else if String.eqb product_type "alg_interp_cmap" then
       (* If required, interpolate the result prior to returning *)
       interp_args ← lift (read_local "interp_args" interp_args);
       match interp with
       | Some interp_name =>
           r ← interp_plugin interp_name area_def alg_xarray alg_xarray
                 interp_args [product_name];
           mret (Some r)
       | None => raise (TypeError "'NoneType' object is not callable")
       end
     else mret None);
  final_xarray ←
    (match sector_info area_def !! "adjustment_id" with
     | Some adjustment_id =>
         r ← add_filename_extra_field alg_xarray "adjustment_id" adjustment_id;
         mret (Some r)
     | None => mret final_xarray
     end);
  lift (read_local "final_xarray" final_xarray).

(** *** The interpolation-first families *)

(** The loop state of the interpolation-first branch: the dataset being
    filled, the interpolator and its arguments as last assigned, and the
    loop variable [sect_xarray], which is read after the loops. *)
Record interp_state : Type := {
  st_interp_xarray : loc;
  st_interp_plugin : option string;
  st_interp_args : option InterpArgs;
  st_sect_xarray : option loc
}.

(** The list comprehension over [range(tdims)]. *)
Fixpoint interp_each_time (indices : list nat) (interp_name : string)
    (area_def : AreaDefinition) (ds : Dataset) (interp_args : InterpArgs)
    (varname : string) : M (list loc) :=
  match indices with
  | [] => mret []
  | i :: rest =>
      input ← alloc (isel_time ds i);
      output ← alloc empty_dataset;
      r ← interp_plugin interp_name area_def input output interp_args [varname];
      rs ← interp_each_time rest interp_name area_def ds interp_args varname;
      mret (r :: rs)
  end.

Fixpoint load_all (refs : list loc) : M (list Dataset) :=
  match refs with
  | [] => mret []
  | r :: rest => d ← load r; ds ← load_all rest; mret (d :: ds)
  end.

(** One iteration of [for key, sect_xarray in curr_sect_xarrays.items()]. *)
Definition interp_first_step (area_def : AreaDefinition) (product_name : string)
    (variables : list string)
    (datasets_for_vars : list (string * list string)) (resampled_read : bool)
    (varname key : string) (sect_xarray : loc) (st : interp_state)
    : M interp_state :=
  let st := {| st_interp_xarray := st_interp_xarray st;
               st_interp_plugin := st_interp_plugin st;
               st_interp_args := st_interp_args st;
               st_sect_xarray := Some sect_xarray |} in
  ds ← load sect_xarray;
  if negb (str_in varname (od_keys (ds_variables ds))) then mret st
  else
    (* Reassign interp_plugin based on CURRENT sect_xarray *)
    src ← lift (get_attr "source_name" (source_name ds));
    let '(plugin, args) :=
      match get_interp_name product_name src with
      | Some n => (Some n, Some (get_interp_args product_name src))
      | None => (None, st_interp_args st)
      end in
    let st := {| st_interp_xarray := st_interp_xarray st;
                 st_interp_plugin := plugin;
                 st_interp_args := args;
                 st_sect_xarray := Some sect_xarray |} in
    interp_ds ← load (st_interp_xarray st);
    let proceed :=
      match od_get datasets_for_vars varname with
      | Some requested =>
          if negb resampled_read then str_in key requested
          else if str_in varname (od_keys (ds_variables interp_ds))
               then issubset variables (od_keys (ds_variables ds))
               else true
      | None =>
          if str_in varname (od_keys (ds_variables interp_ds))
          then issubset variables (od_keys (ds_variables ds))
          else true
      end in
    if negb proceed then mret st
    else
      interp_args ← lift (read_local "interp_args" (st_interp_args st));
      interp_name ← match st_interp_plugin st with
                    | Some n => mret n
                    | None => raise (TypeError "'NoneType' object is not callable")
                    end;
      match time_dim ds with
      | Some tdims =>
          interp_list ← interp_each_time (seq 0 tdims) interp_name area_def ds
                          interp_args varname;
          interp_datasets ← load_all interp_list;
          arr ← lift (dataset_array (concat_dim_2 interp_datasets) varname);
          _ ← modify (st_interp_xarray st) (set_variable varname arr);
          mret st
      | None =>
          r ← interp_plugin interp_name area_def sect_xarray
                (st_interp_xarray st) interp_args [varname];
          mret {| st_interp_xarray := r;
                  st_interp_plugin := st_interp_plugin st;
                  st_interp_args := st_interp_args st;
                  st_sect_xarray := st_sect_xarray st |}
      end.

Fixpoint interp_first_inner (items : bundle) (area_def : AreaDefinition)
    (product_name : string) (variables : list string)
    (datasets_for_vars : list (string * list string)) (resampled_read : bool)
    (varname : string) (st : interp_state) : M interp_state :=
  match items with
  | [] => mret st
  | (key, sect_xarray) :: rest =>
      st ← interp_first_step area_def product_name variables datasets_for_vars
             resampled_read varname key sect_xarray st;
      interp_first_inner rest area_def product_name variables datasets_for_vars
        resampled_read varname st
  end.

Fixpoint interp_first_outer (todo : list string) (curr_sect_xarrays : bundle)
    (area_def : AreaDefinition) (product_name : string)
    (variables : list string)
    (datasets_for_vars : list (string * list string)) (resampled_read : bool)
    (st : interp_state) : M interp_state :=
  match todo with
  | [] => mret st
  | varname :: rest =>
      st ← interp_first_inner curr_sect_xarrays area_def product_name variables
             datasets_for_vars resampled_read varname st;
      interp_first_outer rest curr_sect_xarrays area_def product_name variables
        datasets_for_vars resampled_read st
  end.

(** [copy_standard_metadata(sect_xarray, interp_xarray, force=False)] *)
Definition copy_metadata_from (sect_xarray : option loc) (interp_xarray : loc)
    : M unit :=
  sect_xarray ← lift (read_local "sect_xarray" sect_xarray);
  ds ← load sect_xarray;
  modify interp_xarray (copy_standard_metadata ds).

Fixpoint arrays_of (d : Dataset) (variables : list string) : res (list ndarray) :=
  match variables with
  | [] => mret []
  | varname :: rest =>
      a ← dataset_array d varname;
      l ← arrays_of d rest;
      mret (a :: l)
  end.

(** The interpolation-first branch, from [interp_xarray = xarray.Dataset()]
    to the end of the function. *)
Definition interp_first_branch (curr_sect_xarrays : bundle)
    (area_def : AreaDefinition) (product_name : string) (product_type : string)
    (variables : list string)
    (datasets_for_vars : list (string * list string)) (resampled_read : bool)
    (alg_family : option string) (alg : option (string * AlgArgs))
    (interp : option string) (interp_args : option InterpArgs) : M loc :=
  interp_xarray ← alloc empty_dataset;
  st ← interp_first_outer variables curr_sect_xarrays area_def product_name
         variables datasets_for_vars resampled_read
         {| st_interp_xarray := interp_xarray; st_interp_plugin := interp;
            st_interp_args := interp_args; st_sect_xarray := None |};
  let interp_xarray := st_interp_xarray st in
  _ ← copy_metadata_from (st_sect_xarray st) interp_xarray;
  let family_in l :=
    match alg_family with Some fam => str_in fam l | None => false end in
  interp_xarray ←
    (if str_in product_type ["interp"] then mret interp_xarray
     else if family_in ["xarray_to_numpy"] then
       '(alg_name, alg_args) ← lift (read_local "alg_plugin" alg);
       arr ← numpy_call (alg_plugin_numpy alg_name (AlgXarray interp_xarray) alg_args);
       _ ← modify interp_xarray (set_variable product_name arr);
       mret interp_xarray
     else if family_in ["xarray_to_xarray"] then
       '(alg_name, alg_args) ← lift (read_local "alg_plugin" alg);
       alg_plugin_xarray alg_name (AlgXarray interp_xarray) alg_args
     else if family_in ["single_channel"; "channel_combination";
                        "list_numpy_to_numpy"; "rgb"] then
       '(alg_name, alg_args) ← lift (read_local "alg_plugin" alg);
       ds ← load interp_xarray;
       arrays ← lift (arrays_of ds variables);
       arr ← numpy_call (alg_plugin_numpy alg_name (AlgListNumpy arrays) alg_args);
       _ ← modify interp_xarray (set_variable product_name arr);
       mret interp_xarray
     else raise (TypeError "UNSUPPORTED alg_family or product_type"));
  _ ← copy_metadata_from (st_sect_xarray st) interp_xarray;
  _ ← modify interp_xarray (set_product_name product_name);
  match sector_info area_def !! "adjustment_id" with
  | Some adjustment_id =>
      add_filename_extra_field interp_xarray "adjustment_id" adjustment_id
  | None => mret interp_xarray
  end.

(** *** The whole function *)

Definition ALG_PRODUCT_TYPES : list string :=
  ["alg"; "alg_cmap"; "interp_alg"; "interp_alg_cmap"; "alg_interp_cmap"].

Definition ALG_FIRST_PRODUCT_TYPES : list string :=
  ["alg_cmap"; "alg_interp_cmap"; "alg"].

(** The required variables: the ones passed in, when any, else the ones of
    the product. *)
Definition required_variables (variable_names : option (list string))
    (product_name src : string) : list string :=
  match variable_names with
  | Some (v :: vs) => v :: vs
  | _ => get_required_variables product_name src
  end.

(** The bundle the branches work on: sectored to the exact area when
    [resector] is set, the given one otherwise. *)
Definition resectored (resector : bool) (sect_xarrays : bundle)
    (area_def : AreaDefinition) (variables : list string) : M bundle :=
  if resector
  then sector_xarrays sect_xarrays area_def variables 6 9 true
  else mret sect_xarrays.

Definition get_alg_xarray (sect_xarrays : bundle) (area_def : AreaDefinition)
    (product_name : string) (resector : bool) (resampled_read : bool)
    (variable_names : option (list string)) : M loc :=
  metadata_ref ← bundle_ref sect_xarrays "METADATA";
  metadata ← load metadata_ref;
  src ← lift (get_attr "source_name" (source_name metadata));
  let variables := required_variables variable_names product_name src in
  let datasets_for_vars := get_requested_datasets_for_variables product_name src in
  let product_type := get_product_type product_name src in
  (* Only attempt to set algorithm function if algorithm requested in product type *)
  let alg :=
    if str_in product_type ALG_PRODUCT_TYPES
    then Some (get_alg_name product_name src, get_alg_args product_name src)
    else None in
  let alg_family :=
    match alg with
    | Some (alg_name, _) => Some (alg_family alg_name)
    | None => None
    end in
  let interp := get_interp_name product_name src in
  let interp_args :=
    match interp with
    | Some _ => Some (get_interp_args product_name src)
    | None => None
    end in
  curr_sect_xarrays ← resectored resector sect_xarrays area_def variables;
  if str_in product_type ALG_FIRST_PRODUCT_TYPES then
    alg_first_branch sect_xarrays curr_sect_xarrays metadata area_def
      product_name product_type variables variable_names alg_family alg
      interp interp_args
  else
    interp_first_branch curr_sect_xarrays area_def product_name product_type
      variables datasets_for_vars resampled_read alg_family alg interp
      interp_args.

(** *** Properties *)

Lemma alg_first_types_are_alg_types product_type :
  str_in product_type ALG_FIRST_PRODUCT_TYPES = true ->
  str_in product_type ALG_PRODUCT_TYPES = true.
Proof. intros H. family_cases H; subst; reflexivity. Qed.

Lemma od_get_some_keys {V} (d : list (string * V)) k v :
  od_get d k = Some v -> exists k0 ks, od_keys d = k0 :: ks.
Proof. destruct d as [|[k0 v0] d]; [discriminate|]. simpl. eauto. Qed.

(** C8.  On a product that is algorithm-first with an algorithm of family
    [xarray_to_numpy], a call that leaves [variable_names] at its default
    [None] never returns a dataset.  The required variables are resolved
    from the product metadata, yet the dataset-selection test of that
    family reads [variable_names] itself: once the bundle is sectored (or
    taken as given), the first iteration over its keys raises the
    [TypeError] of iterating [None]. *)
Theorem get_alg_xarray_requires_variable_names
    sect_xarrays area_def product_name resector resampled_read
    (h : store) metadata_ref metadata src :
  od_get sect_xarrays "METADATA" = Some metadata_ref ->
  h !! metadata_ref = Some metadata ->
  source_name metadata = Some src ->
  str_in (get_product_type product_name src) ALG_FIRST_PRODUCT_TYPES = true ->
  alg_family (get_alg_name product_name src) = "xarray_to_numpy" ->
  is_ok (get_alg_xarray sect_xarrays area_def product_name resector
           resampled_read None h) = false
  /\ (resector = false \/
       is_ok (sector_xarrays sect_xarrays area_def
                (get_required_variables product_name src) 6 9 true h) = true ->
      get_alg_xarray sect_xarrays area_def product_name resector
        resampled_read None h
      = Raise (TypeError "'NoneType' object is not iterable")).
Proof.
  intros Hmeta Hload Hsrc Htype Hfam.
  pose proof (alg_first_types_are_alg_types _ Htype) as Halg.
  destruct (od_get_some_keys _ _ _ Hmeta) as (k0 & ks & Hkeys).
  assert (Hbranch : forall curr h1,
    alg_first_branch sect_xarrays curr metadata area_def product_name
      (get_product_type product_name src)
      (get_required_variables product_name src) None
      (Some "xarray_to_numpy")
      (Some (get_alg_name product_name src, get_alg_args product_name src))
      (get_interp_name product_name src)
      match get_interp_name product_name src with
      | Some _ => Some (get_interp_args product_name src)
      | None => None
      end h1
    = Raise (TypeError "'NoneType' object is not iterable")).
  { intros curr h1. unfold alg_first_branch, alg_first_apply.
    unfold mbind, St_bind, alloc. simpl. rewrite Hkeys. reflexivity. }
  unfold get_alg_xarray.
  rewrite (bind_ok _ _ _ _ _ (bundle_ref_ok _ _ _ h Hmeta)).
  rewrite (bind_ok _ _ _ _ _ (load_ok _ _ h Hload)).
  erewrite bind_ok by (apply lift_ok; unfold get_attr; by rewrite Hsrc).
  rewrite Halg, Htype, Hfam.
  unfold resectored, required_variables. destruct resector.
  - destruct (sector_xarrays sect_xarrays area_def
                (get_required_variables product_name src) 6 9 true h)
      as [[curr h1]|e] eqn:Hsect.
    + rewrite (bind_ok _ _ _ _ _ Hsect), Hbranch.
      split; [reflexivity|]. intros _. reflexivity.
    + rewrite (bind_raise _ _ _ _ Hsect).
      split; [reflexivity|]. intros [Hr|Hr]; discriminate.
  - rewrite (bind_ok _ _ _ _ _ (ret_ok _ h)), Hbranch.
    split; [reflexivity|]. intros _. reflexivity.
Qed.

(** The algorithm-first branch on an [alg_interp_cmap] product, when it
    returns: the algorithm was applied, the interpolator was then called on
    the algorithm's dataset, and the returned reference is the
    interpolator's result when the area carries no [adjustment_id], but the
    algorithm's dataset, stamped, when it does. *)
Lemma alg_first_branch_alg_interp_cmap
    sect_xarrays curr metadata area_def product_name variables variable_names
    fam alg interp interp_args (h1 : store) r h' :
  alg_first_branch sect_xarrays curr metadata area_def product_name
    "alg_interp_cmap" variables variable_names fam alg interp interp_args h1
    = Ok (r, h') ->
  exists alg_xarray h2 interp_name args interp_result h3,
    alg_first_apply sect_xarrays curr area_def product_name variables
      variable_names fam alg (length h1)
      (h1 ++ [with_attrs_of metadata empty_dataset]) = Ok (alg_xarray, h2)
    /\ interp = Some interp_name
    /\ interp_args = Some args
    /\ interp_plugin interp_name area_def alg_xarray alg_xarray args
         [product_name] h2 = Ok (interp_result, h3)
    /\ match sector_info area_def !! "adjustment_id" with
       | Some adjustment_id =>
           r = alg_xarray /\
           add_filename_extra_field alg_xarray "adjustment_id" adjustment_id h3
             = Ok (alg_xarray, h')
       | None => r = interp_result /\ h' = h3
       end.
Proof.
  intros Hrun. unfold alg_first_branch in Hrun.
  minv Hrun l0 h0 Halloc. unfold alloc in Halloc. injection Halloc as <- <-.
  minv Hrun alg_xarray h2 Happly.
  minv Hrun final h3 Hfinal. simpl in Hfinal.
  minv Hfinal args h2' Hargs. destruct interp_args as [args'|]; [|discriminate].
  injection Hargs as <- <-.
  destruct interp as [interp_name|]; [|discriminate].
  minv Hfinal interp_result h3' Hinterp.
  injection Hfinal as <- <-.
  exists alg_xarray, h2, interp_name, args', interp_result, h3'.
  repeat (split; [done|]).
  destruct (sector_info area_def !! "adjustment_id") as [adjustment_id|].
  - minv Hrun final' h4 Hstamp. minv Hstamp r' h4' Hadd.
    injection Hstamp as <- <-. injection Hrun as <- <-.
    by apply add_filename_extra_field_inv in Hadd as [-> (d & _ & Hadd)].
  - minv Hrun final' h4 Hkeep. injection Hkeep as <- <-.
    by injection Hrun as <- <-.
Qed.

Lemma alg_first_branch_alg_interp_cmap_run
    sect_xarrays curr metadata area_def product_name variables variable_names
    fam alg interp_name args (h1 : store) alg_xarray h2 interp_result h3 :
  alg_first_apply sect_xarrays curr area_def product_name variables
    variable_names fam alg (length h1)
    (h1 ++ [with_attrs_of metadata empty_dataset]) = Ok (alg_xarray, h2) ->
  interp_plugin interp_name area_def alg_xarray alg_xarray args
    [product_name] h2 = Ok (interp_result, h3) ->
  alg_first_branch sect_xarrays curr metadata area_def product_name
    "alg_interp_cmap" variables variable_names fam alg (Some interp_name)
    (Some args) h1
  = match sector_info area_def !! "adjustment_id" with
    | Some adjustment_id =>
        add_filename_extra_field alg_xarray "adjustment_id" adjustment_id h3
    | None => Ok (interp_result, h3)
    end.
Proof.
  intros Happly Hinterp. unfold alg_first_branch.
  erewrite bind_ok by reflexivity.
  rewrite (bind_ok _ _ _ _ _ Happly). simpl.
  erewrite bind_ok; cycle 1.
  { erewrite bind_ok by reflexivity.
    rewrite (bind_ok _ _ _ _ _ Hinterp). reflexivity. }
  destruct (sector_info area_def !! "adjustment_id") as [adjustment_id|].
  - apply add_filename_extra_field_returns.
  - erewrite bind_ok by reflexivity. reflexivity.
Qed.

Lemma get_alg_xarray_alg_interp_cmap_run
    sect_xarrays area_def product_name resector resampled_read variable_names
    (h : store) metadata_ref metadata src curr h1 alg_xarray h2 interp_name
    interp_result h3 :
  od_get sect_xarrays "METADATA" = Some metadata_ref ->
  h !! metadata_ref = Some metadata ->
  source_name metadata = Some src ->
  get_product_type product_name src = "alg_interp_cmap" ->
  resectored resector sect_xarrays area_def
    (required_variables variable_names product_name src) h = Ok (curr, h1) ->
  alg_first_apply sect_xarrays curr area_def product_name
    (required_variables variable_names product_name src) variable_names
    (Some (alg_family (get_alg_name product_name src)))
    (Some (get_alg_name product_name src, get_alg_args product_name src))
    (length h1) (h1 ++ [with_attrs_of metadata empty_dataset])
    = Ok (alg_xarray, h2) ->
  get_interp_name product_name src = Some interp_name ->
  interp_plugin interp_name area_def alg_xarray alg_xarray
    (get_interp_args product_name src) [product_name] h2
    = Ok (interp_result, h3) ->
  get_alg_xarray sect_xarrays area_def product_name resector resampled_read
    variable_names h
  = match sector_info area_def !! "adjustment_id" with
    | Some adjustment_id =>
        add_filename_extra_field alg_xarray "adjustment_id" adjustment_id h3
    | None => Ok (interp_result, h3)
    end.
Proof.
  intros Hmeta Hload Hsrc Htype Hsect Happly Hname Hinterp.
  unfold get_alg_xarray.
  rewrite (bind_ok _ _ _ _ _ (bundle_ref_ok _ _ _ h Hmeta)).
  rewrite (bind_ok _ _ _ _ _ (load_ok _ _ h Hload)).
  erewrite bind_ok by (apply lift_ok; unfold get_attr; by rewrite Hsrc).
  rewrite Htype, Hname. simpl.
  rewrite (bind_ok _ _ _ _ _ Hsect).
  eapply alg_first_branch_alg_interp_cmap_run; eassumption.
Qed.


(** On an [alg_interp_cmap] product and an area definition without
    [adjustment_id], [get_alg_xarray] applies the algorithm, interpolates
    the algorithm's dataset and returns the interpolator's result. *)
Theorem get_alg_xarray_alg_interp_cmap_interpolated
    sect_xarrays area_def product_name resector resampled_read variable_names
    (h : store) metadata_ref metadata src curr h1 alg_xarray h2 interp_name
    interp_result h3 :
  od_get sect_xarrays "METADATA" = Some metadata_ref ->
  h !! metadata_ref = Some metadata ->
  source_name metadata = Some src ->
  get_product_type product_name src = "alg_interp_cmap" ->
  resectored resector sect_xarrays area_def
    (required_variables variable_names product_name src) h = Ok (curr, h1) ->
  alg_first_apply sect_xarrays curr area_def product_name
    (required_variables variable_names product_name src) variable_names
    (Some (alg_family (get_alg_name product_name src)))
    (Some (get_alg_name product_name src, get_alg_args product_name src))
    (length h1) (h1 ++ [with_attrs_of metadata empty_dataset])
    = Ok (alg_xarray, h2) ->
  get_interp_name product_name src = Some interp_name ->
  interp_plugin interp_name area_def alg_xarray alg_xarray
    (get_interp_args product_name src) [product_name] h2
    = Ok (interp_result, h3) ->
  sector_info area_def !! "adjustment_id" = None ->
  get_alg_xarray sect_xarrays area_def product_name resector resampled_read
    variable_names h
  = Ok (interp_result, h3).
Proof.
  intros Hmeta Hload Hsrc Htype Hsect Happly Hname Hinterp Hadj.
  rewrite (get_alg_xarray_alg_interp_cmap_run _ _ _ _ _ _ _ _ _ _ _ _ _ _ _ _ _
             Hmeta Hload Hsrc Htype Hsect Happly Hname Hinterp).
  by rewrite Hadj.
Qed.

(** *** The algorithm-first families without interpolation *)

Lemma get_alg_xarray_alg_first_run
    sect_xarrays area_def product_name resector resampled_read variable_names
    (h : store) metadata_ref metadata src curr h1 :
  od_get sect_xarrays "METADATA" = Some metadata_ref ->
  h !! metadata_ref = Some metadata ->
  source_name metadata = Some src ->
  str_in (get_product_type product_name src) ALG_FIRST_PRODUCT_TYPES = true ->
  resectored resector sect_xarrays area_def
    (required_variables variable_names product_name src) h = Ok (curr, h1) ->
  get_alg_xarray sect_xarrays area_def product_name resector resampled_read
    variable_names h
  = alg_first_branch sect_xarrays curr metadata area_def product_name
      (get_product_type product_name src)
      (required_variables variable_names product_name src) variable_names
      (Some (alg_family (get_alg_name product_name src)))
      (Some (get_alg_name product_name src, get_alg_args product_name src))
      (get_interp_name product_name src)
      match get_interp_name product_name src with
      | Some _ => Some (get_interp_args product_name src)
      | None => None
      end h1.
Proof.
  intros Hmeta Hload Hsrc Htype Hsect.
  unfold get_alg_xarray.
  rewrite (bind_ok _ _ _ _ _ (bundle_ref_ok _ _ _ h Hmeta)).
  rewrite (bind_ok _ _ _ _ _ (load_ok _ _ h Hload)).
  erewrite bind_ok by (apply lift_ok; unfold get_attr; by rewrite Hsrc).
  rewrite (alg_first_types_are_alg_types _ Htype), Htype.
  by rewrite (bind_ok _ _ _ _ _ Hsect).
Qed.

(** On an [alg_cmap] product [get_alg_xarray] applies the algorithm and
    returns the algorithm's dataset as it is, stamped with [adjustment_id]
    when the area carries one: no interpolator is called, whether or not the
    product names one. *)
Theorem get_alg_xarray_alg_cmap_returns_alg_xarray
    sect_xarrays area_def product_name resector resampled_read variable_names
    (h : store) metadata_ref metadata src curr h1 alg_xarray h2 :
  od_get sect_xarrays "METADATA" = Some metadata_ref ->
  h !! metadata_ref = Some metadata ->
  source_name metadata = Some src ->
  get_product_type product_name src = "alg_cmap" ->
  resectored resector sect_xarrays area_def
    (required_variables variable_names product_name src) h = Ok (curr, h1) ->
  alg_first_apply sect_xarrays curr area_def product_name
    (required_variables variable_names product_name src) variable_names
    (Some (alg_family (get_alg_name product_name src)))
    (Some (get_alg_name product_name src, get_alg_args product_name src))
    (length h1) (h1 ++ [with_attrs_of metadata empty_dataset])
    = Ok (alg_xarray, h2) ->
  get_alg_xarray sect_xarrays area_def product_name resector resampled_read
    variable_names h
  = match sector_info area_def !! "adjustment_id" with
    | Some adjustment_id =>
        add_filename_extra_field alg_xarray "adjustment_id" adjustment_id h2
    | None => Ok (alg_xarray, h2)
    end.
Proof.
  intros Hmeta Hload Hsrc Htype Hsect Happly.
  erewrite get_alg_xarray_alg_first_run; try eassumption;
    [|by rewrite Htype].
  rewrite Htype. unfold alg_first_branch.
  erewrite bind_ok by reflexivity.
  rewrite (bind_ok _ _ _ _ _ Happly). cbn [String.eqb Ascii.eqb Bool.eqb].
  erewrite bind_ok by reflexivity.
  destruct (sector_info area_def !! "adjustment_id") as [adjustment_id|].
  - apply add_filename_extra_field_returns.
  - erewrite bind_ok by reflexivity. reflexivity.
Qed.

(** On a product of type [alg] the algorithm is applied, but
    [final_xarray] is assigned for [alg_cmap] and [alg_interp_cmap] only:
    unless the area carries an [adjustment_id] (whose stamping assigns it),
    the call fails at [return final_xarray] once the algorithm has run. *)
Theorem get_alg_xarray_alg_unbound_final_xarray
    sect_xarrays area_def product_name resector resampled_read variable_names
    (h : store) metadata_ref metadata src curr h1 alg_xarray h2 :
  od_get sect_xarrays "METADATA" = Some metadata_ref ->
  h !! metadata_ref = Some metadata ->
  source_name metadata = Some src ->
  get_product_type product_name src = "alg" ->
  resectored resector sect_xarrays area_def
    (required_variables variable_names product_name src) h = Ok (curr, h1) ->
  alg_first_apply sect_xarrays curr area_def product_name
    (required_variables variable_names product_name src) variable_names
    (Some (alg_family (get_alg_name product_name src)))
    (Some (get_alg_name product_name src, get_alg_args product_name src))
    (length h1) (h1 ++ [with_attrs_of metadata empty_dataset])
    = Ok (alg_xarray, h2) ->
  get_alg_xarray sect_xarrays area_def product_name resector resampled_read
    variable_names h
  = match sector_info area_def !! "adjustment_id" with
    | Some adjustment_id =>
        add_filename_extra_field alg_xarray "adjustment_id" adjustment_id h2
    | None => Raise (UnboundLocalError "final_xarray")
    end.
Proof.
  intros Hmeta Hload Hsrc Htype Hsect Happly.
  erewrite get_alg_xarray_alg_first_run; try eassumption;
    [|by rewrite Htype].
  rewrite Htype. unfold alg_first_branch.
  erewrite bind_ok by reflexivity.
  rewrite (bind_ok _ _ _ _ _ Happly). cbn [String.eqb Ascii.eqb Bool.eqb].
  erewrite bind_ok by reflexivity.
  destruct (sector_info area_def !! "adjustment_id") as [adjustment_id|].
  - apply add_filename_extra_field_returns.
  - erewrite bind_ok by reflexivity. reflexivity.
Qed.

(** *** The interpolation-first families *)

Lemma get_alg_xarray_interp_first_run
    sect_xarrays area_def product_name resector resampled_read variable_names
    (h : store) metadata_ref metadata src curr h1 :
  od_get sect_xarrays "METADATA" = Some metadata_ref ->
  h !! metadata_ref = Some metadata ->
  source_name metadata = Some src ->
  str_in (get_product_type product_name src) ALG_FIRST_PRODUCT_TYPES = false ->
  resectored resector sect_xarrays area_def
    (required_variables variable_names product_name src) h = Ok (curr, h1) ->
  get_alg_xarray sect_xarrays area_def product_name resector resampled_read
    variable_names h
  = interp_first_branch curr area_def product_name
      (get_product_type product_name src)
      (required_variables variable_names product_name src)
      (get_requested_datasets_for_variables product_name src) resampled_read
      (if str_in (get_product_type product_name src) ALG_PRODUCT_TYPES
       then Some (alg_family (get_alg_name product_name src)) else None)
      (if str_in (get_product_type product_name src) ALG_PRODUCT_TYPES
       then Some (get_alg_name product_name src, get_alg_args product_name src)
       else None)
      (get_interp_name product_name src)
      match get_interp_name product_name src with
      | Some _ => Some (get_interp_args product_name src)
      | None => None
      end h1.
Proof.
  intros Hmeta Hload Hsrc Htype Hsect.
  unfold get_alg_xarray.
  rewrite (bind_ok _ _ _ _ _ (bundle_ref_ok _ _ _ h Hmeta)).
  rewrite (bind_ok _ _ _ _ _ (load_ok _ _ h Hload)).
  erewrite bind_ok by (apply lift_ok; unfold get_attr; by rewrite Hsrc).
  rewrite Htype. rewrite (bind_ok _ _ _ _ _ Hsect).
  by destruct (str_in (get_product_type product_name src) ALG_PRODUCT_TYPES).
Qed.

Lemma interp_first_outer_empty_bundle todo area_def product_name variables
    datasets_for_vars resampled_read st (h : store) :
  interp_first_outer todo [] area_def product_name variables datasets_for_vars
    resampled_read st h = Ok (st, h).
Proof.
  induction todo as [|varname rest IH]; [done|].
  cbn [interp_first_outer interp_first_inner].
  by erewrite bind_ok by reflexivity.
Qed.

(** When there is nothing to interpolate on an interpolation-first product
    (no required variable, or no dataset left after sectoring), the loop
    variable [sect_xarray] is never assigned, and the call fails at the
    [copy_standard_metadata(sect_xarray, ...)] that follows the loops. *)
Theorem get_alg_xarray_nothing_to_interpolate
    sect_xarrays area_def product_name resector resampled_read variable_names
    (h : store) metadata_ref metadata src curr h1 :
  od_get sect_xarrays "METADATA" = Some metadata_ref ->
  h !! metadata_ref = Some metadata ->
  source_name metadata = Some src ->
  str_in (get_product_type product_name src) ALG_FIRST_PRODUCT_TYPES = false ->
  resectored resector sect_xarrays area_def
    (required_variables variable_names product_name src) h = Ok (curr, h1) ->
  required_variables variable_names product_name src = [] \/ curr = [] ->
  get_alg_xarray sect_xarrays area_def product_name resector resampled_read
    variable_names h
  = Raise (UnboundLocalError "sect_xarray").
Proof.
  intros Hmeta Hload Hsrc Htype Hsect Hempty.
  erewrite get_alg_xarray_interp_first_run by eassumption.
  unfold interp_first_branch.
  erewrite bind_ok by reflexivity.
  erewrite bind_ok; cycle 1.
  { destruct Hempty as [-> | ->].
    - reflexivity.
    - apply interp_first_outer_empty_bundle. }
  reflexivity.
Qed.

(** A product whose type is neither one of the five algorithm types nor
    [interp] is never built: whatever the interpolation loops did, the call
    ends in an error (the unsupported-family [TypeError] when nothing failed
    earlier). *)
Theorem get_alg_xarray_unsupported_product_type
    sect_xarrays area_def product_name resector resampled_read variable_names
    (h : store) metadata_ref metadata src :
  od_get sect_xarrays "METADATA" = Some metadata_ref ->
  h !! metadata_ref = Some metadata ->
  source_name metadata = Some src ->
  str_in (get_product_type product_name src) ("interp" :: ALG_PRODUCT_TYPES)
    = false ->
  is_ok (get_alg_xarray sect_xarrays area_def product_name resector
           resampled_read variable_names h) = false.
Proof.
  intros Hmeta Hload Hsrc Htype.
  apply bool_decide_eq_false_1 in Htype.
  assert (Halg : str_in (get_product_type product_name src) ALG_PRODUCT_TYPES
                 = false).
  { apply bool_decide_eq_false_2. intros Hin. apply Htype. by right. }
  assert (Hfirst : str_in (get_product_type product_name src)
                     ALG_FIRST_PRODUCT_TYPES = false).
  { destruct (str_in _ ALG_FIRST_PRODUCT_TYPES) eqn:Hf; [|done].
    apply alg_first_types_are_alg_types in Hf. congruence. }
  assert (Hinterp : str_in (get_product_type product_name src) ["interp"]
                    = false).
  { apply bool_decide_eq_false_2. intros Hin. apply Htype.
    apply list_elem_of_singleton in Hin. rewrite Hin. by left. }
  destruct (get_alg_xarray _ _ _ _ _ _ h) as [[r h']|e] eqn:Hrun; [|done].
  exfalso.
  destruct (resectored resector sect_xarrays area_def
              (required_variables variable_names product_name src) h)
    as [[curr h1]|e] eqn:Hsect.
  - erewrite get_alg_xarray_interp_first_run in Hrun by eassumption.
    rewrite Halg in Hrun. unfold interp_first_branch in Hrun.
    minv Hrun l0 h0 Halloc. minv Hrun st h2 Hloops. minv Hrun u h3 Hcopy.
    rewrite Hinterp in Hrun. minv Hrun x h4 Hstep. discriminate Hstep.
  - unfold get_alg_xarray in Hrun.
    rewrite (bind_ok _ _ _ _ _ (bundle_ref_ok _ _ _ h Hmeta)) in Hrun.
    rewrite (bind_ok _ _ _ _ _ (load_ok _ _ h Hload)) in Hrun.
    erewrite bind_ok in Hrun
      by (apply lift_ok; unfold get_attr; by rewrite Hsrc).
    cbv zeta in Hrun. rewrite (bind_raise _ _ _ _ Hsect) in Hrun.
    discriminate.
Qed.

(** Whenever [get_alg_xarray] returns on an interpolation-first product, the
    returned dataset carries the product name in its [product_name]
    attribute. *)
Theorem get_alg_xarray_interp_first_names_product
    sect_xarrays area_def product_name resector resampled_read variable_names
    (h : store) metadata_ref metadata src final_xarray h' :
  od_get sect_xarrays "METADATA" = Some metadata_ref ->
  h !! metadata_ref = Some metadata ->
  source_name metadata = Some src ->
  str_in (get_product_type product_name src) ALG_FIRST_PRODUCT_TYPES = false ->
  get_alg_xarray sect_xarrays area_def product_name resector resampled_read
    variable_names h = Ok (final_xarray, h') ->
  exists d, h' !! final_xarray = Some d
            /\ product_name_attr d = Some product_name.
Proof.
  intros Hmeta Hload Hsrc Htype Hrun.
  destruct (resectored resector sect_xarrays area_def
              (required_variables variable_names product_name src) h)
    as [[curr h1]|e] eqn:Hsect.
  - erewrite get_alg_xarray_interp_first_run in Hrun by eassumption.
    unfold interp_first_branch in Hrun.
    minv Hrun l0 h0 Halloc. minv Hrun st h2 Hloops. minv Hrun u h3 Hcopy.
    minv Hrun x h4 Hstep. minv Hrun u' h5 Hcopy'. minv Hrun u'' h6 Hname.
    apply modify_inv in Hname as (d & Hd & ->).
    pose proof (lookup_lt_Some _ _ _ Hd) as Hlt.
    destruct (sector_info area_def !! "adjustment_id") as [adjustment_id|].
    + apply add_filename_extra_field_inv in Hrun as [-> (d0 & Hd0 & Hrun)].
      rewrite list_lookup_insert_eq in Hd0 by done.
      injection Hd0 as <-.
      destruct (add_filename_extra_field_effect x "adjustment_id"
                  adjustment_id (<[x := set_product_name product_name d]> h5)
                  (set_product_name product_name d))
        as (h6 & d' & fields & Hrun' & _ & Hd' & _ & Hname & _);
        [by apply list_lookup_insert_eq|].
      rewrite Hrun in Hrun'. injection Hrun' as <-.
      by exists d'.
    + injection Hrun as <- <-.
      eexists. split; [by apply list_lookup_insert_eq|reflexivity].
  - unfold get_alg_xarray in Hrun.
    rewrite (bind_ok _ _ _ _ _ (bundle_ref_ok _ _ _ h Hmeta)) in Hrun.
    rewrite (bind_ok _ _ _ _ _ (load_ok _ _ h Hload)) in Hrun.
    erewrite bind_ok in Hrun
      by (apply lift_ok; unfold get_attr; by rewrite Hsrc).
    cbv zeta in Hrun. rewrite (bind_raise _ _ _ _ Hsect) in Hrun.
    discriminate.
Qed.

End GetAlgXarray.

End SingleSource.

(** * geoips/interface_modules/procflows/config_based.py *)

Module ConfigBased.

(** ** Output specifications as shared objects

    [update_output_dict_from_command_line_args] copies its argument with
    [dict.copy()] and then assigns into mappings nested in it, so mappings
    live in a store and a nested mapping is held by reference.  Values are
    [None], booleans, numbers, strings, sequences and references to
    mappings. *)

Inductive val : Type :=
| VNone
| VBool (b : bool)
| VNum (q : Q)
| VStr (s : string)
| VSeq (l : list SingleSource.pyval)
| VRef (l : nat).

Abbreviation dstore := (list (gmap string val)).

Abbreviation DM := (St dstore).

(** A new mapping, [{...}] or [d.copy()]. *)
Definition new_dict (d : gmap string val) : DM nat := fun h =>
  Ok (length h, h ++ [d]).

Definition deref (l : nat) : DM (gmap string val) := fun h =>
  match h !! l with
  | Some d => Ok (d, h)
  | None => Raise (PluginError "dangling reference")
  end.

(** [key in v] *)
Definition py_contains (key : string) (v : val) : DM bool :=
  match v with
  | VRef l => d ← deref l; mret (bool_decide (is_Some (d !! key)))
  | VStr s => mret (SingleSource.str_contains key s)
  | VSeq l =>
      mret (existsb (fun x => match x with
                              | SingleSource.PyStr s => String.eqb s key
                              | _ => false
                              end) l)
  | _ => raise (TypeError "argument is not iterable")
  end.

(** [v[key]] with a string key *)
Definition subscript (v : val) (key : string) : DM val :=
  match v with
  | VRef l =>
      d ← deref l;
      match d !! key with
      | Some x => mret x
      | None => raise (KeyError key)
      end
  | VStr _ => raise (TypeError "string indices must be integers")
  | VSeq _ => raise (TypeError "list indices must be integers or slices")
  | _ => raise (TypeError "object is not subscriptable")
  end.

(** [v[key] = x] with a string key: an update in place of the mapping [v]
    refers to. *)
Definition setitem (v : val) (key : string) (x : val) : DM unit :=
  match v with
  | VRef l => fun h =>
      match h !! l with
      | Some d => Ok (tt, <[l := <[key := x]> d]> h)
      | None => Raise (PluginError "dangling reference")
      end
  | VSeq _ => raise (TypeError "list indices must be integers or slices")
  | _ => raise (TypeError "object does not support item assignment")
  end.

(** The names [for kwarg_name in v] ranges over.  On a mapping, its keys.
    On any other non-empty value the first pass of the loop body already
    fails when it subscripts [v] with the element (a list that holds valid
    integer indices of itself, which no command line produces for these
    fields, is outside the model). *)
Definition iteration_names (v : val) : DM (list string) :=
  match v with
  | VRef l => d ← deref l; mret (map fst (map_to_list d))
  | VStr s =>
      if String.eqb s "" then mret []
      else raise (TypeError "string indices must be integers")
  | VSeq l =>
      match l with
      | [] => mret []
      | _ => raise (TypeError "list indices must be integers or slices")
      end
  | _ => raise (TypeError "object is not iterable")
  end.

(** ** [update_output_dict_from_command_line_args] *)

(** The output field a command-line field stands for, and the value merged
    into it: the two keyword-argument fields go to their plural
    counterparts, wrapped as [{"all": value}]. *)
Definition output_fld_name_of (cmdline_fld_name : string) : string :=
  if String.eqb cmdline_fld_name "filename_format_kwargs"
  then "filename_formats_kwargs"
  else if String.eqb cmdline_fld_name "metadata_filename_format_kwargs"
  then "metadata_filename_formats_kwargs"
  else cmdline_fld_name.

Definition output_fld_val_of (cmdline_fld_name : string) (v : val) : DM val :=
  if String.eqb cmdline_fld_name "filename_format_kwargs" then
    w ← new_dict {["all" := v]}; mret (VRef w)
  else if String.eqb cmdline_fld_name "metadata_filename_format_kwargs" then
    w ← new_dict {["all" := v]}; mret (VRef w)
  else mret v.

(** The loop [for kwarg_name in output_fld_val["all"]]: each pass evaluates
    the right-hand side, then the target, then assigns. *)
Fixpoint merge_all_fields (names : list string) (output_fld_val : val)
    (final_output_dict : nat) (output_fld_name : string) : DM unit :=
  match names with
  | [] => mret tt
  | kwarg_name :: rest =>
      source ← subscript output_fld_val "all";
      x ← subscript source kwarg_name;
      target ← subscript (VRef final_output_dict) output_fld_name;
      target_all ← subscript target "all";
      _ ← setitem target_all kwarg_name x;
      merge_all_fields rest output_fld_val final_output_dict output_fld_name
  end.

(** The body of the loop over the command-line field names. *)
Definition update_field (output_dict final_output_dict command_line_args : nat)
    (cmdline_fld_name : string) : DM unit :=
  cla ← deref command_line_args;
  match cla !! cmdline_fld_name with
  | None => mret tt
  | Some VNone => mret tt
  | Some v =>
      let output_fld_name := output_fld_name_of cmdline_fld_name in
      output_fld_val ← output_fld_val_of cmdline_fld_name v;
      od ← deref output_dict;
      match od !! output_fld_name with
      | None =>
          (* not in the output dict at all: add the whole thing *)
          setitem (VRef final_output_dict) output_fld_name output_fld_val
      | Some spec_val =>
          has_all ← py_contains "all" output_fld_val;
          if (has_all : bool) then
            spec_has_all ← py_contains "all" spec_val;
            if negb spec_has_all then
              (* add the entire "all" field *)
              x ← subscript output_fld_val "all";
              target ← subscript (VRef final_output_dict) output_fld_name;
              setitem target "all" x
            else
              (* add the individual fields within the command line dictionary *)
              source ← subscript output_fld_val "all";
              names ← iteration_names source;
              merge_all_fields names output_fld_val final_output_dict
                output_fld_name
          else
            (* a normal argument, just replace it *)
            setitem (VRef final_output_dict) cmdline_fld_name output_fld_val
      end
  end.

Fixpoint for_each {S A} (l : list A) (body : A -> St S unit) : St S unit :=
  match l with
  | [] => mret tt
  | a :: rest => _ ← body a; for_each rest body
  end.

Definition update_output_dict_from_command_line_args (output_dict : nat)
    (command_line_args : option nat) : DM nat :=
  match command_line_args with
  | None => mret output_dict
  | Some command_line_args =>
      od ← deref output_dict;
      final_output_dict ← new_dict od;
      _ ← for_each ["filename_format_kwargs"; "metadata_filename_format_kwargs"]
            (update_field output_dict final_output_dict command_line_args);
      mret final_output_dict
  end.

(** *** Stepping through store operations *)

Lemma deref_ok l d (h : dstore) : h !! l = Some d -> deref l h = Ok (d, h).
Proof. intros Hl. unfold deref. by rewrite Hl. Qed.

Lemma new_dict_ok d (h : dstore) : new_dict d h = Ok (length h, h ++ [d]).
Proof. reflexivity. Qed.

Lemma subscript_ok l d key x (h : dstore) :
  h !! l = Some d -> d !! key = Some x -> subscript (VRef l) key h = Ok (x, h).
Proof.
  intros Hl Hk. unfold subscript.
  rewrite (bind_ok _ _ _ _ _ (deref_ok _ _ _ Hl)). by rewrite Hk.
Qed.

Lemma setitem_ok l d key x (h : dstore) :
  h !! l = Some d ->
  setitem (VRef l) key x h = Ok (tt, <[l := <[key := x]> d]> h).
Proof. intros Hl. unfold setitem. by rewrite Hl. Qed.

Lemma py_contains_ref l d key (h : dstore) :
  h !! l = Some d ->
  py_contains key (VRef l) h = Ok (bool_decide (is_Some (d !! key)), h).
Proof.
  intros Hl. unfold py_contains.
  by rewrite (bind_ok _ _ _ _ _ (deref_ok _ _ _ Hl)).
Qed.

Lemma lookup_snoc_old {A} (h : list A) x l d :
  h !! l = Some d -> (h ++ [x]) !! l = Some d.
Proof. intros Hl. rewrite lookup_app_l; [done|]. by eapply lookup_lt_Some. Qed.

Lemma lookup_snoc_new {A} (h : list A) x : (h ++ [x]) !! length h = Some x.
Proof. by rewrite list_lookup_middle. Qed.

(** *** The merge of the command-line sub-keys *)

(** One assignment of the merge loop, on the mapping being updated. *)
Definition merged_with (dc : gmap string val) (acc : gmap string val)
    (k : string) : gmap string val :=
  match dc !! k with
  | Some x => <[k := x]> acc
  | None => acc
  end.

Lemma foldl_merged_lookup (dc : gmap string val) names (cur : gmap string val) k :
  foldl (merged_with dc) cur names !! k =
  if decide (k ∈ names)
  then match dc !! k with Some x => Some x | None => cur !! k end
  else cur !! k.
Proof.
  revert cur. induction names as [|n names IH]; intros cur; simpl.
  - destruct (decide (k ∈ [])) as [Hin|_]; [by apply elem_of_nil in Hin|done].
  - rewrite IH. unfold merged_with.
    destruct (decide (k ∈ names)) as [Hin|Hnin].
    + rewrite decide_True by (by right).
      destruct (dc !! k) as [x|] eqn:Hk; [done|].
      destruct (dc !! n) as [y|] eqn:Hn; [|done].
      rewrite lookup_insert_ne; [done|]. congruence.
    + destruct (decide (k = n)) as [->|Hne].
      * rewrite decide_True by (by left).
        destruct (dc !! n) as [y|] eqn:Hn; [|done].
        by rewrite lookup_insert_eq.
      * rewrite decide_False by (rewrite elem_of_cons; tauto).
        destruct (dc !! n) as [y|] eqn:Hn; [|done].
        by rewrite lookup_insert_ne.
Qed.

Lemma foldl_merged_union (dc cur : gmap string val) :
  foldl (merged_with dc) cur (map fst (map_to_list dc)) = dc ∪ cur.
Proof.
  apply map_eq. intros k. rewrite foldl_merged_lookup, lookup_union.
  destruct (dc !! k) as [x|] eqn:Hk.
  - rewrite decide_True.
    + by destruct (cur !! k).
    + apply list_elem_of_fmap. exists (k, x). split; [done|].
      by apply elem_of_map_to_list.
  - rewrite decide_False.
    + by destruct (cur !! k).
    + intros Hin. apply list_elem_of_fmap in Hin as ([k' x] & -> & Hin).
      apply elem_of_map_to_list in Hin. simpl in Hk. congruence.
Qed.

Lemma merge_all_fields_run names w c dc final fd ofn d dd a :
  forall (cur : gmap string val) (h : dstore),
  h !! w = Some {["all" := VRef c]} ->
  h !! c = Some dc ->
  h !! final = Some fd ->
  fd !! ofn = Some (VRef d) ->
  h !! d = Some dd ->
  dd !! "all" = Some (VRef a) ->
  h !! a = Some cur ->
  a <> w -> a <> c -> a <> final -> a <> d ->
  (forall k, k ∈ names -> is_Some (dc !! k)) ->
  merge_all_fields names (VRef w) final ofn h
  = Ok (tt, <[a := foldl (merged_with dc) cur names]> h).
Proof.
  induction names as [|k names IH];
    intros cur h Hw Hc Hfinal Hofn Hd Hall Ha Haw Hac Haf Had Hkeys.
  - cbn [merge_all_fields foldl]. by rewrite list_insert_id.
  - cbn [merge_all_fields foldl]. destruct (Hkeys k) as [x Hx]; [by left|].
    erewrite bind_ok by (eapply subscript_ok; [exact Hw|by rewrite lookup_singleton_eq]).
    erewrite bind_ok by (eapply subscript_ok; [exact Hc|exact Hx]).
    erewrite bind_ok by (eapply subscript_ok; [exact Hfinal|exact Hofn]).
    erewrite bind_ok by (eapply subscript_ok; [exact Hd|exact Hall]).
    erewrite bind_ok by (eapply setitem_ok; exact Ha).
    assert (Hm : merged_with dc cur k = <[k := x]> cur)
      by (unfold merged_with; by rewrite Hx).
    rewrite Hm, (IH (<[k := x]> cur)).
    + by rewrite list_insert_insert_eq.
    + by rewrite list_lookup_insert_ne.
    + by rewrite list_lookup_insert_ne.
    + by rewrite list_lookup_insert_ne.
    + done.
    + by rewrite list_lookup_insert_ne.
    + done.
    + rewrite list_lookup_insert_eq; [done|]. by eapply lookup_lt_Some.
    + done.
    + done.
    + done.
    + done.
    + intros k' Hk'. apply Hkeys. by right.
Qed.

(** *** The precedence of the merge *)

(** The two command-line fields the function handles. *)
Definition kwargs_field (cmdline_fld_name : string) : Prop :=
  cmdline_fld_name = "filename_format_kwargs" \/
  cmdline_fld_name = "metadata_filename_format_kwargs".

Lemma update_field_given output_dict final cla name (h : dstore) cl v :
  kwargs_field name ->
  h !! cla = Some cl -> cl !! name = Some v -> v <> VNone ->
  update_field output_dict final cla name h =
  (od ← deref output_dict;
   match od !! output_fld_name_of name with
   | None =>
       setitem (VRef final) (output_fld_name_of name) (VRef (length h))
   | Some spec_val =>
       has_all ← py_contains "all" (VRef (length h));
       if (has_all : bool) then
         spec_has_all ← py_contains "all" spec_val;
         if negb spec_has_all then
           x ← subscript (VRef (length h)) "all";
           target ← subscript (VRef final) (output_fld_name_of name);
           setitem target "all" x
         else
           source ← subscript (VRef (length h)) "all";
           names ← iteration_names source;
           merge_all_fields names (VRef (length h)) final
             (output_fld_name_of name)
       else setitem (VRef final) name (VRef (length h))
   end) (h ++ [{["all" := v]}]).
Proof.
  intros Hname Hcla Hv Hnone. unfold update_field.
  rewrite (bind_ok _ _ _ _ _ (deref_ok _ _ _ Hcla)), Hv.
  assert (Hval : output_fld_val_of name v h
                 = Ok (VRef (length h), h ++ [{["all" := v]}])).
  { destruct Hname as [-> | ->]; reflexivity. }
  destruct v; try done; by rewrite (bind_ok _ _ _ _ _ Hval).
Qed.

(** The merge into an existing ["all"] mapping: the mapping [a] that the
    output spec's field refers to is updated in place. *)
Lemma update_field_merge
    output_dict final cla name (h : dstore) cl c dc od fd d dd a da :
  kwargs_field name ->
  h !! cla = Some cl -> cl !! name = Some (VRef c) -> h !! c = Some dc ->
  h !! output_dict = Some od -> h !! final = Some fd ->
  od !! output_fld_name_of name = Some (VRef d) ->
  fd !! output_fld_name_of name = Some (VRef d) ->
  h !! d = Some dd -> dd !! "all" = Some (VRef a) -> h !! a = Some da ->
  a <> c -> a <> final -> a <> d ->
  update_field output_dict final cla name h
  = Ok (tt, <[a := dc ∪ da]> (h ++ [{["all" := VRef c]}])).
Proof.
  intros Hname Hcla Hv Hc Hod Hfd Hspec Hcopy Hd Hall Ha Hac Haf Had.
  rewrite (update_field_given _ _ _ _ _ _ _ Hname Hcla Hv) by done.
  erewrite bind_ok by (apply deref_ok; by apply lookup_snoc_old).
  rewrite Hspec.
  erewrite bind_ok by (apply py_contains_ref; apply lookup_snoc_new).
  rewrite lookup_singleton_eq, bool_decide_eq_true_2 by eauto.
  erewrite bind_ok by (apply py_contains_ref; by apply lookup_snoc_old).
  rewrite Hall, bool_decide_eq_true_2 by eauto.
  cbn [negb].
  erewrite bind_ok
    by (eapply subscript_ok; [apply lookup_snoc_new|by rewrite lookup_singleton_eq]).
  assert (Hnames : iteration_names (VRef c) (h ++ [{["all" := VRef c]}])
                   = Ok (map fst (map_to_list dc), h ++ [{["all" := VRef c]}])).
  { unfold iteration_names.
    by erewrite bind_ok by (apply deref_ok; by apply lookup_snoc_old). }
  rewrite (bind_ok _ _ _ _ _ Hnames).
  erewrite (merge_all_fields_run _ (length h) c dc final fd _ d dd a da).
  + by rewrite foldl_merged_union.
  + apply lookup_snoc_new.
  + by apply lookup_snoc_old.
  + by apply lookup_snoc_old.
  + done.
  + by apply lookup_snoc_old.
  + done.
  + by apply lookup_snoc_old.
  + apply lookup_lt_Some in Ha. lia.
  + done.
  + done.
  + done.
  + intros k Hk. apply list_elem_of_fmap in Hk as ([k' x] & -> & Hk).
    apply elem_of_map_to_list in Hk. eauto.
Qed.

(** The three ways the body of the loop merges a keyword-argument field
    that the command line gives. *)



Lemma update_field_not_given output_dict final cla name (h : dstore) cl :
  h !! cla = Some cl ->
  cl !! name = None \/ cl !! name = Some VNone ->
  update_field output_dict final cla name h = Ok (tt, h).
Proof.
  intros Hcla Hv. unfold update_field.
  rewrite (bind_ok _ _ _ _ _ (deref_ok _ _ _ Hcla)).
  by destruct Hv as [-> | ->].
Qed.





(** C9.  The copy made by [update_output_dict_from_command_line_args] is
    shallow.  When the command line gives [filename_format_kwargs] and the
    output spec's [filename_formats_kwargs] already has an ["all"] mapping,
    the function returns a new top-level mapping with the entries of the
    original, and writes the command-line sub-keys into the ["all"] mapping
    [a] that the caller's own [output_dict] refers to.  In the resulting
    store the only objects added are the returned copy and the temporary
    [{"all": ...}] wrapper, and the only object of the caller that changed
    is [a]: it now holds the command-line sub-keys on top of its former
    entries, so the caller's spec is not left unchanged whenever the command
    line brings a sub-key or a value that [a] did not have. *)
Theorem update_output_dict_mutates_shared_all
    output_dict cla (h : dstore) cl c dc od d dd a da :
  h !! cla = Some cl ->
  cl !! "filename_format_kwargs" = Some (VRef c) ->
  h !! c = Some dc ->
  cl !! "metadata_filename_format_kwargs" = None \/
  cl !! "metadata_filename_format_kwargs" = Some VNone ->
  h !! output_dict = Some od ->
  od !! "filename_formats_kwargs" = Some (VRef d) ->
  h !! d = Some dd ->
  dd !! "all" = Some (VRef a) ->
  h !! a = Some da ->
  a <> c -> a <> d -> a <> cla ->
  update_output_dict_from_command_line_args output_dict (Some cla) h
  = Ok (length h, <[a := dc ∪ da]> (h ++ [od; {["all" := VRef c]}]))
  /\ (<[a := dc ∪ da]> (h ++ [od; {["all" := VRef c]}])) !! length h = Some od
  /\ (<[a := dc ∪ da]> (h ++ [od; {["all" := VRef c]}])) !! a = Some (dc ∪ da)
  /\ (forall k x, dc !! k = Some x -> da !! k <> Some x ->
       (<[a := dc ∪ da]> (h ++ [od; {["all" := VRef c]}])) !! a <> h !! a).
Proof.
  intros Hcla Hv Hc Hmeta Hod Hspec Hd Hall Ha Hac Had Hacla.
  pose proof (lookup_lt_Some _ _ _ Ha) as Hlt.
  split; [|split; [|split]].
  - unfold update_output_dict_from_command_line_args.
    rewrite (bind_ok _ _ _ _ _ (deref_ok _ _ _ Hod)).
    rewrite (bind_ok _ _ _ _ _ (new_dict_ok od h)).
    assert (Hloop :
      for_each ["filename_format_kwargs"; "metadata_filename_format_kwargs"]
        (update_field output_dict (length h) cla) (h ++ [od])
      = Ok (tt, <[a := dc ∪ da]> ((h ++ [od]) ++ [{["all" := VRef c]}]))).
    { cbn [for_each].
      erewrite bind_ok; cycle 1.
      { apply (update_field_merge output_dict (length h) cla
                 "filename_format_kwargs" (h ++ [od]) cl c dc od od d dd a da);
          [by left|by apply lookup_snoc_old|done
          |by apply lookup_snoc_old|by apply lookup_snoc_old
          |apply lookup_snoc_new|done|done|by apply lookup_snoc_old|done
          |by apply lookup_snoc_old|done|lia|done]. }
      erewrite bind_ok; cycle 1.
      { apply (update_field_not_given _ _ _ _ _ cl); [|done].
        rewrite list_lookup_insert_ne by done.
        by do 2 apply lookup_snoc_old. }
      reflexivity. }
    rewrite (bind_ok _ _ _ _ _ Hloop).
    cbn. by rewrite <- app_assoc.
  - rewrite list_lookup_insert_ne by lia.
    rewrite lookup_app_r by lia. by rewrite Nat.sub_diag.
  - apply list_lookup_insert_eq. rewrite length_app. lia.
  - intros k x Hk Hne. rewrite list_lookup_insert_eq, Ha
      by (rewrite length_app; lia).
    intros [= Heq]. apply Hne. rewrite <- Heq.
    by apply lookup_union_Some_l.
Qed.

(** ** The output loops of [config_based]

    One pass of the loop over sector types, from
    [pad_alg_xarrays = {}; alg_xarrays = {}] to the end of the loop over the
    required outputs.  What is fixed during that pass (the area definition
    after adjustment, the sectored bundles, the background dataset, the
    flags read from the configuration) is a parameter; what the loops update
    is the state. *)

Import SingleSource.

(** An invocation of [get_alg_xarray], by the three ways the loop calls it:
    on the padded bundle and padded area for [xarray_data] outputs, on the
    padded bundle with [resector=False] for reader-defined and
    self-registered areas, and on the exact bundle and area otherwise. *)
Inductive builder_call : Type :=
| BuildPadded (product_name : string) (variable_names : list string)
| BuildUnsectored (product_name : string) (variable_names : list string)
| BuildExact (product_name : string) (variable_names : list string).

Definition call_product (c : builder_call) : string :=
  match c with
  | BuildPadded p _ => p
  | BuildUnsectored p _ => p
  | BuildExact p _ => p
  end.

(** An accumulator of the final-products ledger. *)
Record ledger_entry : Type := {
  files : list string;
  database_writes : list string;
  compare_outputs_module : string
}.

(** The state the loops update.  Two records are kept besides: every time
    the loop body reaches the choice of how to obtain the product's dataset,
    [builder_requests] notes which of the three ways applies, and
    [builder_calls] notes the invocations of [get_alg_xarray], both in
    order. *)
Record loop_state : Type := {
  dicts : dstore;
  pad_alg_xarrays : list (string * Dataset);
  alg_xarrays : list (string * Dataset);
  final_products : list (string * ledger_entry);
  removed_products : list string;
  saved_products : list string;
  num_jobs : nat;
  builder_calls : list builder_call;
  builder_requests : list builder_call
}.

Definition get_state {S} : St S S := fun st => Ok (st, st).

Definition modify_state {S} (f : S -> S) : St S unit := fun st => Ok (tt, f st).

(** Where the dataset of the current product lives: in one of the two
    caches, or nowhere else than in the local variable. *)
Inductive origin : Type := FromPadCache | FromAlgCache | Uncached.

Section OutputLoops.

Context {Kwargs : Type}.

(** *** What is fixed during the pass *)

Variable area_def : AreaDefinition.
Variable sector_type : string.
Variable source : string.
Variable all_vars : list string.
Variable resampled_read : bool.
Variable command_line_args : option nat.
Variable bg_files : bool.
Variable bg_alg_xarray : option Dataset.
Variable product_db : bool.

(** *** Collaborators; an output spec is read through the store *)

Variable produce_current_time : string -> bool.
Variable get_required_variables : string -> string -> list string.
Variable requested_sector_type : dstore -> nat -> string.
Variable product_names : dstore -> nat -> list string.
Variable set_comparison_path : dstore -> nat -> string -> string -> string * string.
Variable process_sectored_data_output :
  list string -> string -> dstore -> nat -> res (list string).
Variable get_output_format : dstore -> nat -> string.
Variable output_family : string -> string.
Variable get_alg_xarray : builder_call -> res Dataset.
Variable image_production_covg : string -> Dataset -> dstore -> nat -> Q.
Variable fname_covg : string -> Dataset -> dstore -> nat -> Q.
Variable get_minimum_coverage : string -> dstore -> nat -> option Q.
Variable get_output_format_kwargs : dstore -> nat -> Dataset -> Kwargs.
Variable has_background_products : dstore -> nat -> bool.
Variable plot_data :
  dstore -> nat -> Dataset -> string -> Kwargs -> res (list (string * fname_info)).
(** [write_to_database(fprod, product_name, ...)], a function of this
    module, embedded as [ConfigDicts.write_to_database] below. *)
Variable write_to_database : string -> string -> res string.
Variable wants_remove_duplicates : dstore -> nat -> bool.
Variable remove_duplicates :
  list (string * fname_info) -> list string * list string.

(** *** [get_required_outputs] *)

Definition get_required_outputs (outputs : list (string * nat)) (d : dstore)
    : list (string * nat) :=
  filter (fun o => String.eqb (requested_sector_type d (snd o)) sector_type = true)
    outputs.

(** *** [initialize_final_products] and the ledger updates *)

Definition initialize_final_products
    (final_products : list (string * ledger_entry)) (cpath cmodule : string)
    : list (string * ledger_entry) :=
  if od_mem final_products cpath then final_products
  else od_set final_products cpath
         {| files := []; database_writes := []; compare_outputs_module := cmodule |}.

Definition update_entry (cpath : string) (f : ledger_entry -> ledger_entry)
    (final_products : list (string * ledger_entry))
    : list (string * ledger_entry) :=
  match od_get final_products cpath with
  | Some e => od_set final_products cpath (f e)
  | None => final_products
  end.

Definition set_module (cmodule : string) (e : ledger_entry) : ledger_entry :=
  {| files := files e; database_writes := database_writes e;
     compare_outputs_module := cmodule |}.

Definition add_files (new_files : list string) (e : ledger_entry) : ledger_entry :=
  {| files := files e ++ new_files; database_writes := database_writes e;
     compare_outputs_module := compare_outputs_module e |}.

Definition add_database_writes (added : list string) (e : ledger_entry) : ledger_entry :=
  {| files := files e; database_writes := database_writes e ++ added;
     compare_outputs_module := compare_outputs_module e |}.

Definition with_final_products (f : list (string * ledger_entry) ->
                                    list (string * ledger_entry))
    (st : loop_state) : loop_state :=
  {| dicts := dicts st; pad_alg_xarrays := pad_alg_xarrays st;
     alg_xarrays := alg_xarrays st; final_products := f (final_products st);
     removed_products := removed_products st;
     saved_products := saved_products st; num_jobs := num_jobs st;
     builder_calls := builder_calls st;
     builder_requests := builder_requests st |}.

Definition with_dicts (d : dstore) (st : loop_state) : loop_state :=
  {| dicts := d; pad_alg_xarrays := pad_alg_xarrays st;
     alg_xarrays := alg_xarrays st; final_products := final_products st;
     removed_products := removed_products st;
     saved_products := saved_products st; num_jobs := num_jobs st;
     builder_calls := builder_calls st;
     builder_requests := builder_requests st |}.

Definition finish_job (removed saved : list string) (st : loop_state) : loop_state :=
  {| dicts := dicts st; pad_alg_xarrays := pad_alg_xarrays st;
     alg_xarrays := alg_xarrays st; final_products := final_products st;
     removed_products := removed_products st ++ removed;
     saved_products := saved_products st ++ saved; num_jobs := S (num_jobs st);
     builder_calls := builder_calls st;
     builder_requests := builder_requests st |}.

(** *** The memoized construction of the product's dataset *)

(** [get_alg_xarray(...)]: the invocation is recorded. *)
Definition invoke_builder (c : builder_call) : St loop_state Dataset := fun st =>
  match get_alg_xarray c with
  | Ok d =>
      Ok (d, {| dicts := dicts st; pad_alg_xarrays := pad_alg_xarrays st;
                alg_xarrays := alg_xarrays st;
                final_products := final_products st;
                removed_products := removed_products st;
                saved_products := saved_products st; num_jobs := num_jobs st;
                builder_calls := builder_calls st ++ [c];
                builder_requests := builder_requests st |})
  | Raise e => Raise e
  end.

Definition store_pad (product_name : string) (d : Dataset) (st : loop_state)
    : loop_state :=
  {| dicts := dicts st;
     pad_alg_xarrays := od_set (pad_alg_xarrays st) product_name d;
     alg_xarrays := alg_xarrays st; final_products := final_products st;
     removed_products := removed_products st;
     saved_products := saved_products st; num_jobs := num_jobs st;
     builder_calls := builder_calls st;
     builder_requests := builder_requests st |}.

Definition store_alg (product_name : string) (d : Dataset) (st : loop_state)
    : loop_state :=
  {| dicts := dicts st; pad_alg_xarrays := pad_alg_xarrays st;
     alg_xarrays := od_set (alg_xarrays st) product_name d;
     final_products := final_products st;
     removed_products := removed_products st;
     saved_products := saved_products st; num_jobs := num_jobs st;
     builder_calls := builder_calls st;
     builder_requests := builder_requests st |}.

(** The request is noted. *)
Definition record_request (c : builder_call) (st : loop_state) : loop_state :=
  {| dicts := dicts st; pad_alg_xarrays := pad_alg_xarrays st;
     alg_xarrays := alg_xarrays st; final_products := final_products st;
     removed_products := removed_products st;
     saved_products := saved_products st; num_jobs := num_jobs st;
     builder_calls := builder_calls st;
     builder_requests := builder_requests st ++ [c] |}.

(** The three-way choice on the output family and the sector type of the
    area. *)
Definition obtain_alg_xarray (output_dict : nat) (product_name : string)
    (product_variables : list string) : St loop_state (Dataset * origin) :=
  st ← get_state;
  let family := output_family (get_output_format (dicts st) output_dict) in
  if String.eqb family "xarray_data" then
    _ ← modify_state (record_request (BuildPadded product_name product_variables));
    match od_get (pad_alg_xarrays st) product_name with
    | Some d => mret (d, FromPadCache)
    | None =>
        d ← invoke_builder (BuildPadded product_name product_variables);
        _ ← modify_state (store_pad product_name d);
        mret (d, FromPadCache)
    end
  else if str_in (SingleSource.sector_type area_def)
            ["reader_defined"; "self_register"] then
    _ ← modify_state
          (record_request (BuildUnsectored product_name product_variables));
    d ← invoke_builder (BuildUnsectored product_name product_variables);
    mret (d, Uncached)
  else
    _ ← modify_state (record_request (BuildExact product_name product_variables));
    match od_get (alg_xarrays st) product_name with
    | Some d => mret (d, FromAlgCache)
    | None =>
        d ← invoke_builder (BuildExact product_name product_variables);
        _ ← modify_state (store_alg product_name d);
        mret (d, FromAlgCache)
    end.

(** *** The coverage gate *)

(** [minimum_coverage = 10], then the dataset attribute when it has one,
    then the output configuration's value when there is one. *)
Definition minimum_coverage_in_force (config_minimum_coverage : option Q)
    (alg_xarray : Dataset) : Q :=
  let required := 10%Q in
  let required :=
    match minimum_coverage alg_xarray with
    | Some m => m
    | None => required
    end in
  match config_minimum_coverage with
  | Some m => m
  | None => required
  end.

(** [covg < minimum_coverage and fname_covg < minimum_coverage] *)
Definition insufficient_coverage (covg fname_covg_value required : Q) : bool :=
  Qltb covg required && Qltb fname_covg_value required.

(** *** The body of the loop over product names *)

(** The dataset after [combine_filename_extra_fields] is the object the
    cache holds, when it came from a cache. *)
Definition write_back (from : origin) (product_name : string) (d : Dataset)
    : St loop_state unit :=
  match from with
  | FromPadCache => modify_state (store_pad product_name d)
  | FromAlgCache => modify_state (store_alg product_name d)
  | Uncached => mret tt
  end.

(** [if product_db:] the loop over the files written: each call of
    [write_to_database] comes before the next, and what it returns is
    appended to the entry's database writes. *)
Definition record_database_writes (cpath product_name : string)
    (fprods : list string) : St loop_state unit :=
  if product_db then
    for_each fprods (fun fprod =>
      product_added ← lift (write_to_database fprod product_name);
      modify_state
        (with_final_products
           (update_entry cpath (add_database_writes [product_added]))))
  else mret tt.

(** From [plot_data_kwargs = ...] to the end of the loop body: the product
    is rendered and recorded. *)
Definition render_product (output_dict : nat) (product_name cpath : string)
    (alg_xarray : Dataset) (from : origin) : St loop_state unit :=
  st ← get_state;
  let plot_data_kwargs :=
    get_output_format_kwargs (dicts st) output_dict alg_xarray in
  alg_xarray ←
    (if bg_files && has_background_products (dicts st) output_dict then
       match bg_alg_xarray with
       | Some bg =>
           let combined := combine_filename_extra_fields bg alg_xarray in
           _ ← write_back from product_name combined;
           mret combined
       | None => mret alg_xarray
       end
     else mret alg_xarray);
  curr_products ← lift (plot_data (dicts st) output_dict alg_xarray
                          product_name plot_data_kwargs);
  _ ← modify_state
        (with_final_products
           (update_entry cpath (add_files (od_keys curr_products))));
  _ ← record_database_writes cpath product_name (od_keys curr_products);
  let '(removed, saved) :=
    if wants_remove_duplicates (dicts st) output_dict
    then remove_duplicates curr_products
    else ([], []) in
  modify_state (finish_job removed saved).

(** From the coverage values to the end of the loop body. *)
Definition gate_and_render (output_dict : nat) (product_name cpath : string)
    (alg_xarray : Dataset) (from : origin) : St loop_state unit :=
  st ← get_state;
  _ ← lift (get_attr "source_name" (source_name alg_xarray));
  let covg := image_production_covg product_name alg_xarray (dicts st) output_dict in
  let fname_covg_value := fname_covg product_name alg_xarray (dicts st) output_dict in
  let required :=
    minimum_coverage_in_force
      (get_minimum_coverage product_name (dicts st) output_dict) alg_xarray in
  if insufficient_coverage covg fname_covg_value required then
    (* Insufficient coverage, SKIPPING *)
    mret tt
  else render_product output_dict product_name cpath alg_xarray from.

Definition process_product (output_type : string) (output_dict : nat)
    (product_name : string) : St loop_state unit :=
  let product_variables := get_required_variables product_name source in
  (* Make sure we still have all the required variables after sectoring *)
  if negb (issubset product_variables all_vars) then mret tt
  else
    st ← get_state;
    let '(cpath, cmodule) :=
      set_comparison_path (dicts st) output_dict product_name output_type in
    _ ← modify_state
          (with_final_products
             (fun fp => update_entry cpath (set_module cmodule)
                          (initialize_final_products fp cpath cmodule)));
    curr_output_products ←
      lift (process_sectored_data_output product_variables product_name
              (dicts st) output_dict);
    match curr_output_products with
    | _ :: _ =>
        _ ← modify_state
              (with_final_products
                 (update_entry cpath (add_files curr_output_products)));
        record_database_writes cpath product_name curr_output_products
    | [] =>
        '(alg_xarray, from) ← obtain_alg_xarray output_dict product_name
                                product_variables;
        gate_and_render output_dict product_name cpath alg_xarray from
    end.

(** *** The body of the loop over the required outputs *)

Definition process_output (output : string * nat) : St loop_state unit :=
  let '(output_type, output_dict) := output in
  if negb (produce_current_time output_type) then mret tt
  else
    st ← get_state;
    '(output_dict, d) ← lift (update_output_dict_from_command_line_args
                               output_dict command_line_args (dicts st));
    _ ← modify_state (with_dicts d);
    for_each (product_names d output_dict)
      (process_product output_type output_dict).

(** The pass: empty caches, then the required outputs in order. *)
Definition empty_caches (st : loop_state) : loop_state :=
  {| dicts := dicts st; pad_alg_xarrays := []; alg_xarrays := [];
     final_products := final_products st;
     removed_products := removed_products st;
     saved_products := saved_products st; num_jobs := num_jobs st;
     builder_calls := builder_calls st;
     builder_requests := builder_requests st |}.

Definition run_outputs (outputs : list (string * nat)) : St loop_state unit :=
  _ ← modify_state empty_caches;
  st ← get_state;
  for_each (get_required_outputs outputs (dicts st)) process_output.

(** *** Memoization of the builder *)

Definition is_padded (c : builder_call) : bool :=
  match c with BuildPadded _ _ => true | _ => false end.

Definition is_unsectored (c : builder_call) : bool :=
  match c with BuildUnsectored _ _ => true | _ => false end.

Definition is_exact (c : builder_call) : bool :=
  match c with BuildExact _ _ => true | _ => false end.

(** The product names of the recorded invocations of one kind, in order. *)
Definition products_of (kind : builder_call -> bool) (calls : list builder_call)
    : list string :=
  map call_product (filter (fun c => kind c = true) calls).


Definition special_area : bool :=
  str_in (SingleSource.sector_type area_def) ["reader_defined"; "self_register"].

(** Each cache holds exactly the products built for it, once each, and
    these are the products requested for it; the uncached kind of
    invocation is made on every request of its kind, which occurs on the two
    special sector types only, where no request is served from
    [alg_xarrays]. *)
Definition memo_inv (st : loop_state) : Prop :=
  od_keys (pad_alg_xarrays st) = products_of is_padded (builder_calls st)
  /\ NoDup (od_keys (pad_alg_xarrays st))
  /\ od_keys (alg_xarrays st) = products_of is_exact (builder_calls st)
  /\ NoDup (od_keys (alg_xarrays st))
  /\ (special_area = false -> products_of is_unsectored (builder_calls st) = [])
  /\ (forall p, p ∈ products_of is_padded (builder_requests st)
                <-> p ∈ od_keys (pad_alg_xarrays st))
  /\ (forall p, p ∈ products_of is_exact (builder_requests st)
                <-> p ∈ od_keys (alg_xarrays st))
  /\ products_of is_unsectored (builder_requests st)
     = products_of is_unsectored (builder_calls st)
  /\ (special_area = true -> products_of is_exact (builder_requests st) = []).

Definition cached (from : origin) (product_name : string) (st : loop_state) : Prop :=
  match from with
  | FromPadCache => od_mem (pad_alg_xarrays st) product_name = true
  | FromAlgCache => od_mem (alg_xarrays st) product_name = true
  | Uncached => True
  end.

Definition same_memo (st st' : loop_state) : Prop :=
  od_keys (pad_alg_xarrays st') = od_keys (pad_alg_xarrays st)
  /\ od_keys (alg_xarrays st') = od_keys (alg_xarrays st)
  /\ builder_calls st' = builder_calls st
  /\ builder_requests st' = builder_requests st.

Lemma same_memo_refl st : same_memo st st.
Proof. by repeat split. Qed.

Lemma same_memo_trans st1 st2 st3 :
  same_memo st1 st2 -> same_memo st2 st3 -> same_memo st1 st3.
Proof. intros (?&?&?&?) (?&?&?&?). repeat split; congruence. Qed.

Lemma same_memo_inv st st' : memo_inv st -> same_memo st st' -> memo_inv st'.
Proof.
  intros (H1&H2&H3&H4&H5&H6&H7&H8&H9) (E1&E2&E3&E4). unfold memo_inv.
  by rewrite E1, E2, E3, E4.
Qed.

Lemma products_of_snoc kind calls c :
  products_of kind (calls ++ [c]) =
  products_of kind calls ++ (if kind c then [call_product c] else []).
Proof.
  unfold products_of. rewrite filter_app, map_app. f_equal.
  rewrite filter_cons, filter_nil.
  destruct (kind c); [by rewrite decide_True|by rewrite decide_False].
Qed.

Lemma od_mem_false_get {V} (d : list (string * V)) k :
  od_mem d k = false -> od_get d k = None.
Proof. unfold od_mem. by destruct (od_get d k). Qed.

Lemma NoDup_snoc_new (l : list string) x : NoDup l -> x ∉ l -> NoDup (l ++ [x]).
Proof.
  intros Hl Hx. apply NoDup_app. split; [done|]. split; [|apply NoDup_singleton].
  intros y Hy Hy'. apply list_elem_of_singleton in Hy'. by subst.
Qed.

Lemma od_get_some_key {V} (d : list (string * V)) k v :
  od_get d k = Some v -> k ∈ od_keys d.
Proof.
  induction d as [|[k' v'] d IH]; cbn [od_get od_keys map fst]; [discriminate|].
  destruct (decide (k = k')) as [->|Hne]; [intros _; by left|].
  intros Hget. right. by apply IH.
Qed.

(** A request that finds its product in the cache. *)
Lemma requested_again (requested keys : list string) p :
  (forall q, q ∈ requested <-> q ∈ keys) -> p ∈ keys ->
  forall q, q ∈ requested ++ [p] <-> q ∈ keys.
Proof.
  intros Hsame Hp q. rewrite elem_of_app, list_elem_of_singleton, Hsame.
  split; [intros [?| ->]; done|by left].
Qed.

(** A request that has its product built and cached. *)
Lemma requested_first (requested keys : list string) p :
  (forall q, q ∈ requested <-> q ∈ keys) ->
  forall q, q ∈ requested ++ [p] <-> q ∈ keys ++ [p].
Proof. intros Hsame q. by rewrite !elem_of_app, Hsame. Qed.

Lemma obtain_alg_xarray_memo output_dict product_name product_variables
    st d from st' :
  memo_inv st ->
  obtain_alg_xarray output_dict product_name product_variables st
    = Ok ((d, from), st') ->
  memo_inv st' /\ cached from product_name st'.
Proof.
  intros Hinv Hrun. unfold obtain_alg_xarray in Hrun.
  minv Hrun st0 h0 Hget. injection Hget as <- <-.
  destruct Hinv as (Hpad & Hpadnd & Halg & Halgnd & Huns & Hrpad & Hralg
                    & Hruns & Hspec).
  destruct (String.eqb (output_family (get_output_format (dicts st) output_dict))
              "xarray_data").
  - minv Hrun u0 st0 Hreq. injection Hreq as <- <-.
    destruct (od_get (pad_alg_xarrays st) product_name) as [d0|] eqn:Hhit.
    + injection Hrun as <- <- <-. split;
        [|unfold cached, od_mem; cbn [record_request pad_alg_xarrays alg_xarrays];
          by rewrite Hhit].
      unfold memo_inv;
        cbn [record_request pad_alg_xarrays alg_xarrays builder_calls
             builder_requests].
      rewrite !products_of_snoc. cbn [is_padded is_exact is_unsectored call_product].
      rewrite !app_nil_r. repeat split; try done; try apply Hralg.
      * intros Hq. eapply requested_again; [exact Hrpad| |exact Hq].
        by eapply od_get_some_key.
      * intros Hq. eapply requested_again; [exact Hrpad| |exact Hq].
        by eapply od_get_some_key.
    + minv Hrun d1 st1 Hcall. unfold invoke_builder in Hcall.
      destruct (get_alg_xarray (BuildPadded product_name product_variables))
        as [d2|e]; [|discriminate].
      injection Hcall as <- <-.
      minv Hrun u st2 Hmod. injection Hmod as <- <-.
      injection Hrun as <- <- <-.
      split; [|apply od_mem_set].
      unfold memo_inv;
        cbn [record_request store_pad pad_alg_xarrays alg_xarrays builder_calls
             builder_requests].
      rewrite !products_of_snoc. cbn [is_padded is_exact is_unsectored call_product].
      rewrite !app_nil_r, od_keys_set_new by done.
      repeat split; try done; try apply Hralg; try apply (requested_first _ _ _ Hrpad).
      * by rewrite Hpad.
      * apply NoDup_snoc_new; [done|]. by apply od_get_none_keys.
  - fold special_area in Hrun.
    remember special_area as special eqn:Hspecial in Hrun.
    symmetry in Hspecial. destruct special.
    + minv Hrun u0 st0 Hreq. injection Hreq as <- <-.
      minv Hrun d1 st1 Hcall. unfold invoke_builder in Hcall.
      destruct (get_alg_xarray (BuildUnsectored product_name product_variables))
        as [d2|e]; [|discriminate].
      injection Hcall as <- <-. injection Hrun as <- <- <-.
      split; [|done].
      unfold memo_inv;
        cbn [record_request pad_alg_xarrays alg_xarrays builder_calls
             builder_requests].
      rewrite !products_of_snoc. cbn [is_padded is_exact is_unsectored call_product].
      rewrite !app_nil_r. repeat split; try done;
        try apply Hrpad; try apply Hralg.
      * intros Hfalse. congruence.
      * by rewrite Hruns.
    + minv Hrun u0 st0 Hreq. injection Hreq as <- <-.
      destruct (od_get (alg_xarrays st) product_name) as [d0|] eqn:Hhit.
      * injection Hrun as <- <- <-. split;
        [|unfold cached, od_mem; cbn [record_request pad_alg_xarrays alg_xarrays];
          by rewrite Hhit].
        unfold memo_inv;
          cbn [record_request pad_alg_xarrays alg_xarrays builder_calls
               builder_requests].
        rewrite !products_of_snoc.
        cbn [is_padded is_exact is_unsectored call_product].
        rewrite !app_nil_r. repeat split; try done; try apply Hrpad.
        -- intros Hq. eapply requested_again; [exact Hralg| |exact Hq].
           by eapply od_get_some_key.
        -- intros Hq. eapply requested_again; [exact Hralg| |exact Hq].
           by eapply od_get_some_key.
        -- intros Htrue. congruence.
      * minv Hrun d1 st1 Hcall. unfold invoke_builder in Hcall.
        destruct (get_alg_xarray (BuildExact product_name product_variables))
          as [d2|e]; [|discriminate].
        injection Hcall as <- <-.
        minv Hrun u st2 Hmod. injection Hmod as <- <-.
        injection Hrun as <- <- <-.
        split; [|apply od_mem_set].
        unfold memo_inv;
          cbn [record_request store_alg pad_alg_xarrays alg_xarrays builder_calls
               builder_requests].
        rewrite !products_of_snoc.
        cbn [is_padded is_exact is_unsectored call_product].
        rewrite !app_nil_r, od_keys_set_new by done.
        repeat split; try done; try apply Hrpad;
          try apply (requested_first _ _ _ Hralg).
        -- by rewrite Halg.
        -- apply NoDup_snoc_new; [done|]. by apply od_get_none_keys.
        -- intros Htrue. congruence.
Qed.

Lemma for_each_inv {A} (I : loop_state -> Prop) (l : list A)
    (body : A -> St loop_state unit) :
  (forall a st u st', I st -> body a st = Ok (u, st') -> I st') ->
  forall st u st', I st -> for_each l body st = Ok (u, st') -> I st'.
Proof.
  intros Hbody. induction l as [|a l IH]; intros st u st' Hst Hrun.
  - by injection Hrun as <- <-.
  - cbn [for_each] in Hrun. minv Hrun u0 st0 Hstep.
    eapply IH; [|exact Hrun]. by eapply Hbody.
Qed.

Lemma write_back_memo from product_name d st u st' :
  cached from product_name st ->
  write_back from product_name d st = Ok (u, st') ->
  same_memo st st'.
Proof.
  intros Hcached Hrun.
  destruct from; unfold write_back, modify_state, cached in *;
    injection Hrun as <- <-; unfold same_memo;
    cbn [store_pad store_alg pad_alg_xarrays alg_xarrays builder_calls
         builder_requests].
  - by rewrite od_keys_set_old.
  - by rewrite od_keys_set_old.
  - done.
Qed.

Lemma record_database_writes_memo cpath product_name fprods st u st' :
  record_database_writes cpath product_name fprods st = Ok (u, st') ->
  same_memo st st'.
Proof.
  unfold record_database_writes. destruct product_db.
  - apply (for_each_inv (same_memo st)); [|apply same_memo_refl].
    intros fprod st1 u1 st1' Hst1 Hstep.
    minv Hstep added st2 Hwrite. apply lift_inv in Hwrite as [_ ->].
    injection Hstep as <- <-.
    eapply same_memo_trans; [exact Hst1|by repeat split].
  - intros [= <- <-]. apply same_memo_refl.
Qed.

(** With [product_db] set, the first file written is handed to
    [write_to_database]; when that call fails, the loop body fails with it
    and nothing is recorded. *)
Lemma record_database_writes_first_call cpath product_name fprod fprods st e :
  product_db = true ->
  write_to_database fprod product_name = Raise e ->
  record_database_writes cpath product_name (fprod :: fprods) st = Raise e.
Proof.
  intros Hdb Hwrite. unfold record_database_writes. rewrite Hdb.
  cbn [for_each]. apply bind_raise. apply bind_raise.
  unfold lift. by rewrite Hwrite.
Qed.

Lemma render_product_memo output_dict product_name cpath alg_xarray from
    st u st' :
  cached from product_name st ->
  render_product output_dict product_name cpath alg_xarray from st
    = Ok (u, st') ->
  same_memo st st'.
Proof.
  intros Hcached Hrun. unfold render_product in Hrun.
  minv Hrun st0 h0 Hget. injection Hget as <- <-.
  minv Hrun alg' st1 Hcomb.
  assert (Hst1 : same_memo st st1).
  { destruct (bg_files && has_background_products (dicts st) output_dict).
    - destruct bg_alg_xarray as [bg|].
      + minv Hcomb u0 st0 Hwb. injection Hcomb as <- <-.
        by eapply write_back_memo.
      + injection Hcomb as <- <-. apply same_memo_refl.
    - injection Hcomb as <- <-. apply same_memo_refl. }
  minv Hrun curr st2 Hplot. apply lift_inv in Hplot as [Hplot ->].
  minv Hrun u1 st3 Hfiles. injection Hfiles as <- <-.
  minv Hrun u2 st4 Hdb. apply record_database_writes_memo in Hdb.
  match type of Hrun with
  | context [let '(_, _) := ?e in _] => destruct e as [removed saved]
  end.
  injection Hrun as <- <-.
  eapply same_memo_trans; [exact Hst1|].
  eapply same_memo_trans; [|eapply same_memo_trans; [exact Hdb|]];
    by repeat split.
Qed.

Lemma gate_and_render_memo output_dict product_name cpath alg_xarray from
    st u st' :
  cached from product_name st ->
  gate_and_render output_dict product_name cpath alg_xarray from st
    = Ok (u, st') ->
  same_memo st st'.
Proof.
  intros Hcached Hrun. unfold gate_and_render in Hrun.
  minv Hrun st0 h0 Hget. injection Hget as <- <-.
  minv Hrun src h1 Hsrc. apply lift_inv in Hsrc as [_ ->].
  match type of Hrun with
  | context [if ?c then _ else _] => destruct c
  end.
  - injection Hrun as <- <-. apply same_memo_refl.
  - by eapply render_product_memo.
Qed.


(** The way the loop body obtains the dataset of a product, by the family
    of the output format and the sector type of the area. *)
Definition request_for (d : dstore) (output_dict : nat) (product_name : string)
    (product_variables : list string) : builder_call :=
  if String.eqb (output_family (get_output_format d output_dict)) "xarray_data"
  then BuildPadded product_name product_variables
  else if special_area then BuildUnsectored product_name product_variables
  else BuildExact product_name product_variables.

Lemma obtain_alg_xarray_requests output_dict product_name product_variables
    st r st' :
  obtain_alg_xarray output_dict product_name product_variables st
    = Ok (r, st') ->
  builder_requests st'
  = builder_requests st
    ++ [request_for (dicts st) output_dict product_name product_variables].
Proof.
  intros Hrun. unfold obtain_alg_xarray in Hrun. unfold request_for.
  minv Hrun st0 h0 Hget. injection Hget as <- <-.
  fold special_area in Hrun.
  destruct (String.eqb (output_family (get_output_format (dicts st) output_dict))
              "xarray_data"); [|destruct special_area];
    minv Hrun u0 st0 Hreq; injection Hreq as <- <-.
  - destruct (od_get (pad_alg_xarrays st) product_name) as [d0|].
    + by injection Hrun as <- <-.
    + minv Hrun d1 st1 Hcall. unfold invoke_builder in Hcall.
      destruct (get_alg_xarray _) as [d2|e]; [|discriminate].
      injection Hcall as <- <-.
      minv Hrun u st2 Hmod. injection Hmod as <- <-.
      by injection Hrun as <- <-.
  - minv Hrun d1 st1 Hcall. unfold invoke_builder in Hcall.
    destruct (get_alg_xarray _) as [d2|e]; [|discriminate].
    injection Hcall as <- <-. by injection Hrun as <- <-.
  - destruct (od_get (alg_xarrays st) product_name) as [d0|].
    + by injection Hrun as <- <-.
    + minv Hrun d1 st1 Hcall. unfold invoke_builder in Hcall.
      destruct (get_alg_xarray _) as [d2|e]; [|discriminate].
      injection Hcall as <- <-.
      minv Hrun u st2 Hmod. injection Hmod as <- <-.
      by injection Hrun as <- <-.
Qed.

(** One request is recorded for a product of an output when the loop body
    reaches the choice: the product's variables are all there and no
    sectored data output was produced for it; none otherwise. *)
Lemma process_product_requests output_type output_dict product_name st u st' :
  memo_inv st ->
  process_product output_type output_dict product_name st = Ok (u, st') ->
  builder_requests st'
  = builder_requests st
    ++ (if issubset (get_required_variables product_name source) all_vars then
          match process_sectored_data_output
                  (get_required_variables product_name source) product_name
                  (dicts st) output_dict with
          | Ok [] =>
              [request_for (dicts st) output_dict product_name
                 (get_required_variables product_name source)]
          | _ => []
          end
        else []).
Proof.
  intros Hinv Hrun. unfold process_product in Hrun.
  destruct (issubset (get_required_variables product_name source) all_vars);
    cbn [negb] in Hrun.
  2: { injection Hrun as <- <-. by rewrite app_nil_r. }
  minv Hrun st0 h0 Hget. injection Hget as <- <-.
  destruct (set_comparison_path (dicts st) output_dict product_name output_type)
    as [cpath cmodule].
  minv Hrun u0 st1 Hinit. injection Hinit as <- <-.
  minv Hrun curr st2 Hsect. apply lift_inv in Hsect as [Hsect ->].
  rewrite Hsect.
  match type of Hrun with
  | context [with_final_products ?f st] =>
      assert (Hst1 : memo_inv (with_final_products f st))
        by (eapply same_memo_inv; [exact Hinv|by repeat split])
  end.
  destruct curr as [|fprod fprods].
  - minv Hrun r st3 Hobtain. destruct r as [alg_xarray from].
    pose proof (obtain_alg_xarray_requests _ _ _ _ _ _ Hobtain) as Hreq.
    apply obtain_alg_xarray_memo in Hobtain as [Hinv3 Hcached]; [|done].
    apply gate_and_render_memo in Hrun as (_ & _ & _ & ->); [|done].
    exact Hreq.
  - minv Hrun u1 st3 Hfiles. injection Hfiles as <- <-.
    apply record_database_writes_memo in Hrun as (_ & _ & _ & ->).
    by rewrite app_nil_r.
Qed.










(** *** The coverage gate of both workflows *)

Lemma render_product_counts_job output_dict product_name cpath alg_xarray from
    st u st' :
  render_product output_dict product_name cpath alg_xarray from st
    = Ok (u, st') ->
  num_jobs st' = S (num_jobs st).
Proof.
  intros Hrun. unfold render_product in Hrun.
  minv Hrun st0 h0 Hget. injection Hget as <- <-.
  minv Hrun alg' st1 Hcomb.
  assert (Hst1 : num_jobs st1 = num_jobs st).
  { destruct (bg_files && has_background_products (dicts st) output_dict).
    - destruct bg_alg_xarray as [bg|].
      + minv Hcomb u0 st0 Hwb. injection Hcomb as <- <-.
        destruct from; injection Hwb as <- <-; reflexivity.
      + by injection Hcomb as <- <-.
    - by injection Hcomb as <- <-. }
  minv Hrun curr st2 Hplot. apply lift_inv in Hplot as [Hplot ->].
  minv Hrun u1 st3 Hfiles. injection Hfiles as <- <-.
  minv Hrun u2 st4 Hdb.
  assert (Hst4 : num_jobs st4 = num_jobs st1).
  { unfold record_database_writes in Hdb.
    destruct product_db; [|by injection Hdb as <- <-].
    revert Hdb.
    apply (for_each_inv (fun st' => num_jobs st' = num_jobs st1)); [|done].
    intros fprod st5 u5 st5' Hst5 Hstep.
    minv Hstep added st6 Hwrite. apply lift_inv in Hwrite as [_ ->].
    by injection Hstep as <- <-. }
  match type of Hrun with
  | context [let '(_, _) := ?e in _] => destruct e as [removed saved]
  end.
  injection Hrun as <- <-. cbn. congruence.
Qed.

(** C2.  In both workflows the product built for an area is skipped for
    insufficient coverage exactly when the image-production coverage and the
    file-name coverage are both strictly below the minimum coverage in
    force, which is the explicit override (command line, or output
    configuration) when there is one, else the dataset's [minimum_coverage]
    attribute when it has one, else 10.  Otherwise the product goes on to be
    rendered; this is so in particular when the image-production coverage
    equals the minimum. *)
Theorem skipped_iff_both_coverages_below :
  (forall (CommandLineArgs KwargsSS : Type)
          (get_minimum_coverage_ss : string -> CommandLineArgs -> option Q)
          (image_production_covg_ss fname_covg_ss :
             string -> Dataset -> AreaDefinition -> CommandLineArgs -> Q)
          (get_output_format_kwargs_ss :
             CommandLineArgs -> Dataset -> AreaDefinition -> KwargsSS)
          (plot_data_ss :
             CommandLineArgs -> Dataset -> AreaDefinition -> string -> KwargsSS ->
             res (list (string * fname_info)))
          command_line_args alg_xarray area product_name new_extra_fields src,
      source_name alg_xarray = Some src ->
      let covg :=
        image_production_covg_ss product_name alg_xarray area command_line_args in
      let fname_covg_value :=
        fname_covg_ss product_name alg_xarray area command_line_args in
      let required :=
        match get_minimum_coverage_ss product_name command_line_args with
        | Some m => m
        | None => match minimum_coverage alg_xarray with
                  | Some m => m
                  | None => 10%Q
                  end
        end in
      let run :=
        single_source_render get_minimum_coverage_ss image_production_covg_ss
          fname_covg_ss get_output_format_kwargs_ss plot_data_ss
          command_line_args alg_xarray area product_name new_extra_fields in
      let rendering :=
        render_area_product get_output_format_kwargs_ss plot_data_ss
          command_line_args (with_extra_fields new_extra_fields alg_xarray)
          area product_name in
      (run = Ok SkippedInsufficientCoverage
         <-> (covg < required)%Q /\ (fname_covg_value < required)%Q)
      /\ (~ ((covg < required)%Q /\ (fname_covg_value < required)%Q) ->
          run = rendering)
      /\ ((covg == required)%Q -> run = rendering))
  /\ (forall output_dict product_name cpath alg_xarray from st src,
      source_name alg_xarray = Some src ->
      let covg :=
        image_production_covg product_name alg_xarray (dicts st) output_dict in
      let fname_covg_value :=
        fname_covg product_name alg_xarray (dicts st) output_dict in
      let required :=
        match get_minimum_coverage product_name (dicts st) output_dict with
        | Some m => m
        | None => match minimum_coverage alg_xarray with
                  | Some m => m
                  | None => 10%Q
                  end
        end in
      let run :=
        gate_and_render output_dict product_name cpath alg_xarray from st in
      let rendering :=
        render_product output_dict product_name cpath alg_xarray from st in
      (run = Ok (tt, st)
         <-> (covg < required)%Q /\ (fname_covg_value < required)%Q)
      /\ (~ ((covg < required)%Q /\ (fname_covg_value < required)%Q) ->
          run = rendering)
      /\ ((covg == required)%Q -> run = rendering)).
Proof.
  split.
  - intros CLA KW get_min covg_f fcovg_f getkw plot cla alg area p fields src Hsrc
      covg fcovg required run rendering.
    assert (Hrun : run = if Qltb covg required && Qltb fcovg required
                         then Ok SkippedInsufficientCoverage else rendering).
    { subst run. unfold single_source_render. rewrite Hsrc. reflexivity. }
    assert (Hboth : Qltb covg required && Qltb fcovg required = true
                    <-> (covg < required)%Q /\ (fcovg < required)%Q).
    { by rewrite andb_true_iff, !Qltb_lt. }
    assert (Hnot : ~ ((covg < required)%Q /\ (fcovg < required)%Q) ->
                   run = rendering).
    { intros Hn. rewrite Hrun.
      destruct (Qltb covg required && Qltb fcovg required); [|done].
      exfalso. apply Hn. by apply Hboth. }
    split; [|split; [done|]].
    + split.
      * intros Hskip. apply Hboth.
        destruct (Qltb covg required && Qltb fcovg required); [done|].
        rewrite Hrun in Hskip. subst rendering.
        unfold render_area_product in Hskip.
        destruct (plot _ _ _ _ _); discriminate.
      * intros Hb. apply Hboth in Hb. by rewrite Hrun, Hb.
    + intros Heq. apply Hnot. intros [Hlt _].
      rewrite Heq in Hlt. by apply Qlt_irrefl in Hlt.
  - intros output_dict p cpath alg from st src Hsrc
      covg fcovg required run rendering.
    assert (Hrun : run = if Qltb covg required && Qltb fcovg required
                         then Ok (tt, st) else rendering).
    { subst run. unfold gate_and_render.
      rewrite (bind_ok _ _ _ _ _ (eq_refl : get_state st = Ok (st, st))).
      erewrite bind_ok by (apply lift_ok; unfold get_attr; by rewrite Hsrc).
      subst covg fcovg required rendering.
      unfold insufficient_coverage, minimum_coverage_in_force.
      by match goal with |- context [if ?c then _ else _] => destruct c end. }
    assert (Hboth : Qltb covg required && Qltb fcovg required = true
                    <-> (covg < required)%Q /\ (fcovg < required)%Q).
    { by rewrite andb_true_iff, !Qltb_lt. }
    assert (Hnot : ~ ((covg < required)%Q /\ (fcovg < required)%Q) ->
                   run = rendering).
    { intros Hn. rewrite Hrun.
      destruct (Qltb covg required && Qltb fcovg required); [|done].
      exfalso. apply Hn. by apply Hboth. }
    split; [|split; [done|]].
    + split.
      * intros Hskip. apply Hboth.
        destruct (Qltb covg required && Qltb fcovg required); [done|].
        rewrite Hrun in Hskip. subst rendering.
        apply render_product_counts_job in Hskip. lia.
      * intros Hb. apply Hboth in Hb. by rewrite Hrun, Hb.
    + intros Heq. apply Hnot. intros [Hlt _].
      rewrite Heq in Hlt. by apply Qlt_irrefl in Hlt.
Qed.

(** *** The ledger of final products *)

(** [initialize_final_products] never resets an entry: a comparison path
    that is already in the ledger keeps its files, its database writes and
    its module, and the ledger is returned as it is.  A new path is appended
    after the existing ones with no file, no database write and the given
    module.  Other paths are untouched either way, and a second call with
    the same path changes nothing. *)
Theorem initialize_final_products_keeps_entries final_products cpath cmodule :
  od_mem (initialize_final_products final_products cpath cmodule) cpath = true
  /\ (forall e, od_get final_products cpath = Some e ->
        initialize_final_products final_products cpath cmodule = final_products)
  /\ (od_get final_products cpath = None ->
        od_get (initialize_final_products final_products cpath cmodule) cpath
          = Some {| files := []; database_writes := [];
                    compare_outputs_module := cmodule |}
        /\ od_keys (initialize_final_products final_products cpath cmodule)
           = od_keys final_products ++ [cpath])
  /\ (forall other, other <> cpath ->
        od_get (initialize_final_products final_products cpath cmodule) other
        = od_get final_products other)
  /\ (forall cmodule',
        initialize_final_products
          (initialize_final_products final_products cpath cmodule) cpath cmodule'
        = initialize_final_products final_products cpath cmodule).
Proof.
  unfold initialize_final_products, od_mem.
  destruct (od_get final_products cpath) as [e|] eqn:Hget.
  - cbn match. rewrite Hget. done.
  - cbn match. rewrite od_get_set_eq. split; [done|]. split; [done|]. split.
    { intros _. split; [done|]. by apply od_keys_set_new. }
    split; [|done].
    intros other Hne. by apply od_get_set_ne.
Qed.

End OutputLoops.

End ConfigBased.

(** * config_based.py: the functions that read the configuration

    The YAML configuration and the command-line arguments are nested
    values ([pyval]): mappings in insertion order, sequences, strings,
    numbers.  The functions below only read them, so no store is needed. *)

Module ConfigDicts.

Import SingleSource.

(** [v[key]] with a string key *)
Definition py_getitem (v : pyval) (key : string) : res pyval :=
  match v with
  | PyDict d =>
      match od_get d key with
      | Some x => Ok x
      | None => Raise (KeyError key)
      end
  | PyStr _ => Raise (TypeError "string indices must be integers")
  | PyList _ => Raise (TypeError "list indices must be integers or slices")
  | _ => Raise (TypeError "object is not subscriptable")
  end.

(** [v == s] for a string [s] *)
Definition py_is_str (v : pyval) (s : string) : bool :=
  match v with
  | PyStr s' => String.eqb s' s
  | _ => false
  end.

(** [key in v] with a string key *)
Definition py_contains (key : string) (v : pyval) : res bool :=
  match v with
  | PyDict d => Ok (od_mem d key)
  | PyStr s => Ok (str_contains key s)
  | PyList l => Ok (existsb (fun x => py_is_str x key) l)
  | _ => Raise (TypeError "argument is not iterable")
  end.

(** The truth value of a configuration value. *)
Definition py_truthy (v : pyval) : bool :=
  match v with
  | PyNone => false
  | PyBool b => b
  | PyNum q => negb (Qeq_bool q 0)
  | PyStr s => negb (String.eqb s "")
  | PyList l => match l with [] => false | _ => true end
  | PyDict d => match d with [] => false | _ => true end
  end.

(** [v.items()] *)
Definition py_items (v : pyval) : res (list (string * pyval)) :=
  match v with
  | PyDict d => Ok d
  | _ => Raise (AttributeError "items")
  end.

(** The one-character strings of a string. *)
Fixpoint characters (s : string) : list pyval :=
  match s with
  | EmptyString => []
  | String c rest => PyStr (String c EmptyString) :: characters rest
  end.

(** The elements [for x in v] ranges over. *)
Definition py_iter (v : pyval) : res (list pyval) :=
  match v with
  | PyList l => Ok l
  | PyDict d => Ok (map (fun kv => PyStr (fst kv)) d)
  | PyStr s => Ok (characters s)
  | _ => Raise (TypeError "object is not iterable")
  end.

(** ** [get_required_outputs], [is_required_sector_type], [requires_bg] *)

(** Whether an output spec requests the sector type:
    [output_dict["requested_sector_type"] == sector_type]. *)
Definition requests (output_dict : pyval) (sector_type : string) : res bool :=
  v ← py_getitem output_dict "requested_sector_type";
  mret (py_is_str v sector_type).

Fixpoint get_required_outputs_loop (items : list (string * pyval))
    (sector_type : string) (return_dict : list (string * pyval))
    : res (list (string * pyval)) :=
  match items with
  | [] => mret return_dict
  | (output_type, output_dict) :: rest =>
      requested ← requests output_dict sector_type;
      if negb requested
      then get_required_outputs_loop rest sector_type return_dict
      else get_required_outputs_loop rest sector_type
             (od_set return_dict output_type output_dict)
  end.

Definition get_required_outputs (config_dict : pyval) (sector_type : string)
    : res (list (string * pyval)) :=
  outputs ← py_getitem config_dict "outputs";
  items ← py_items outputs;
  get_required_outputs_loop items sector_type [].

Fixpoint is_required_sector_type (available_outputs_dict : list (string * pyval))
    (sector_type : string) : res bool :=
  match available_outputs_dict with
  | [] => mret false
  | (output_type, output_dict) :: rest =>
      requested ← requests output_dict sector_type;
      if (requested : bool) then mret true
      else is_required_sector_type rest sector_type
  end.

Fixpoint requires_bg (available_outputs_dict : list (string * pyval))
    (sector_type : string) : res bool :=
  match available_outputs_dict with
  | [] => mret false
  | (output_type, output_dict) :: rest =>
      has_bg ← py_contains "background_products" output_dict;
      if (has_bg : bool) then
        requested ← requests output_dict sector_type;
        if (requested : bool) then mret true
        else requires_bg rest sector_type
      else requires_bg rest sector_type
  end.

(** Every output spec is a mapping that names its sector type. *)
Definition sector_types_given (outputs : list (string * pyval)) : Prop :=
  forall o, o ∈ outputs ->
    exists d v, snd o = PyDict d /\ od_get d "requested_sector_type" = Some v.

(** The output specs that request the sector type, as a test on entries. *)
Definition requesting (sector_type : string) (o : string * pyval) : Prop :=
  requests (snd o) sector_type = Ok true.

#[global] Instance requesting_dec sector_type o : Decision (requesting sector_type o).
Proof.
  unfold requesting.
  destruct (requests (snd o) sector_type) as [[|]|e];
    [left; reflexivity|right; discriminate|right; discriminate].
Defined.

Lemma requests_given outputs sector_type o :
  sector_types_given outputs -> o ∈ outputs ->
  exists b, requests (snd o) sector_type = Ok b.
Proof.
  intros Hwf Ho. destruct (Hwf o Ho) as (d & v & Hd & Hv).
  unfold requests. rewrite Hd. simpl. rewrite Hv. simpl. eauto.
Qed.

Lemma sector_types_given_tail o outputs :
  sector_types_given (o :: outputs) -> sector_types_given outputs.
Proof. intros Hwf o' Ho'. apply Hwf. by right. Qed.

Lemma od_set_snoc_new {V} (d : list (string * V)) k v :
  k ∉ od_keys d -> od_set d k v = d ++ [(k, v)].
Proof.
  induction d as [|[k' v'] d IH]; simpl; [done|].
  intros Hk. apply not_elem_of_cons in Hk as [Hne Hk].
  destruct (decide (k = k')); [done|]. by rewrite IH.
Qed.

Lemma get_required_outputs_loop_filter items sector_type return_dict :
  sector_types_given items ->
  NoDup (od_keys (return_dict ++ items)) ->
  get_required_outputs_loop items sector_type return_dict
  = Ok (return_dict ++ filter (requesting sector_type) items).
Proof.
  revert return_dict.
  induction items as [|[output_type output_dict] rest IH];
    intros return_dict Hwf Hnd.
  - simpl. by rewrite filter_nil, app_nil_r.
  - cbn [get_required_outputs_loop].
    destruct (requests_given _ sector_type (output_type, output_dict) Hwf)
      as [b Hb]; [by left|].
    simpl in Hb. rewrite Hb. cbn [mbind res_mbind res_bind].
    apply sector_types_given_tail in Hwf.
    destruct b; cbn [negb].
    + rewrite filter_cons_True by done.
      unfold od_keys in Hnd. rewrite map_app in Hnd. simpl in Hnd.
      rewrite od_set_snoc_new.
      * rewrite IH; [by rewrite <- app_assoc|done|].
        unfold od_keys. by rewrite <- app_assoc, !map_app.
      * apply NoDup_app in Hnd as (_ & Hdisj & _).
        intros Hin. apply (Hdisj _ Hin). by left.
    + rewrite filter_cons_False by (unfold requesting; simpl; congruence).
      apply IH; [done|].
      unfold od_keys in *. rewrite map_app in *. simpl in Hnd.
      apply NoDup_app in Hnd as (Hnd1 & Hdisj & Hnd2).
      apply NoDup_cons in Hnd2 as [_ Hnd2].
      apply NoDup_app. split; [done|]. split; [|done].
      intros x Hx Hx'. apply (Hdisj x Hx). by right.
Qed.

(** When every output spec names its sector type, [get_required_outputs]
    returns exactly the output specs that request the given sector type, in
    the order of the configuration and each under its own output type; and
    [is_required_sector_type] answers [True] exactly when that selection is
    not empty. *)
Theorem get_required_outputs_selects config outputs sector_type :
  od_get config "outputs" = Some (PyDict outputs) ->
  NoDup (od_keys outputs) ->
  sector_types_given outputs ->
  get_required_outputs (PyDict config) sector_type
    = Ok (filter (requesting sector_type) outputs)
  /\ is_required_sector_type outputs sector_type
     = Ok (bool_decide (filter (requesting sector_type) outputs <> [])).
Proof.
  intros Hconfig Hnd Hwf. split.
  - unfold get_required_outputs. simpl. rewrite Hconfig. simpl.
    by rewrite get_required_outputs_loop_filter.
  - clear Hconfig Hnd.
    induction outputs as [|[output_type output_dict] rest IH]; [done|].
    cbn [is_required_sector_type].
    destruct (requests_given _ sector_type (output_type, output_dict) Hwf)
      as [b Hb]; [by left|].
    simpl in Hb. rewrite Hb. cbn [mbind res_mbind res_bind].
    destruct b.
    + rewrite filter_cons_True by done. by rewrite bool_decide_eq_true_2.
    + rewrite filter_cons_False by (unfold requesting; simpl; congruence).
      apply IH. by eapply sector_types_given_tail.
Qed.

(** An output spec without ["requested_sector_type"] makes both functions
    fail with the [KeyError] of that key, unless [is_required_sector_type]
    has found a requesting spec before it. *)
Theorem missing_sector_type_is_a_key_error config before output_type d after
    sector_type :
  od_get d "requested_sector_type" = None ->
  sector_types_given before ->
  od_get config "outputs" = Some (PyDict (before ++ (output_type, PyDict d) :: after)) ->
  get_required_outputs (PyDict config) sector_type
    = Raise (KeyError "requested_sector_type")
  /\ (filter (requesting sector_type) before = [] ->
      is_required_sector_type (before ++ (output_type, PyDict d) :: after)
        sector_type = Raise (KeyError "requested_sector_type"))
  /\ (filter (requesting sector_type) before <> [] ->
      is_required_sector_type (before ++ (output_type, PyDict d) :: after)
        sector_type = Ok true).
Proof.
  intros Hd Hwf Hconfig. split; [|split].
  - unfold get_required_outputs. simpl. rewrite Hconfig. simpl.
    clear Hconfig. generalize (@nil (string * pyval)).
    induction before as [|[t0 o0] before IH]; intros acc.
    + simpl. unfold requests. simpl. by rewrite Hd.
    + cbn [app get_required_outputs_loop].
      destruct (requests_given _ sector_type (t0, o0) Hwf) as [b Hb];
        [by left|].
      simpl in Hb. rewrite Hb. cbn [mbind res_mbind res_bind].
      apply sector_types_given_tail in Hwf.
      destruct b; cbn [negb]; by apply IH.
  - clear Hconfig.
    induction before as [|[t0 o0] before IH]; intros Hnone.
    + simpl. unfold requests. simpl. by rewrite Hd.
    + cbn [app is_required_sector_type].
      destruct (requests_given _ sector_type (t0, o0) Hwf) as [b Hb];
        [by left|].
      simpl in Hb. rewrite Hb. cbn [mbind res_mbind res_bind].
      destruct b.
      * by rewrite filter_cons_True in Hnone.
      * rewrite filter_cons_False in Hnone
          by (unfold requesting; simpl; congruence).
        apply IH; [by eapply sector_types_given_tail|done].
  - clear Hconfig.
    induction before as [|[t0 o0] before IH]; intros Hsome; [done|].
    cbn [app is_required_sector_type].
    destruct (requests_given _ sector_type (t0, o0) Hwf) as [b Hb];
      [by left|].
    simpl in Hb. rewrite Hb. cbn [mbind res_mbind res_bind].
    destruct b; [done|].
    rewrite filter_cons_False in Hsome
      by (unfold requesting; simpl; congruence).
    apply IH; [by eapply sector_types_given_tail|done].
Qed.

(** Whether an output spec has a ["background_products"] entry. *)
Definition has_background_products (o : string * pyval) : bool :=
  match py_contains "background_products" (snd o) with
  | Ok b => b
  | Raise _ => false
  end.

(** [requires_bg] answers [True] exactly when some output spec both has a
    ["background_products"] entry and requests the sector type; so a sector
    type that requires background imagery is a required sector type.  Its
    sector type is read only from the specs that have background products:
    a spec without them may lack ["requested_sector_type"]. *)
Theorem requires_bg_spec outputs sector_type :
  (forall o, o ∈ outputs -> exists d, snd o = PyDict d) ->
  (forall o d, o ∈ outputs -> snd o = PyDict d ->
     od_mem d "background_products" = true ->
     is_Some (od_get d "requested_sector_type")) ->
  requires_bg outputs sector_type
    = Ok (existsb (fun o => has_background_products o
                            && bool_decide (requesting sector_type o)) outputs)
  /\ (sector_types_given outputs ->
      requires_bg outputs sector_type = Ok true ->
      is_required_sector_type outputs sector_type = Ok true).
Proof.
  intros Hdict Hbg. split.
  - induction outputs as [|[output_type output_dict] rest IH]; [done|].
    cbn [requires_bg existsb].
    destruct (Hdict (output_type, output_dict)) as [d Hd]; [by left|].
    simpl in Hd. subst output_dict.
    rewrite IH; cycle 1.
    { intros o Ho. apply Hdict. by right. }
    { intros o d' Ho. apply Hbg. by right. }
    change (has_background_products (output_type, PyDict d))
      with (od_mem d "background_products").
    cbn [py_contains mbind res_mbind res_bind].
    destruct (od_mem d "background_products") eqn:Hmem; [|done].
    destruct (Hbg (output_type, PyDict d) d) as [v Hv]; [by left|done|done|].
    assert (Hreq : requests (PyDict d) sector_type
                   = Ok (py_is_str v sector_type)).
    { unfold requests. simpl. by rewrite Hv. }
    rewrite Hreq. cbn [res_bind andb].
    destruct (py_is_str v sector_type).
    + rewrite bool_decide_eq_true_2; done.
    + rewrite bool_decide_eq_false_2; [done|].
      unfold requesting. simpl. congruence.
  - clear Hdict Hbg. intros Hwf.
    induction outputs as [|[output_type output_dict] rest IH]; [done|].
    cbn [requires_bg is_required_sector_type].
    destruct (requests_given _ sector_type (output_type, output_dict) Hwf)
      as [b Hb]; [by left|].
    simpl in Hb. rewrite Hb.
    apply sector_types_given_tail in Hwf.
    destruct (py_contains "background_products" output_dict) as [has_bg|e];
      [|done].
    cbn [mbind res_mbind res_bind].
    destruct has_bg, b; try done; by apply IH.
Qed.

(** ** [get_variables_from_available_outputs_dict] *)

Section RequiredVariables.

(** [geoips.dev.product.get_required_variables(product_name, source_name)],
    applied to whatever the configuration lists as a product name. *)
Variable get_required_variables : pyval -> string -> list string.

(** [sector_types is None or
     output_dict["requested_sector_type"] in sector_types] *)
Definition selected (sector_types : option (list string)) (output_dict : pyval)
    : res bool :=
  match sector_types with
  | None => mret true
  | Some l =>
      v ← py_getitem output_dict "requested_sector_type";
      mret (existsb (py_is_str v) l)
  end.

(** The loop over the product names of one output spec. *)
Fixpoint product_variables (product_names : list pyval) (source_name : string)
    (variables : list string) : list string :=
  match product_names with
  | [] => variables
  | product_name :: rest =>
      product_variables rest source_name
        (variables ++ get_required_variables product_name source_name)
  end.

Fixpoint get_variables_loop (available_outputs_dict : list (string * pyval))
    (source_name : string) (sector_types : option (list string))
    (variables : list string) : res (list string) :=
  match available_outputs_dict with
  | [] => mret variables
  | (output_type, output_dict) :: rest =>
      sel ← selected sector_types output_dict;
      if (sel : bool) then
        names ← py_getitem output_dict "product_names";
        product_names ← py_iter names;
        get_variables_loop rest source_name sector_types
          (product_variables product_names source_name variables)
      else get_variables_loop rest source_name sector_types variables
  end.

(** [list(set(variables))]: the distinct variables, in the order of the
    set. *)
Definition get_variables_from_available_outputs_dict
    (available_outputs_dict : list (string * pyval)) (source_name : string)
    (sector_types : option (list string)) : res (list string) :=
  variables ← get_variables_loop available_outputs_dict source_name
                sector_types [];
  mret (elements (list_to_set variables : gset string)).

(** A product of an output spec that is selected. *)
Definition requested_product (available_outputs_dict : list (string * pyval))
    (sector_types : option (list string)) (product_name : pyval) : Prop :=
  exists o names product_names,
    o ∈ available_outputs_dict
    /\ selected sector_types (snd o) = Ok true
    /\ py_getitem (snd o) "product_names" = Ok names
    /\ py_iter names = Ok product_names
    /\ product_name ∈ product_names.

Lemma product_variables_elem product_names source_name variables x :
  x ∈ product_variables product_names source_name variables
  <-> x ∈ variables
      \/ exists p, p ∈ product_names /\ x ∈ get_required_variables p source_name.
Proof.
  revert variables.
  induction product_names as [|p rest IH]; intros variables; simpl.
  - split; [by left|]. intros [H|(p & Hp & _)]; [done|].
    by apply elem_of_nil in Hp.
  - rewrite IH, elem_of_app. split.
    + intros [[H|H]|(p' & Hp' & Hx)].
      * by left.
      * right. exists p. split; [by left|done].
      * right. exists p'. split; [by right|done].
    + intros [H|(p' & Hp' & Hx)].
      * by left; left.
      * apply elem_of_cons in Hp' as [->|Hp'].
        -- by left; right.
        -- right. eauto.
Qed.

Lemma get_variables_loop_elem available_outputs_dict source_name sector_types
    variables result x :
  get_variables_loop available_outputs_dict source_name sector_types variables
    = Ok result ->
  x ∈ result
  <-> x ∈ variables
      \/ exists p, requested_product available_outputs_dict sector_types p
                   /\ x ∈ get_required_variables p source_name.
Proof.
  revert variables.
  induction available_outputs_dict as [|[output_type output_dict] rest IH];
    intros variables Hrun.
  - injection Hrun as <-. split; [by left|].
    intros [H|(p & (o & _ & _ & Ho & _) & _)]; [done|].
    by apply elem_of_nil in Ho.
  - cbn [get_variables_loop] in Hrun.
    destruct (selected sector_types output_dict) as [sel|e] eqn:Hsel;
      [|discriminate].
    cbn [mbind res_mbind res_bind] in Hrun.
    assert (Hshift : forall p,
      requested_product rest sector_types p ->
      requested_product ((output_type, output_dict) :: rest) sector_types p).
    { intros p (o & names & ps & Ho & Hrest).
      exists o, names, ps. split; [by right|done]. }
    destruct sel.
    + destruct (py_getitem output_dict "product_names") as [names|e] eqn:Hnames;
        cbn [mbind res_mbind res_bind] in Hrun; [|discriminate].
      destruct (py_iter names) as [product_names|e] eqn:Hiter;
        cbn [mbind res_mbind res_bind] in Hrun; [|discriminate].
      rewrite (IH _ Hrun), product_variables_elem. split.
      * intros [[H|(p & Hp & Hx)]|(p & Hp & Hx)].
        -- by left.
        -- right. exists p. split; [|done].
           exists (output_type, output_dict), names, product_names.
           split; [by left|done].
        -- right. exists p. split; [by apply Hshift|done].
      * intros [H|(p & (o & names' & ps & Ho & Hs & Hn & Hi & Hp) & Hx)].
        -- by left; left.
        -- apply elem_of_cons in Ho as [->|Ho].
           ++ simpl in Hn, Hi. rewrite Hnames in Hn. injection Hn as <-.
              rewrite Hiter in Hi. injection Hi as <-.
              left; right. eauto.
           ++ right. exists p. split; [|done].
              exists o, names', ps. done.
    + rewrite (IH _ Hrun). split.
      * intros [H|(p & Hp & Hx)]; [by left|].
        right. exists p. split; [by apply Hshift|done].
      * intros [H|(p & (o & names' & ps & Ho & Hs & Hrest) & Hx)]; [by left|].
        apply elem_of_cons in Ho as [->|Ho].
        -- simpl in Hs. congruence.
        -- right. exists p. split; [|done]. exists o, names', ps. done.
Qed.

(** When [get_variables_from_available_outputs_dict] returns, its result
    has no duplicates and holds exactly the variables required, for the
    given source, by some product of an output spec that is selected: every
    spec when [sector_types] is [None], else the specs whose sector type is
    one of [sector_types].  With [sector_types=None] the sector types are
    not even read, and the call returns as soon as every spec lists its
    product names. *)
Theorem get_variables_from_available_outputs_dict_spec available_outputs_dict
    source_name sector_types :
  (forall result,
      get_variables_from_available_outputs_dict available_outputs_dict
        source_name sector_types = Ok result ->
      NoDup result
      /\ forall x,
           x ∈ result
           <-> exists p,
                 requested_product available_outputs_dict sector_types p
                 /\ x ∈ get_required_variables p source_name)
  /\ ((forall o, o ∈ available_outputs_dict ->
         exists d l, snd o = PyDict d
                     /\ od_get d "product_names" = Some (PyList l)) ->
      is_ok (get_variables_from_available_outputs_dict available_outputs_dict
               source_name None) = true).
Proof.
  split.
  - intros result Hrun.
    unfold get_variables_from_available_outputs_dict in Hrun.
    destruct (get_variables_loop available_outputs_dict source_name
                sector_types []) as [variables|e] eqn:Hloop; [|discriminate].
    injection Hrun as <-. split; [apply NoDup_elements|].
    intros x. rewrite elem_of_elements, elem_of_list_to_set.
    rewrite (get_variables_loop_elem _ _ _ _ _ x Hloop). split.
    + intros [H|H]; [by apply elem_of_nil in H|done].
    + by right.
  - intros Hwf. unfold get_variables_from_available_outputs_dict.
    assert (Hloop : forall variables,
      is_ok (get_variables_loop available_outputs_dict source_name None
               variables) = true).
    { induction available_outputs_dict as [|[output_type output_dict] rest IH];
        intros variables; [done|].
      cbn [get_variables_loop selected mbind res_mbind res_bind mret res_mret].
      destruct (Hwf (output_type, output_dict)) as (d & l & Hd & Hl);
        [by left|].
      simpl in Hd. subst output_dict. simpl. rewrite Hl. simpl.
      apply IH. intros o Ho. apply Hwf. by right. }
    specialize (Hloop []).
    by destruct (get_variables_loop available_outputs_dict source_name None []).
Qed.

End RequiredVariables.

(** ** [get_area_def_list_from_dict] *)

Section AreaDefList.

(** What an entry of the innermost mapping holds. *)
Context {V : Type}.

(** The innermost loop: one pass per key of the innermost mapping, each
    appending [area_defs[area_def_id][sector_type]["area_def"]]. *)
Fixpoint list_per_key (keys : list string) (inner : list (string * V))
    (list_area_defs : list V) : res (list V) :=
  match keys with
  | [] => mret list_area_defs
  | _ :: rest =>
      match od_get inner "area_def" with
      | Some area_def => list_per_key rest inner (list_area_defs ++ [area_def])
      | None => Raise (KeyError "area_def")
      end
  end.

Fixpoint list_per_sector_type (sector_types : list (string * list (string * V)))
    (list_area_defs : list V) : res (list V) :=
  match sector_types with
  | [] => mret list_area_defs
  | (sector_type, inner) :: rest =>
      list_area_defs ← list_per_key (od_keys inner) inner list_area_defs;
      list_per_sector_type rest list_area_defs
  end.

Fixpoint list_per_area_def_id
    (area_defs : list (string * list (string * list (string * V))))
    (list_area_defs : list V) : res (list V) :=
  match area_defs with
  | [] => mret list_area_defs
  | (area_def_id, sector_types) :: rest =>
      list_area_defs ← list_per_sector_type sector_types list_area_defs;
      list_per_area_def_id rest list_area_defs
  end.

Definition get_area_def_list_from_dict
    (area_defs : list (string * list (string * list (string * V))))
    : res (list V) :=
  list_per_area_def_id area_defs [].

(** The area definition of each (name, sector type) entry, once each. *)
Definition filed_area_defs
    (area_defs : list (string * list (string * list (string * V)))) : list V :=
  flat_map (fun named =>
              omap (fun entry => od_get (snd entry) "area_def") (snd named))
    area_defs.

Lemma list_per_key_replicate keys inner acc area_def :
  od_get inner "area_def" = Some area_def ->
  list_per_key keys inner acc = Ok (acc ++ replicate (length keys) area_def).
Proof.
  intros Hget. revert acc.
  induction keys as [|k keys IH]; intros acc; simpl.
  - by rewrite app_nil_r.
  - rewrite Hget, IH. by rewrite <- app_assoc.
Qed.

Lemma list_per_sector_type_repeats sector_types acc :
  (forall entry, entry ∈ sector_types ->
     exists requested area_def,
       snd entry = [("requested_sector_dict", requested); ("area_def", area_def)]) ->
  list_per_sector_type sector_types acc
  = Ok (acc ++ flat_map (fun area_def => [area_def; area_def])
                 (omap (fun entry => od_get (snd entry) "area_def")
                    sector_types)).
Proof.
  revert acc.
  induction sector_types as [|[st inner] sts IH]; intros acc Hshape.
  - simpl. by rewrite app_nil_r.
  - destruct (Hshape (st, inner)) as (requested & area_def & Hin); [by left|].
    simpl in Hin. subst inner.
    cbn [list_per_sector_type].
    rewrite (list_per_key_replicate _ _ _ area_def) by reflexivity.
    cbn [mbind res_mbind res_bind].
    rewrite IH by (intros e He; apply Hshape; by right).
    cbn. by rewrite <- app_assoc.
Qed.

Lemma list_per_area_def_id_repeats area_defs acc :
  (forall named entry, named ∈ area_defs -> entry ∈ snd named ->
     exists requested area_def,
       snd entry = [("requested_sector_dict", requested); ("area_def", area_def)]) ->
  list_per_area_def_id area_defs acc
  = Ok (acc ++ flat_map (fun area_def => [area_def; area_def])
                 (filed_area_defs area_defs)).
Proof.
  revert acc.
  induction area_defs as [|[area_def_id sector_types] rest IH];
    intros acc Hshape.
  - simpl. by rewrite app_nil_r.
  - cbn [list_per_area_def_id].
    rewrite list_per_sector_type_repeats
      by (intros entry He;
          apply (Hshape (area_def_id, sector_types)); [by left|done]).
    cbn [mbind res_mbind res_bind].
    rewrite IH by (intros named entry Hn; apply Hshape; by right).
    unfold filed_area_defs. cbn [flat_map snd].
    by rewrite flat_map_app, app_assoc.
Qed.

(** [get_area_def_list_from_dict] lists the area definition of an entry once
    per key of that entry, not once per entry: on entries made of
    ["requested_sector_dict"] and ["area_def"], as
    [get_area_defs_from_available_sectors] builds them, every area
    definition comes twice in a row. *)
Theorem get_area_def_list_from_dict_repeats area_defs :
  (forall named entry, named ∈ area_defs -> entry ∈ snd named ->
     exists requested area_def,
       snd entry = [("requested_sector_dict", requested); ("area_def", area_def)]) ->
  get_area_def_list_from_dict area_defs
  = Ok (flat_map (fun area_def => [area_def; area_def])
          (filed_area_defs area_defs)).
Proof.
  intros Hshape. unfold get_area_def_list_from_dict.
  by rewrite list_per_area_def_id_repeats.
Qed.

End AreaDefList.

(** ** [set_comparison_path] *)

Fixpoint string_drop (n : nat) (s : string) : string :=
  match n, s with
  | S n', String _ rest => string_drop n' rest
  | _, _ => s
  end.

(** [s.replace(old, new)] for a non-empty [old]: the occurrences of [old]
    are replaced from left to right, without overlap. *)
Fixpoint replace_from (fuel : nat) (old new s : string) : string :=
  match fuel with
  | O => s
  | S fuel' =>
      if String.prefix old s then
        new +:+ replace_from fuel' old new (string_drop (String.length old) s)
      else
        match s with
        | EmptyString => EmptyString
        | String c rest => String c (replace_from fuel' old new rest)
        end
  end.

(** With an empty [old], [new] is inserted before every character and at
    the end. *)
Fixpoint interleave (new s : string) : string :=
  match s with
  | EmptyString => new
  | String c rest => new +:+ String c (interleave new rest)
  end.

Definition str_replace (old new s : string) : string :=
  if String.eqb old "" then interleave new s
  else replace_from (S (String.length s)) old new s.

(** The three replacements applied to a comparison path. *)
Definition expand_compare_path (compare_path product_name output_type : string)
    : string :=
  str_replace "<output>" output_type
    (str_replace "<procflow>" "config_based"
       (str_replace "<product>" product_name compare_path)).

Definition is_none (v : pyval) : bool :=
  match v with PyNone => true | _ => false end.

Definition set_comparison_path (output_dict : pyval)
    (product_name output_type : string) (command_line_args : option pyval)
    : res (string * pyval) :=
  compare_path ←
    match command_line_args with
    | None => mret PyNone
    | Some args => py_getitem args "compare_path"
    end;
  in_output_dict ← py_contains "compare_path" output_dict;
  (* If this config has a compare_path specified, replace variables *)
  if in_output_dict || negb (is_none compare_path) then
    has_module ← py_contains "compare_outputs_module" output_dict;
    compare_outputs_module ←
      (if (has_module : bool)
       then py_getitem output_dict "compare_outputs_module"
       else mret (PyStr "compare_outputs"));
    compare_path ←
      (if is_none compare_path then py_getitem output_dict "compare_path"
       else mret compare_path);
    match compare_path with
    | PyStr s =>
        mret (expand_compare_path s product_name output_type,
              compare_outputs_module)
    | _ => Raise (AttributeError "replace")
    end
  else
    (* If there is no comparison specified, identify as "no_comparison" *)
    mret ("no_comparison", PyStr "no_compare_outputs_module").

(** The comparison module of an output spec: its own when it names one,
    else ["compare_outputs"]. *)
Definition module_of (d : list (string * pyval)) : pyval :=
  match od_get d "compare_outputs_module" with
  | Some m => m
  | None => PyStr "compare_outputs"
  end.

(** The comparison path given on the command line, if any. *)
Definition command_line_path (command_line_args : option pyval) : res pyval :=
  match command_line_args with
  | None => Ok PyNone
  | Some args => py_getitem args "compare_path"
  end.

(** [set_comparison_path] on an output spec [d].  A comparison path given
    on the command line is used whatever the spec says; without one, the
    path of the spec is used; without either, the result is the
    ["no_comparison"] pair, even when the spec names a comparison module.
    Command-line arguments that lack the key ["compare_path"] make the call
    fail with its [KeyError]. *)
Theorem set_comparison_path_precedence d product_name output_type
    command_line_args :
  (forall p,
      command_line_path command_line_args = Ok (PyStr p) ->
      set_comparison_path (PyDict d) product_name output_type command_line_args
      = Ok (expand_compare_path p product_name output_type, module_of d))
  /\ (forall p,
        command_line_path command_line_args = Ok PyNone ->
        od_get d "compare_path" = Some (PyStr p) ->
        set_comparison_path (PyDict d) product_name output_type
          command_line_args
        = Ok (expand_compare_path p product_name output_type, module_of d))
  /\ (command_line_path command_line_args = Ok PyNone ->
      od_get d "compare_path" = None ->
      set_comparison_path (PyDict d) product_name output_type command_line_args
      = Ok ("no_comparison", PyStr "no_compare_outputs_module"))
  /\ (forall args,
        command_line_args = Some (PyDict args) ->
        od_get args "compare_path" = None ->
        set_comparison_path (PyDict d) product_name output_type
          command_line_args
        = Raise (KeyError "compare_path")).
Proof.
  unfold set_comparison_path, command_line_path, module_of.
  split; [|split; [|split]].
  - intros p Hp.
    assert (Hpath : match command_line_args with
                    | Some args => py_getitem args "compare_path"
                    | None => mret PyNone
                    end = Ok (PyStr p)).
    { by destruct command_line_args. }
    rewrite Hpath. cbn [mbind res_mbind res_bind py_contains is_none negb].
    rewrite orb_true_r. unfold od_mem.
    destruct (od_get d "compare_outputs_module") eqn:Hm; simpl;
      by rewrite ?Hm.
  - intros p Hnone Hd.
    assert (Hpath : match command_line_args with
                    | Some args => py_getitem args "compare_path"
                    | None => mret PyNone
                    end = Ok PyNone).
    { by destruct command_line_args. }
    rewrite Hpath. cbn [mbind res_mbind res_bind py_contains is_none negb].
    unfold od_mem. rewrite Hd. cbn [orb].
    destruct (od_get d "compare_outputs_module") eqn:Hm; simpl;
      by rewrite ?Hm, ?Hd.
  - intros Hnone Hd.
    assert (Hpath : match command_line_args with
                    | Some args => py_getitem args "compare_path"
                    | None => mret PyNone
                    end = Ok PyNone).
    { by destruct command_line_args. }
    rewrite Hpath. cbn [mbind res_mbind res_bind py_contains is_none negb].
    unfold od_mem. by rewrite Hd.
  - intros args -> Hargs. simpl. by rewrite Hargs.
Qed.

Lemma replace_from_absent old new s :
  str_contains old s = false ->
  replace_from (S (String.length s)) old new s = s.
Proof.
  unfold str_contains.
  induction s as [|c rest IH]; intros Habsent.
  - cbn [String.length str_contains_from replace_from] in *.
    destruct (String.prefix old ""); [discriminate|reflexivity].
  - cbn [String.length str_contains_from] in Habsent.
    cbn [String.length]. cbn [replace_from].
    destruct (String.prefix old (String c rest)); [discriminate|].
    f_equal. by apply IH.
Qed.

(** A comparison path in which none of the three placeholders occurs is
    returned as it is. *)
Theorem expand_compare_path_without_placeholders compare_path product_name
    output_type :
  str_contains "<product>" compare_path = false ->
  str_contains "<procflow>" compare_path = false ->
  str_contains "<output>" compare_path = false ->
  expand_compare_path compare_path product_name output_type = compare_path.
Proof.
  intros Hproduct Hprocflow Houtput.
  unfold expand_compare_path, str_replace.
  change (String.eqb "<product>" "") with false.
  change (String.eqb "<procflow>" "") with false.
  change (String.eqb "<output>" "") with false.
  cbv iota.
  rewrite (replace_from_absent _ _ _ Hproduct).
  rewrite (replace_from_absent _ _ _ Hprocflow).
  by rewrite (replace_from_absent _ _ _ Houtput).
Qed.

(** ** [write_to_database] *)

Lemma res_bind_never {A B} (m : res A) (k : A -> res B) :
  (forall a, is_ok (k a) = false) -> is_ok (m ≫= k) = false.
Proof. intros Hk. destruct m as [a|e]; [apply Hk|reflexivity]. Qed.

Section WriteToDatabase.

(** The database writer: [get_db_writer(name)] finds it, and calling it
    returns the product added. *)
Context {DbWriter : Type}.
Variable get_db_writer : pyval -> res DbWriter.
Variable call_db_writer :
  DbWriter -> string -> list (string * pyval) -> res string.

(** [d[key]] where the key is itself a configuration value; the mappings
    of the configuration have string keys, so any other key is missing. *)
Definition py_getitem_val (v key : pyval) : res pyval :=
  match key with
  | PyStr s => py_getitem v s
  | PyList _ | PyDict _ => Raise (TypeError "unhashable type")
  | _ =>
      match v with
      | PyDict _ => Raise (KeyError "a key that is not a string")
      | _ => Raise (TypeError "object is not subscriptable")
      end
  end.

(** [obj.name] on a [dict] for a name that is no attribute of [dict]. *)
Definition no_dict_attribute {A} (name : string) : res A :=
  Raise (AttributeError name).

(** The dot, character 46. *)
Definition dot : Ascii.ascii := Ascii.ascii_of_nat 46.

(** The part of a file name after its last dot, if it has a dot. *)
Fixpoint after_last_dot (s : string) (seen : option string) : option string :=
  match s with
  | EmptyString => seen
  | String c rest =>
      if Ascii.eqb c dot then after_last_dot rest (Some rest)
      else after_last_dot rest seen
  end.

Definition file_type_of (final_product : string) : string :=
  match after_last_dot final_product None with
  | Some ext => ext
  | None => ""
  end.

Definition write_to_database (final_product product_name : string)
    (available_sectors_dict output_dict : pyval)
    (writer_kwargs : list (string * pyval)) : res string :=
  req_sector_type ← py_getitem output_dict "requested_sector_type";
  sector ← py_getitem_val available_sectors_dict req_sector_type;
  db_writer_name ← py_getitem sector "product_database_writer";
  db_writer ← get_db_writer db_writer_name;
  (* writer_kwargs.get_plugin("area_def"), on the dict of keyword arguments *)
  area_def ← (no_dict_attribute "get_plugin" : res pyval);
  let writer_kwargs :=
    od_set writer_kwargs "fileType" (PyStr (file_type_of final_product)) in
  let writer_kwargs := od_set writer_kwargs "product" (PyStr product_name) in
  call_db_writer db_writer final_product
    (od_set writer_kwargs "area_def" area_def).

(** [write_to_database] never adds a product: it reads the area definition
    with [writer_kwargs.get_plugin("area_def")], and [writer_kwargs], the
    dictionary of the extra keyword arguments, has no [get_plugin].  Every
    call fails, before the database writer is called; once the writer is
    found the failure is that [AttributeError]. *)
Theorem write_to_database_never_returns final_product product_name
    available_sectors_dict output_dict writer_kwargs :
  is_ok (write_to_database final_product product_name available_sectors_dict
           output_dict writer_kwargs) = false
  /\ (forall req_sector_type sector db_writer_name db_writer,
        py_getitem output_dict "requested_sector_type" = Ok req_sector_type ->
        py_getitem_val available_sectors_dict req_sector_type = Ok sector ->
        py_getitem sector "product_database_writer" = Ok db_writer_name ->
        get_db_writer db_writer_name = Ok db_writer ->
        write_to_database final_product product_name available_sectors_dict
          output_dict writer_kwargs = Raise (AttributeError "get_plugin")).
Proof.
  unfold write_to_database. split.
  - apply res_bind_never. intros req_sector_type.
    apply res_bind_never. intros sector.
    apply res_bind_never. intros db_writer_name.
    apply res_bind_never. intros db_writer.
    reflexivity.
  - intros req_sector_type sector db_writer_name db_writer H1 H2 H3 H4.
    rewrite H1. cbn [mbind res_mbind res_bind].
    rewrite H2. cbn [mbind res_mbind res_bind].
    rewrite H3. cbn [mbind res_mbind res_bind].
    by rewrite H4.
Qed.

End WriteToDatabase.

(** ** [get_area_defs_from_available_sectors] *)

Section AvailableSectors.

(** [single_source.get_area_defs_from_command_line_args(sector_dict, xobjs,
    variables, filter_time=True)], for the datasets and variables of the
    call. *)
Variable get_area_defs_from_command_line_args :
  list (string * pyval) -> res (list AreaDefinition).

(** What the innermost mapping of the result holds under its two keys. *)
Inductive sector_entry : Type :=
| RequestedSectorDict (sector_dict : list (string * pyval))
| SectorAreaDef (area_def : AreaDefinition).

(** The loop over [command_line_args.keys()]: an argument that is set
    replaces the entry of the sector. *)
Fixpoint override_from_command_line (command_line_args : list (string * pyval))
    (sector_dict : list (string * pyval)) : list (string * pyval) :=
  match command_line_args with
  | [] => sector_dict
  | (argname, value) :: rest =>
      override_from_command_line rest
        (if py_truthy value then od_set sector_dict argname value
         else sector_dict)
  end.

(** [sector_dict.get("trackfiles")] as a condition. *)
Definition has_trackfiles (sector_dict : list (string * pyval)) : bool :=
  match od_get sector_dict "trackfiles" with
  | Some v => py_truthy v
  | None => false
  end.

(** The sector specification handed on: command-line arguments first, and
    no tc database when there are track files. *)
Definition effective_sector_dict (sector_dict command_line_args : list (string * pyval))
    : list (string * pyval) :=
  let sector_dict := override_from_command_line command_line_args sector_dict in
  if has_trackfiles sector_dict
  then od_set sector_dict "tcdb" (PyBool false)
  else sector_dict.

(** The loop over the area definitions found for one sector type. *)
Fixpoint file_area_defs (curr_area_defs : list AreaDefinition)
    (sector_type : string) (sector_dict : list (string * pyval))
    (area_defs : list (string * list (string * list (string * sector_entry))))
    : list (string * list (string * list (string * sector_entry))) :=
  match curr_area_defs with
  | [] => area_defs
  | area_def :: rest =>
      let entry := [("requested_sector_dict", RequestedSectorDict sector_dict);
                    ("area_def", SectorAreaDef area_def)] in
      file_area_defs rest sector_type sector_dict
        (match od_get area_defs (name area_def) with
         | None => od_set area_defs (name area_def) [(sector_type, entry)]
         | Some sector_types =>
             od_set area_defs (name area_def)
               (od_set sector_types sector_type entry)
         end)
  end.

(** [sector_dict = available_sectors_dict[sector_type].copy()] *)
Definition copy_of (v : pyval) : res (list (string * pyval)) :=
  match v with
  | PyDict d => Ok d
  | _ => Raise (AttributeError "copy")
  end.

(** ["unsectored" in sector_dict and sector_dict["unsectored"]] *)
Definition is_unsectored (sector_dict : list (string * pyval)) : bool :=
  match od_get sector_dict "unsectored" with
  | Some v => py_truthy v
  | None => false
  end.

Fixpoint available_sectors_loop (available_sectors_dict : list (string * pyval))
    (command_line_args : list (string * pyval))
    (area_defs : list (string * list (string * list (string * sector_entry))))
    : res (list (string * list (string * list (string * sector_entry)))) :=
  match available_sectors_dict with
  | [] => mret area_defs
  | (sector_type, sector) :: rest =>
      sector_dict ← copy_of sector;
      if is_unsectored sector_dict then
        available_sectors_loop rest command_line_args area_defs
      else
        let sector_dict := effective_sector_dict sector_dict command_line_args in
        curr_area_defs ← get_area_defs_from_command_line_args sector_dict;
        available_sectors_loop rest command_line_args
          (file_area_defs curr_area_defs sector_type sector_dict area_defs)
  end.

Definition get_area_defs_from_available_sectors
    (available_sectors_dict command_line_args : list (string * pyval))
    : res (list (string * list (string * list (string * sector_entry)))) :=
  available_sectors_loop available_sectors_dict command_line_args [].

(** *** Command-line arguments over the configuration *)

Lemma override_from_command_line_other command_line_args sector_dict key :
  key ∉ od_keys command_line_args ->
  od_get (override_from_command_line command_line_args sector_dict) key
  = od_get sector_dict key.
Proof.
  revert sector_dict.
  induction command_line_args as [|[argname value] rest IH];
    intros sector_dict Hkey; [done|].
  simpl in Hkey. apply not_elem_of_cons in Hkey as [Hne Hkey].
  cbn [override_from_command_line]. rewrite IH by done.
  destruct (py_truthy value); [|done].
  by apply od_get_set_ne.
Qed.

(** The sector specification handed to the area-definition lookup.  A
    command-line argument that is set (truthy) replaces the entry of the
    configuration under its name; one that is not set (absent, [None],
    [False], empty) leaves the configuration's entry in force.  And when the
    outcome has track files, its ["tcdb"] is [False], whatever the
    configuration and the command line asked. *)
Theorem effective_sector_dict_precedence sector_dict command_line_args :
  NoDup (od_keys command_line_args) ->
  (forall argname value,
      (argname, value) ∈ command_line_args ->
      od_get (override_from_command_line command_line_args sector_dict) argname
      = if py_truthy value then Some value else od_get sector_dict argname)
  /\ (forall key,
        key ∉ od_keys command_line_args ->
        od_get (override_from_command_line command_line_args sector_dict) key
        = od_get sector_dict key)
  /\ (forall key,
        key <> "tcdb" ->
        od_get (effective_sector_dict sector_dict command_line_args) key
        = od_get (override_from_command_line command_line_args sector_dict) key)
  /\ (has_trackfiles (effective_sector_dict sector_dict command_line_args)
        = true ->
      od_get (effective_sector_dict sector_dict command_line_args) "tcdb"
      = Some (PyBool false)).
Proof.
  intros Hnd. split; [|split; [|split]].
  - revert sector_dict.
    induction command_line_args as [|[argname0 value0] rest IH];
      intros sector_dict argname value Hin.
    + by apply elem_of_nil in Hin.
    + simpl in Hnd. apply NoDup_cons in Hnd as [Hfresh Hnd].
      cbn [override_from_command_line].
      apply elem_of_cons in Hin as [[= -> ->]|Hin].
      * rewrite override_from_command_line_other by done.
        destruct (py_truthy value0); [|done]. apply od_get_set_eq.
      * rewrite (IH Hnd _ _ _ Hin).
        destruct (py_truthy value); [done|].
        destruct (py_truthy value0); [|done].
        apply od_get_set_ne. intros ->. apply Hfresh.
        apply list_elem_of_fmap. by exists (argname, value).
  - intros key Hkey. by apply override_from_command_line_other.
  - intros key Hne. unfold effective_sector_dict.
    destruct (has_trackfiles _); [|done].
    by apply od_get_set_ne.
  - unfold effective_sector_dict.
    destruct (has_trackfiles (override_from_command_line command_line_args
                                sector_dict)) eqn:Htrack.
    + intros _. apply od_get_set_eq.
    + intros Htrack'. congruence.
Qed.

(** *** How the area definitions are filed *)

(** Every innermost mapping has the two keys, and its area definition is
    filed under its own name. *)
Definition well_filed
    (area_defs : list (string * list (string * list (string * sector_entry))))
    : Prop :=
  forall named entry, named ∈ area_defs -> entry ∈ snd named ->
    exists sector_dict area_def,
      snd entry = [("requested_sector_dict", RequestedSectorDict sector_dict);
                   ("area_def", SectorAreaDef area_def)]
      /\ name area_def = fst named.

Lemma file_area_defs_well_filed curr_area_defs sector_type sector_dict
    area_defs :
  well_filed area_defs ->
  well_filed (file_area_defs curr_area_defs sector_type sector_dict area_defs).
Proof.
  revert area_defs.
  induction curr_area_defs as [|area_def rest IH]; intros area_defs Hwf; [done|].
  cbn [file_area_defs]. apply IH.
  intros named entry Hnamed Hentry.
  destruct (od_get area_defs (name area_def)) as [sector_types|] eqn:Hget.
  - apply od_set_in in Hnamed as [->|Hnamed]; [|by eapply Hwf].
    simpl in Hentry. simpl.
    apply od_set_in in Hentry as [->|Hentry]; [by eexists _, _|].
    apply od_get_in in Hget.
    apply (Hwf _ _ Hget Hentry).
  - apply od_set_in in Hnamed as [->|Hnamed]; [|by eapply Hwf].
    simpl in Hentry. apply list_elem_of_singleton in Hentry as ->.
    by eexists _, _.
Qed.

Lemma available_sectors_loop_well_filed available_sectors_dict
    command_line_args area_defs result :
  well_filed area_defs ->
  available_sectors_loop available_sectors_dict command_line_args area_defs
    = Ok result ->
  well_filed result.
Proof.
  revert area_defs.
  induction available_sectors_dict as [|[sector_type sector] rest IH];
    intros area_defs Hwf Hrun.
  - by injection Hrun as <-.
  - cbn [available_sectors_loop] in Hrun.
    destruct (copy_of sector) as [sector_dict|e];
      cbn [mbind res_mbind res_bind] in Hrun; [|discriminate].
    destruct (is_unsectored sector_dict); [by eapply IH|].
    destruct (get_area_defs_from_command_line_args _) as [curr|e];
      cbn [mbind res_mbind res_bind] in Hrun; [|discriminate].
    eapply IH; [|exact Hrun]. by apply file_area_defs_well_filed.
Qed.

(** Whenever [get_area_defs_from_available_sectors] returns, every area
    definition it found is filed under its own name, in an entry that holds
    the sector specification it was found with and the area definition
    itself; so that [get_area_def_list_from_dict], applied to the result,
    returns every filed area definition twice. *)
Theorem get_area_defs_from_available_sectors_filed available_sectors_dict
    command_line_args area_defs :
  get_area_defs_from_available_sectors available_sectors_dict command_line_args
    = Ok area_defs ->
  well_filed area_defs
  /\ get_area_def_list_from_dict area_defs
     = Ok (flat_map (fun area_def => [area_def; area_def])
             (filed_area_defs area_defs)).
Proof.
  intros Hrun. unfold get_area_defs_from_available_sectors in Hrun.
  assert (Hwf : well_filed area_defs).
  { eapply available_sectors_loop_well_filed; [|exact Hrun].
    intros named entry Hnamed. by apply elem_of_nil in Hnamed. }
  split; [done|].
  unfold get_area_def_list_from_dict.
  rewrite list_per_area_def_id_repeats; [done|].
  intros named entry Hnamed Hentry.
  destruct (Hwf named entry Hnamed Hentry) as (sd & a & Hshape & _).
  eauto.
Qed.

(** A sector type flagged ["unsectored"] is skipped: no area definition is
    looked up for it, and it adds nothing to the result. *)
Theorem unsectored_sector_types_are_skipped sector_type sector_dict rest
    command_line_args :
  is_unsectored sector_dict = true ->
  get_area_defs_from_available_sectors
    ((sector_type, PyDict sector_dict) :: rest) command_line_args
  = get_area_defs_from_available_sectors rest command_line_args.
Proof.
  intros Hunsectored. unfold get_area_defs_from_available_sectors.
  cbn [available_sectors_loop copy_of mbind res_mbind res_bind].
  by rewrite Hunsectored.
Qed.

End AvailableSectors.

End ConfigDicts.

(** * coverage_checks/center_radius_rgba.py

    The coverage of an RGBA image within a disk around its centre.  The
    image is a variable of the dataset, of shape lines x samples x 4 (or
    more axes after the third); numbers are rationals, on which the
    function's float arithmetic is exact. *)

Module CenterRadiusRgba.

Import SingleSource.

(** What the function can raise. *)
Inductive covg_error : Type :=
| CovgKeyError (key : string)
| CovgIndexError
| CovgAttributeError (attribute : string)
| CovgZeroDivisionError.

Inductive outcome : Type :=
| Returns (percent : Q)
| Raises (e : covg_error).

(** The dataset, as the function reads it: its variables and its
    [area_definition] attribute. *)
Record rgba_dataset : Type := {
  rgba_variables : list (string * ndarray);
  area_definition : option AreaDefinition
}.

Section CenterRadius.

(** [geoips.interface_modules.coverage_checks.center_radius.create_radius(
    temp_arr, radius_pixels, x_center, y_center)]: the samples of the array
    it returns, non-zero inside the disk. *)
Variable create_radius : ndarray -> Q -> Q -> Q -> list Q.

(** Which variable the coverage is computed on. *)
Definition varname_for_covg (xarray_obj : rgba_dataset) (variable_name : string)
    (alt_varname_for_covg : option string) (force_alt_varname : bool) : string :=
  let varname := variable_name in
  let varname :=
    match alt_varname_for_covg with
    | Some alt =>
        if negb (str_in variable_name (od_keys (rgba_variables xarray_obj)))
        then alt else varname
    | None => varname
    end in
  match alt_varname_for_covg with
  | Some alt => if force_alt_varname then alt else varname
  | None => varname
  end.

(** [arr[:, :, 3]]: index 3 of the third axis, the first two axes and the
    axes after the third kept. *)
Definition alpha_channel (a : ndarray) : option ndarray :=
  match a with
  | NdArray (n :: m :: c :: rest) data =>
      if (3 <? c)%nat then
        let block := foldr Nat.mul 1%nat rest in
        Some (NdArray (n :: m :: rest)
                (flat_map (fun k => take block (drop ((k * c + 3) * block) data))
                   (seq 0 (n * m))))
      else None
  | _ => None
  end.

Definition nonzero (x : Q) : bool := negb (Qeq_bool x 0).

(** [min(x, y)] *)
Definition py_min (x y : Q) : Q := if Qle_bool x y then x else y.

(** [numpy.count_nonzero(arr)] *)
Definition count_nonzero (data : list Q) : nat :=
  length (filter (fun x => nonzero x = true) data).

(** [numpy.count_nonzero(numpy.logical_and(numpy.where(a, 1, 0),
    numpy.where(b, 1, 0)))] on arrays of one shape. *)
Definition count_both_nonzero (a b : list Q) : nat :=
  length (filter (fun xy => nonzero (fst xy) && nonzero (snd xy) = true)
            (zip a b)).

Definition shape_of (a : ndarray) : list nat :=
  match a with NdArray shape _ => shape end.

Definition data_of (a : ndarray) : list Q :=
  match a with NdArray _ data => data end.

Definition center_radius_rgba (xarray_obj : rgba_dataset)
    (variable_name : string) (radius_km : Q)
    (alt_varname_for_covg : option string) (force_alt_varname : bool)
    : outcome :=
  let varname :=
    varname_for_covg xarray_obj variable_name alt_varname_for_covg
      force_alt_varname in
  match od_get (rgba_variables xarray_obj) varname with
  | None => Raises (CovgKeyError varname)
  | Some arr =>
      match alpha_channel arr with
      | None => Raises CovgIndexError
      | Some temp_arr =>
          match area_definition xarray_obj with
          | None => Raises (CovgAttributeError "area_definition")
          | Some area =>
              let res_km :=
                (py_min (pixel_size_x area) (pixel_size_y area) / 1000)%Q in
              if Qeq_bool res_km 0 then Raises CovgZeroDivisionError
              else
                let radius_pixels := (1 * radius_km / res_km)%Q in
                let dumby_arr :=
                  create_radius temp_arr radius_pixels
                    (inject_Z (Z.of_nat (nth 0 (shape_of temp_arr) 0%nat)) / 2)%Q
                    (inject_Z (Z.of_nat (nth 1 (shape_of temp_arr) 0%nat)) / 2)%Q in
                let num_valid_in_radius :=
                  count_both_nonzero dumby_arr (data_of temp_arr) in
                let num_total_in_radius := count_nonzero dumby_arr in
                if (num_total_in_radius =? 0)%nat
                then Raises CovgZeroDivisionError
                else
                  Returns (inject_Z (Z.of_nat num_valid_in_radius)
                           / inject_Z (Z.of_nat num_total_in_radius) * 100)%Q
          end
      end
  end.

(** *** Which variable is checked *)

(** The alternate variable is used when it is given and either the variable
    is missing or [force_alt_varname] is set; the call is then the call on
    the alternate variable itself.  Without an alternate variable
    [force_alt_varname] changes nothing, and a variable that is missing is
    a [KeyError]. *)
Theorem center_radius_rgba_variable_checked xarray_obj variable_name radius_km
    alt force_alt_varname :
  center_radius_rgba xarray_obj variable_name radius_km (Some alt) true
    = center_radius_rgba xarray_obj alt radius_km None false
  /\ (od_get (rgba_variables xarray_obj) variable_name = None ->
      center_radius_rgba xarray_obj variable_name radius_km (Some alt)
        force_alt_varname
      = center_radius_rgba xarray_obj alt radius_km None false)
  /\ (is_Some (od_get (rgba_variables xarray_obj) variable_name) ->
      center_radius_rgba xarray_obj variable_name radius_km (Some alt) false
      = center_radius_rgba xarray_obj variable_name radius_km None false)
  /\ center_radius_rgba xarray_obj variable_name radius_km None
       force_alt_varname
     = center_radius_rgba xarray_obj variable_name radius_km None false
  /\ (od_get (rgba_variables xarray_obj) variable_name = None ->
      center_radius_rgba xarray_obj variable_name radius_km None
        force_alt_varname
      = Raises (CovgKeyError variable_name)).
Proof.
  unfold center_radius_rgba, varname_for_covg, str_in.
  split; [done|]. split; [|split; [|split; [done|]]].
  - intros Hmissing.
    rewrite bool_decide_eq_false_2 by (by apply od_get_none_keys).
    by destruct force_alt_varname.
  - intros [arr Harr].
    rewrite bool_decide_eq_true_2; [done|].
    apply od_get_in in Harr. apply list_elem_of_fmap. by exists (variable_name, arr).
  - by intros ->.
Qed.

(** *** The percentage *)

Lemma count_both_le (a b : list Q) : count_both_nonzero a b <= count_nonzero a.
Proof.
  unfold count_both_nonzero, count_nonzero. revert b.
  induction a as [|x a IH]; intros b; [cbn; lia|].
  destruct b as [|y b]; [cbn; lia|].
  cbn [zip zip_with]. rewrite !filter_cons. cbn [fst snd].
  specialize (IH b).
  repeat case_decide; cbn [length] in *; try lia.
  destruct (nonzero x); [done|discriminate].
Qed.

(** Whenever [center_radius_rgba] returns, the coverage is a percentage:
    between 0 and 100.  And it does not return when the disk holds no
    pixel: the division by the pixel count of the disk fails. *)
Theorem center_radius_rgba_is_a_percentage xarray_obj variable_name radius_km
    alt_varname_for_covg force_alt_varname :
  (forall percent,
      center_radius_rgba xarray_obj variable_name radius_km
        alt_varname_for_covg force_alt_varname = Returns percent ->
      (0 <= percent)%Q /\ (percent <= 100)%Q)
  /\ ((forall temp_arr radius_pixels x_center y_center,
         count_nonzero (create_radius temp_arr radius_pixels x_center y_center)
         = 0%nat) ->
      forall percent,
        center_radius_rgba xarray_obj variable_name radius_km
          alt_varname_for_covg force_alt_varname <> Returns percent).
Proof.
  unfold center_radius_rgba. split.
  - intros percent Hrun.
    destruct (od_get _ _) as [arr|]; [|discriminate].
    destruct (alpha_channel arr) as [temp_arr|]; [|discriminate].
    destruct (area_definition xarray_obj) as [area|]; [|discriminate].
    destruct (Qeq_bool _ 0); [discriminate|].
    cbv zeta in Hrun.
    match type of Hrun with
    | context [count_both_nonzero ?a ?b] =>
        pose proof (count_both_le a b) as Hle;
        set (valid := count_both_nonzero a b) in *;
        set (total := count_nonzero a) in *
    end.
    destruct (total =? 0)%nat eqn:Htotal; [discriminate|].
    apply Nat.eqb_neq in Htotal.
    injection Hrun as <-.
    assert (Hpos : (0 < inject_Z (Z.of_nat total))%Q).
    { unfold Qlt. simpl. lia. }
    split.
    + apply Qmult_le_0_compat; [|done].
      apply Qle_shift_div_l; [done|].
      rewrite Qmult_0_l. unfold Qle. simpl. lia.
    + apply Qle_trans with (1 * 100)%Q; [|done].
      apply Qmult_le_compat_r; [|done].
      apply Qle_shift_div_r; [done|].
      rewrite Qmult_1_l. unfold Qle. simpl. lia.
  - intros Hempty percent.
    destruct (od_get _ _) as [arr|]; [|discriminate].
    destruct (alpha_channel arr) as [temp_arr|]; [|discriminate].
    destruct (area_definition xarray_obj) as [area|]; [|discriminate].
    destruct (Qeq_bool _ 0); [discriminate|].
    cbv zeta. by rewrite Hempty.
Qed.

End CenterRadius.

End CenterRadiusRgba.

(** * config_based.py: the background dataset and the sectored read *)

Module ConfigReads.

Import SingleSource ConfigDicts.

(** ** [get_bg_xarray] *)

Section GetBgXarray.

Context {AlgArgs InterpArgs : Type}.

(** The collaborators of [single_source.get_alg_xarray] and of
    [single_source.pad_area_definition]. *)
Variable get_required_variables : string -> string -> list string.
Variable get_requested_datasets_for_variables :
  string -> string -> list (string * list string).
Variable get_product_type : string -> string -> string.
Variable get_alg_name : string -> string -> string.
Variable get_alg_args : string -> string -> AlgArgs.
Variable get_interp_name : string -> string -> option string.
Variable get_interp_args : string -> string -> InterpArgs.
Variable alg_family : string -> string.
Variable alg_plugin_numpy : string -> alg_input -> AlgArgs -> store -> res ndarray.
Variable alg_plugin_xarray : string -> alg_input -> AlgArgs -> M loc.
Variable sector_xarrays :
  bundle -> AreaDefinition -> list string -> Z -> Z -> bool -> M bundle.
Variable isel_time : Dataset -> nat -> Dataset.
Variable concat_dim_2 : list Dataset -> Dataset.
Variable copy_standard_metadata : Dataset -> Dataset -> Dataset.
Variable is_sector_type : AreaDefinition -> string -> bool.
Variable clat_clon_resolution_shape :
  string -> string -> info_val -> info_val -> string -> Z -> Z -> Q -> Q ->
  AreaDefinition.
Variable copy_sector_info : AreaDefinition -> AreaDefinition -> AreaDefinition.

(** An interpolator plugin, by name:
    [interp_plugin(area_def, input_xarray, output_xarray, varlist=...,
    **interp_args)], where the output dataset may be [None] and the keyword
    arguments may be left out. *)
Variable interp_call :
  string -> AreaDefinition -> loc -> option loc -> option InterpArgs ->
  list string -> M loc.

(** [ds.attrs["area_definition"] = area_def] *)
Variable set_area_definition : AreaDefinition -> Dataset -> Dataset.

(** [ds.attrs["registered_dataset"] = True] *)
Definition set_registered (d : Dataset) : Dataset :=
  {| ds_variables := ds_variables d; time_dim := time_dim d;
     source_name := source_name d;
     start_datetime := start_datetime d; end_datetime := end_datetime d;
     minimum_coverage := minimum_coverage d;
     product_name_attr := product_name_attr d;
     filename_extra_fields := filename_extra_fields d;
     filename_extra_fields_id := filename_extra_fields_id d;
     other_attrs := <["registered_dataset" := PyBool true]> (other_attrs d) |}.

(** [get_alg_xarray(sect_xarrays, pad_area_def, product_name,
    resampled_read=resampled_read)] *)
Definition build_on_padded_area (sect_xarrays : bundle)
    (pad_area_def : AreaDefinition) (product_name : string)
    (resampled_read : bool) : M loc :=
  get_alg_xarray get_required_variables get_requested_datasets_for_variables
    get_product_type get_alg_name get_alg_args get_interp_name get_interp_args
    alg_family alg_plugin_numpy alg_plugin_xarray
    (fun name area_def input output args varlist =>
       interp_call name area_def input (Some output) (Some args) varlist)
    sector_xarrays isel_time concat_dim_2 copy_standard_metadata
    sect_xarrays pad_area_def product_name true resampled_read None.

(** [list(sect_xarrays.values())[0]] *)
Definition first_dataset (sect_xarrays : bundle) : M loc :=
  match sect_xarrays with
  | (_, l) :: _ => mret l
  | [] => raise (PluginError "list index out of range")
  end.

(** There is one dataset besides ["METADATA"], and the first dataset of the
    bundle holds the product. *)
Definition holds_final_product (sect_xarrays : bundle) (product_name : string)
    : M bool :=
  if (length (filter (fun k => k <> "METADATA") (od_keys sect_xarrays)) =? 1)%nat
  then
    first ← first_dataset sect_xarrays;
    ds ← load first;
    mret (str_in product_name (od_keys (ds_variables ds)))
  else mret false.

Definition get_bg_xarray (sect_xarrays : bundle) (area_def : AreaDefinition)
    (product_name : string) (resampled_read : bool) : M loc :=
  metadata_ref ← bundle_ref sect_xarrays "METADATA";
  metadata ← load metadata_ref;
  src ← lift (get_attr "source_name" (source_name metadata));
  let interp_plugin := get_interp_name product_name src in
  let interp_args :=
    match interp_plugin with
    | Some _ => Some (get_interp_args product_name src)
    | None => None
    end in
  preprocessed ← holds_final_product sect_xarrays product_name;
  alg_xarray ←
    (if (preprocessed : bool) then
       (* a preprocessed data file with the final product in it *)
       sect_xarray ← first_dataset sect_xarrays;
       interp_args ← lift (read_local "interp_args" interp_args);
       match interp_plugin with
       | Some name =>
           interp_call name area_def sect_xarray None (Some interp_args)
             [product_name]
       | None => raise (TypeError "'NoneType' object is not callable")
       end
     else
       (* a raw data file: apply the algorithm to the padded data *)
       pad_area_def ← lift (pad_area_definition is_sector_type
                              clat_clon_resolution_shape copy_sector_info
                              area_def None false 1.5 1.5);
       sect_xarray ← build_on_padded_area sect_xarrays pad_area_def
                       product_name resampled_read;
       match interp_plugin with
       | Some name =>
           interp_call name area_def sect_xarray None None [product_name]
       | None => raise (TypeError "'NoneType' object is not callable")
       end);
  _ ← modify alg_xarray (fun d => set_area_definition area_def (set_registered d));
  d ← load alg_xarray;
  if str_in product_name (od_keys (ds_variables d)) then
    add_filename_extra_field alg_xarray "background_data"
      (InfoStr ("bg" +:+ product_name))
  else mret alg_xarray.

(** Whenever [get_bg_xarray] returns, an interpolator was called after
    everything else, and the dataset returned is the one it handed back:
    a product for which no interpolator is configured never gets a
    background dataset. *)
Theorem get_bg_xarray_needs_interpolator sect_xarrays area_def product_name
    resampled_read (h : store) r h' :
  get_bg_xarray sect_xarrays area_def product_name resampled_read h
    = Ok (r, h') ->
  exists metadata_ref metadata src name input args h1 h2,
    od_get sect_xarrays "METADATA" = Some metadata_ref
    /\ h !! metadata_ref = Some metadata
    /\ source_name metadata = Some src
    /\ get_interp_name product_name src = Some name
    /\ interp_call name area_def input None args [product_name] h1
       = Ok (r, h2).
Proof.
  intros Hrun. unfold get_bg_xarray in Hrun.
  minv Hrun metadata_ref h0 Hmeta.
  unfold bundle_ref in Hmeta.
  destruct (od_get sect_xarrays "METADATA") as [l|] eqn:Hget; [|discriminate].
  apply ret_inv in Hmeta as [-> ->].
  minv Hrun d0 h0 Hload. apply load_inv in Hload as [Hl ->].
  minv Hrun src0 h0 Hsrc. apply lift_inv in Hsrc as [Hsrc ->].
  unfold get_attr in Hsrc.
  destruct (source_name d0) as [src1|] eqn:Hname; [|discriminate].
  injection Hsrc as ->.
  minv Hrun preprocessed h1 Hpre.
  minv Hrun alg_xarray h2 Hinterp.
  minv Hrun u h3 Hmod. apply modify_inv in Hmod as (d1 & Hd1 & ->).
  minv Hrun d3 h4 Hload2. apply load_inv in Hload2 as [Hd3 ->].
  assert (r = alg_xarray) as ->.
  { destruct (str_in product_name (od_keys (ds_variables d3))).
    - by apply add_filename_extra_field_inv in Hrun as [-> _].
    - by injection Hrun as <- _. }
  exists l, d0, src0.
  destruct (get_interp_name product_name src0) as [name|]; cycle 1.
  { exfalso. destruct preprocessed.
    - minv Hinterp s h5 Hfirst. minv Hinterp a h6 Hargs. discriminate Hargs.
    - minv Hinterp p h5 Hpad. minv Hinterp s h6 Hbuild. discriminate Hinterp. }
  exists name.
  destruct preprocessed.
  - minv Hinterp s h5 Hfirst. minv Hinterp a h6 Hargs.
    exists s, (Some a), h6, h2. done.
  - minv Hinterp p h5 Hpad. minv Hinterp s h6 Hbuild.
    exists s, None, h6, h2. done.
Qed.

End GetBgXarray.

(** ** [get_sectored_read] and [get_resampled_read] *)

Section SectoredRead.

(** The datasets a reader returns. *)
Context {Xobjs : Type}.

(** What a reader call does: it returns datasets, or fails with the
    [IndexError] of an area that does not intersect the data, or fails
    otherwise. *)
Inductive read_outcome : Type :=
| ReadReturns (xobjs : list (string * Xobjs))
| ReadIndexError
| ReadRaises (e : exn).

(** [reader(fnames, metadata_only=False, chans=variables,
    area_def=pad_area_def)], for the file names and variables of the
    call. *)
Variable reader : AreaDefinition -> read_outcome.

Variable is_sector_type : AreaDefinition -> string -> bool.
Variable clat_clon_resolution_shape :
  string -> string -> info_val -> info_val -> string -> Z -> Z -> Q -> Q ->
  AreaDefinition.
Variable copy_sector_info : AreaDefinition -> AreaDefinition -> AreaDefinition.

(** [area_defs[area_def_id][sector_type]["area_def"]], on the mapping that
    [get_area_defs_from_available_sectors] returns; what it files under
    ["area_def"] is an area definition. *)
Definition filed_area_def
    (area_defs : list (string * list (string * list (string * sector_entry))))
    (area_def_id sector_type : string) : res AreaDefinition :=
  match od_get area_defs area_def_id with
  | None => Raise (KeyError area_def_id)
  | Some sector_types =>
      match od_get sector_types sector_type with
      | None => Raise (KeyError sector_type)
      | Some entry =>
          match od_get entry "area_def" with
          | None => Raise (KeyError "area_def")
          | Some (SectorAreaDef area_def) => Ok area_def
          | Some (RequestedSectorDict _) =>
              Raise (TypeError "not an area definition")
          end
      end
  end.

Definition get_sectored_read (primary_sector : option string)
    (area_defs : list (string * list (string * list (string * sector_entry))))
    (area_def_id sector_type : string) : res (list (string * Xobjs)) :=
  area_def ← filed_area_def area_defs area_def_id sector_type;
  pad_area_def ←
    match primary_sector with
    | Some primary => filed_area_def area_defs area_def_id primary
    | None =>
        pad_area_definition is_sector_type clat_clon_resolution_shape
          copy_sector_info area_def None false 1.5 1.5
    end;
  match reader pad_area_def with
  | ReadReturns xobjs => Ok xobjs
  | ReadIndexError =>
      (* SKIPPING no coverage *)
      Ok []
  | ReadRaises e => Raise e
  end.

Definition get_resampled_read (primary_sector : option string)
    (area_defs : list (string * list (string * list (string * sector_entry))))
    (area_def_id sector_type : string) : res (list (string * Xobjs)) :=
  get_sectored_read primary_sector area_defs area_def_id sector_type.

(** The area the data is read on.  With a primary sector in the
    configuration it is the primary sector's area definition for the same
    area, as it is; without one it is the requested area definition itself
    unless that is a tc sector, since padding is for tc sectors only.  An
    area that does not intersect the data gives no datasets rather than an
    error. *)
Theorem get_sectored_read_area primary_sector area_defs area_def_id sector_type
    area_def :
  filed_area_def area_defs area_def_id sector_type = Ok area_def ->
  (primary_sector = None -> is_sector_type area_def "tc" = false ->
   get_sectored_read primary_sector area_defs area_def_id sector_type
   = match reader area_def with
     | ReadReturns xobjs => Ok xobjs
     | ReadIndexError => Ok []
     | ReadRaises e => Raise e
     end)
  /\ (forall primary primary_area_def,
        primary_sector = Some primary ->
        filed_area_def area_defs area_def_id primary = Ok primary_area_def ->
        get_sectored_read primary_sector area_defs area_def_id sector_type
        = match reader primary_area_def with
          | ReadReturns xobjs => Ok xobjs
          | ReadIndexError => Ok []
          | ReadRaises e => Raise e
          end)
  /\ (forall pad_area_def,
        (primary_sector = None ->
         pad_area_definition is_sector_type clat_clon_resolution_shape
           copy_sector_info area_def None false 1.5 1.5 = Ok pad_area_def) ->
        (forall primary, primary_sector = Some primary ->
           filed_area_def area_defs area_def_id primary = Ok pad_area_def) ->
        reader pad_area_def = ReadIndexError ->
        get_sectored_read primary_sector area_defs area_def_id sector_type
        = Ok []).
Proof.
  intros Harea. unfold get_sectored_read. rewrite Harea.
  cbn [mbind res_mbind res_bind]. split; [|split].
  - intros -> Htc. unfold pad_area_definition. by rewrite Htc.
  - intros primary primary_area_def -> ->. reflexivity.
  - intros pad_area_def Hpad Hprimary Hindex.
    destruct primary_sector as [primary|].
    + rewrite (Hprimary primary eq_refl). cbn [mbind res_mbind res_bind].
      by rewrite Hindex.
    + rewrite (Hpad eq_refl). cbn [mbind res_mbind res_bind].
      by rewrite Hindex.
Qed.

End SectoredRead.

End ConfigReads.

(** * Worked runs

    Concrete collaborators and inputs on which the statements above are
    exercised. *)

Module Scenarios.

Import SingleSource.

(** ** Areas and datasets *)

Definition static_area : AreaDefinition :=
  {| name := "conus"; area_id := "conus"; description := "CONUS";
     sector_type := "static"; sector_info := ∅;
     proj_dict := <["lat_0" := InfoNum 35]> (<["lon_0" := InfoNum (-95)]> ∅);
     x_size := 1000; y_size := 800;
     pixel_size_x := 2000; pixel_size_y := 2000;
     area_extent := (0, 0, 1, 1)%Q |}.

Definition adjusted_tc_area : AreaDefinition :=
  {| name := "tc2020al09"; area_id := "tc2020al09"; description := "TC";
     sector_type := "tc";
     sector_info :=
       <["adjustment_id" := InfoStr "archer"]>
         (<["clat" := InfoNum 20]> (<["clon" := InfoNum (-60)]> ∅));
     proj_dict := ∅;
     x_size := 1400; y_size := 1400;
     pixel_size_x := 1000; pixel_size_y := 1000;
     area_extent := (0, 0, 1, 1)%Q |}.


Definition metadata_ds : Dataset :=
  {| ds_variables := []; time_dim := None; source_name := Some "abi";
     start_datetime := Some 0%Z; end_datetime := Some 600000000%Z;
     minimum_coverage := None; product_name_attr := None;
     filename_extra_fields := None; filename_extra_fields_id := 0;
     other_attrs := ∅ |}.

Definition infrared_ds : Dataset :=
  {| ds_variables := [("B14BT", NdArray [2] [280; 290]%Q)];
     time_dim := None; source_name := Some "abi";
     start_datetime := Some 0%Z; end_datetime := Some 600000000%Z;
     minimum_coverage := None; product_name_attr := None;
     filename_extra_fields := None; filename_extra_fields_id := 0;
     other_attrs := ∅ |}.

(** ** Rendering: an output specification is the name of its output
    format, and an output format is named after its family. *)

Definition the_fname_covg (_ : string) (_ : Dataset) (_ : option AreaDefinition)
    (_ : option string) : res Q := Ok 100%Q.

(** A renderer that writes one file of its own choosing. *)
Definition stray_renderer (_ : string) (_ : @output_call string unit)
    : res (option (list string)) :=
  Ok (Some ["stray.png"]).

(** A renderer that writes exactly the files it was asked for. *)
Definition obedient_renderer (_ : string) (call : @output_call string unit)
    : res (option (list string)) :=
  match call_output_fnames call with
  | Some fnames => Ok (Some fnames)
  | None => Ok (Some [])
  end.

Definition one_filename (_ : string) (_ : filename_call) : option string :=
  Some "20200918.conus.Infrared.png".

Definition render_with
    (renderer : string -> @output_call string unit -> res (option (list string)))
    (output_dict : string) :=
  plot_data (MplColors := unit) (CmapArgs := unit)
    (fun d : string => d) (fun _ => ["geoips_fname"]) (fun _ _ => [])
    (fun _ _ => None) (fun _ _ => []) (fun _ => "metadata_default")
    (fun _ => []) (fun p _ => p) (fun _ _ => None) (fun _ _ => tt)
    the_fname_covg (fun fmt => fmt) (fun _ => []) renderer
    (fun _ => "standard") (fun _ => []) one_filename (fun _ _ => tt)
    output_dict infrared_ds static_area "Infrared" [] None false.

Definition process_with
    (renderer : string -> @output_call string unit -> res (option (list string)))
    (output_dict : string) :=
  process_xarray_dict_to_output_format (MplColors := unit)
    (fun d : string => d) (fun _ _ _ => []) (fun _ => ["geoips_fname"])
    (fun _ _ => []) (fun _ _ => None) (fun _ _ => [])
    (fun _ => "metadata_default") (fun _ => [])
    (fun _ _ => "sectored_xarray_dict_to_output_format")
    the_fname_covg (fun fmt => fmt) (fun _ => []) renderer
    (fun _ => "xarray_metadata_to_filename") (fun _ => []) one_filename
    [("METADATA", metadata_ds); ("IR", infrared_ds)] ["B14BT"] "Infrared"
    output_dict (Some static_area).

(** The failing run of C1: the renderer of a family without pre-declared
    file names returns normally, and the function fails at its return. *)
Lemma process_xarray_dict_unbound_final_products :
  process_with obedient_renderer "xrdict_area_product_to_outlist"
  = Raise (UnboundLocalError "final_products").
Proof.
  unfold process_with.
  apply process_xarray_dict_no_outfnames_family_unbound
    with (metadata := metadata_ds) (src := "abi").
  - reflexivity.
  - reflexivity.
  - reflexivity.
  - reflexivity.
  - intros call. unfold obedient_renderer.
    by destruct (call_output_fnames call).
Defined.


(** A renderer of a filename-bearing family that writes another file than
    the one it was asked for is refused by [plot_data]. *)
Lemma plot_data_stray_list_rejected :
  render_with stray_renderer "image" = Raise did_not_produce.
Proof.
  unfold render_with.
  eapply plot_data_checks_products.
  - vm_compute. reflexivity.
  - reflexivity.
  - reflexivity.
  - intros call Hcall. exists (Some ["stray.png"]).
    split; [reflexivity|]. vm_compute. discriminate.
Defined.

(** The family without pre-declared file names takes the same renderer. *)
Lemma plot_data_stray_list_accepted :
  render_with stray_renderer "xrdict_area_product_to_outlist" = Ok [].
Proof.
  unfold render_with.
  apply plot_data_no_outfnames_family_unchecked with (src := "abi").
  - reflexivity.
  - reflexivity.
  - intros call. reflexivity.
Defined.

Lemma process_xarray_dict_stray_list_rejected :
  process_with stray_renderer "xrdict_varlist_outfnames_to_outlist"
  = Raise did_not_produce.
Proof.
  unfold process_with.
  eapply process_xarray_dict_checks_products.
  - reflexivity.
  - reflexivity.
  - reflexivity.
  - reflexivity.
  - vm_compute. reflexivity.
  - intros call Hcall. exists (Some ["stray.png"]).
    split; [reflexivity|]. vm_compute. discriminate.
Defined.

(** An obedient renderer passes both checks. *)
Example obedient_renderer_accepted :
  is_ok (render_with obedient_renderer "image") = true
  /\ is_ok (process_with obedient_renderer "xrdict_varlist_outfnames_to_outlist")
     = true.
Proof. split; vm_compute; reflexivity. Qed.

(** ** Duplicate removal: the tc file-name format has a hook, which keeps
    the file it is called on and records the call in the world. *)

Definition tc_hook : @DuplicateFiles.dup_hook (list string) :=
  fun fname remove_files w => (([fname +:+ ".old"], [fname]), w ++ [fname]).

Definition hook_of (filename_format : string)
    : option (@DuplicateFiles.dup_hook (list string)) :=
  if bool_decide (filename_format = "tc_fname") then Some tc_hook else None.

Definition tc_entry : DuplicateFiles.fname_entry :=
  {| DuplicateFiles.filename_format := "tc_fname" |}.

Definition geotiff_entry : DuplicateFiles.fname_entry :=
  {| DuplicateFiles.filename_format := "geotiff_fname" |}.

Lemma remove_duplicates_skips_unhooked :
  DuplicateFiles.remove_duplicates hook_of
    ([("a.png", tc_entry)] ++ ("b.tif", geotiff_entry) :: [("c.png", tc_entry)])
    true []
  = DuplicateFiles.remove_duplicates hook_of
      ([("a.png", tc_entry)] ++ [("c.png", tc_entry)]) true [].
Proof.
  apply (proj1 (proj2 (DuplicateFiles.remove_duplicates_hooks_only hook_of))).
  reflexivity.
Defined.

Example remove_duplicates_run :
  DuplicateFiles.remove_duplicates hook_of
    [("a.png", tc_entry); ("b.tif", geotiff_entry); ("c.png", tc_entry)] true []
  = ((["a.png.old"; "c.png.old"], ["a.png"; "c.png"]), ["a.png"; "c.png"]).
Proof. reflexivity. Qed.

(** ** Padding and area verification *)

Definition the_clat_clon_resolution_shape (area_id long_description : string)
    (clat clon : info_val) (projection : string) (num_lines num_samples : Z)
    (pixel_width pixel_height : Q) : AreaDefinition :=
  {| name := area_id; area_id := area_id; description := long_description;
     sector_type := "unknown"; sector_info := ∅;
     proj_dict := <["lat_0" := clat]> (<["lon_0" := clon]> ∅);
     x_size := num_samples; y_size := num_lines;
     pixel_size_x := pixel_width; pixel_size_y := pixel_height;
     area_extent := (0, 0, inject_Z num_samples * pixel_width,
                     inject_Z num_lines * pixel_height)%Q |}.

Definition the_copy_sector_info (src dest : AreaDefinition) : AreaDefinition :=
  {| name := name dest; area_id := area_id dest; description := description dest;
     sector_type := sector_type src; sector_info := sector_info src;
     proj_dict := proj_dict dest;
     x_size := x_size dest; y_size := y_size dest;
     pixel_size_x := pixel_size_x dest; pixel_size_y := pixel_size_y dest;
     area_extent := area_extent dest |}.

(** The sector type is the tag the area definition carries. *)
Definition sector_type_is (area_def : AreaDefinition) (sector_type_str : string)
    : bool :=
  bool_decide (sector_type area_def = sector_type_str).

Lemma pad_static_area_is_identity :
  pad_area_definition sector_type_is the_clat_clon_resolution_shape
    the_copy_sector_info static_area (Some "abi") false 1.5 1.5
  = Ok static_area.
Proof.
  apply (proj1 (pad_area_definition_identity_unless_tc_or_forced sector_type_is
                  the_clat_clon_resolution_shape the_copy_sector_info)).
  reflexivity.
Defined.

Example pad_forced_static_area_scales :
  match pad_area_definition sector_type_is the_clat_clon_resolution_shape
          the_copy_sector_info static_area (Some "abi") true 1.5 1.5 with
  | Ok padded => (x_size padded, y_size padded) = (1500, 1200)%Z
  | Raise _ => False
  end.
Proof. vm_compute. reflexivity. Qed.

(** The products are products of floats: [800 * 1.15] is just below 920. *)
Example padded_shape_truncates_the_float_product :
  padded_shape static_area (Some "abi") 1.15 1.15 = (919, 1150)%Z.
Proof. vm_compute. reflexivity. Qed.

Definition keep_all (area_defs : list AreaDefinition) (_ : Z)
    : list AreaDefinition := area_defs.

(** Four hours of data against the default three-hour range. *)
Lemma verify_area_def_four_hours :
  verify_area_def keep_all [static_area] static_area 0 (timedelta_hours 4) 3
  = Raise (UnboundLocalError "new_area_defs").
Proof.
  apply (proj1 (verify_area_def_unbound_on_long_span keep_all)).
  vm_compute. discriminate.
Defined.

(** ** Building a product: a single-channel algorithm of family
    [xarray_to_numpy], and an interpolator that resamples the product
    variable into a dataset of its own instead of updating the one it is
    given. *)

Definition single_channel (_ : string) (input : @alg_input) (_ : unit)
    (h : store) : res ndarray :=
  match input with
  | AlgXarray xarray_obj =>
      match h !! xarray_obj with
      | Some d => dataset_array d "B14BT"
      | None => Raise (KeyError "xarray_obj")
      end
  | _ => Raise (TypeError "single_channel takes one dataset")
  end.

Definition no_xarray_algorithm (_ : string) (_ : @alg_input) (_ : unit) : M loc :=
  raise (PluginError "no algorithm returning a dataset").

(** Every sample is repeated: two samples in, four out. *)
Definition resampled (a : ndarray) : ndarray :=
  match a with
  | NdArray shape data =>
      NdArray (map (fun n => 2 * n)%nat shape)
        (flat_map (fun x => [x; x]) data)
  end.

Definition resample_variables (varlist : list string) (d : Dataset) : Dataset :=
  foldl (fun out varname =>
           match od_get (ds_variables d) varname with
           | Some a => set_variable varname (resampled a) out
           | None => out
           end)
    (with_attrs_of d empty_dataset) varlist.

Definition interp_into_new_dataset (_ : string) (_ : AreaDefinition)
    (input_xarray output_xarray : loc) (_ : unit) (varlist : list string)
    : M loc :=
  d ← load input_xarray;
  alloc (resample_variables varlist d).

Definition keep_bundle (xobjs : bundle) (_ : AreaDefinition) (_ : list string)
    (_ _ : Z) (_ : bool) : M bundle := mret xobjs.

Definition build_infrared (area_def : AreaDefinition)
    (variable_names : option (list string)) : M loc :=
  get_alg_xarray
    (fun _ _ => ["B14BT"]) (fun _ _ => []) (fun _ _ => "alg_interp_cmap")
    (fun _ _ => "single_channel") (fun _ _ => tt)
    (fun _ _ => Some "interp_nearest") (fun _ _ => tt)
    (fun _ => "xarray_to_numpy") single_channel no_xarray_algorithm
    interp_into_new_dataset keep_bundle
    (fun d _ => d) (fun l => hd empty_dataset l) (fun _ dest => dest)
    [("METADATA", 0%nat); ("IR", 1%nat)] area_def "Infrared" true false
    variable_names.

Definition two_datasets : store := [metadata_ds; infrared_ds].

(** With [variable_names] left at [None] the product is not built. *)
Lemma build_infrared_without_variable_names :
  build_infrared static_area None two_datasets
  = Raise (TypeError "'NoneType' object is not iterable").
Proof.
  unfold build_infrared.
  eapply get_alg_xarray_requires_variable_names.
  - reflexivity.
  - reflexivity.
  - reflexivity.
  - reflexivity.
  - reflexivity.
  - right. reflexivity.
Defined.

(** The algorithm's dataset, at reference 2, and the interpolator's, at
    reference 3, once the product is built. *)
Definition alg_dataset : Dataset :=
  set_variable "Infrared" (NdArray [2] [280; 290]%Q)
    (with_attrs_of metadata_ds empty_dataset).

Definition interp_dataset : Dataset :=
  set_variable "Infrared" (NdArray [4] [280; 280; 290; 290]%Q)
    (with_attrs_of metadata_ds empty_dataset).

(** Without [adjustment_id] the interpolated dataset is returned. *)
Lemma build_infrared_static_returns_interpolated :
  build_infrared static_area (Some ["B14BT"]) two_datasets
  = Ok (3%nat, two_datasets ++ [alg_dataset; interp_dataset]).
Proof.
  unfold build_infrared.
  eapply get_alg_xarray_alg_interp_cmap_interpolated
    with (metadata := metadata_ds) (curr := [("METADATA", 0%nat); ("IR", 1%nat)])
         (h1 := two_datasets) (alg_xarray := 2%nat)
         (h2 := two_datasets ++ [alg_dataset]).
  - reflexivity.
  - reflexivity.
  - reflexivity.
  - reflexivity.
  - reflexivity.
  - vm_compute. reflexivity.
  - reflexivity.
  - vm_compute. reflexivity.
  - reflexivity.
Defined.



(** When the metadata dataset carries [filename_extra_fields], the
    algorithm's dataset holds the same dict after [attrs.copy()]: the
    [adjustment_id] stamped on the product shows in the metadata too, and
    not in the dataset that was read, which has no such attribute. *)
Definition metadata_with_fields : Dataset :=
  {| ds_variables := []; time_dim := None; source_name := Some "abi";
     start_datetime := Some 0%Z; end_datetime := Some 600000000%Z;
     minimum_coverage := None; product_name_attr := None;
     filename_extra_fields := Some {["storm" := InfoStr "al09"]};
     filename_extra_fields_id := 1;
     other_attrs := ∅ |}.

Definition extra_field (field_name : string) (d : Dataset) : option info_val :=
  fields ← filename_extra_fields d; fields !! field_name.

Example adjustment_id_shows_in_metadata :
  match build_infrared adjusted_tc_area (Some ["B14BT"])
          [metadata_with_fields; infrared_ds] with
  | Ok (final_xarray, h) =>
      (h !! final_xarray ≫= extra_field "adjustment_id")
        = Some (InfoStr "archer")
      /\ (h !! 0%nat ≫= extra_field "adjustment_id") = Some (InfoStr "archer")
      /\ (h !! 0%nat ≫= extra_field "storm") = Some (InfoStr "al09")
      /\ (h !! 1%nat ≫= extra_field "adjustment_id") = None
  | Raise _ => False
  end.
Proof. vm_compute. repeat split; reflexivity. Qed.

(** ** Command-line overrides of an output spec

    The store of the caller: the command line (0) gives
    [filename_format_kwargs] (4); the output spec (1) has
    [filename_formats_kwargs] (2), whose ["all"] mapping is (3). *)

Import ConfigBased.

Definition the_command_line : gmap string val :=
  {["filename_format_kwargs" := VRef 4]}.

Definition the_output_spec : gmap string val :=
  <["filename_formats_kwargs" := VRef 2]>
    {["output_format" := VStr "imagery_annotated"]}.

Definition per_format_kwargs : gmap string val := {["all" := VRef 3]}.

Definition spec_all_kwargs : gmap string val :=
  <["basedir" := VStr "/old"]> {["extension" := VStr "png"]}.

Definition command_line_kwargs : gmap string val :=
  {["basedir" := VStr "/new"]}.

Definition caller_store : dstore :=
  [the_command_line; the_output_spec; per_format_kwargs; spec_all_kwargs;
   command_line_kwargs].






(** The whole function on the caller's store: the mapping (3) of the
    caller's own spec is the one that changes. *)
Lemma update_output_dict_changes_caller_spec :
  update_output_dict_from_command_line_args 1 (Some 0%nat) caller_store
  = Ok (5%nat, <[3%nat := command_line_kwargs ∪ spec_all_kwargs]>
                 (caller_store ++ [the_output_spec; {["all" := VRef 4]}])).
Proof.
  eapply (update_output_dict_mutates_shared_all 1 0 caller_store
            the_command_line 4 command_line_kwargs the_output_spec
            2 per_format_kwargs 3 spec_all_kwargs).
  - reflexivity.
  - reflexivity.
  - reflexivity.
  - left. reflexivity.
  - reflexivity.
  - reflexivity.
  - reflexivity.
  - reflexivity.
  - reflexivity.
  - discriminate.
  - discriminate.
  - discriminate.
Defined.

Example caller_spec_basedir_after_update :
  match update_output_dict_from_command_line_args 1 (Some 0%nat) caller_store with
  | Ok (_, h) => (d ← h !! 3%nat; d !! "basedir") = Some (VStr "/new")
  | Raise _ => False
  end
  /\ (d ← caller_store !! 3%nat; d !! "basedir") = Some (VStr "/old").
Proof. split; vm_compute; reflexivity. Qed.

(** ** One pass of the output loops

    An output spec names its output format; the format [netcdf_geoips] is
    of family [xarray_data], every other one of family [image].  Every
    output requests the product Infrared. *)

Definition output_format_of (d : dstore) (output_dict : nat) : string :=
  match d !! output_dict ≫= (.!! "output_format") with
  | Some (VStr s) => s
  | _ => ""
  end.

Definition family_of (output_format : string) : string :=
  if String.eqb output_format "netcdf_geoips" then "xarray_data" else "image".

Definition infrared_product : Dataset :=
  set_variable "Infrared" (NdArray [2] [280; 290]%Q) infrared_ds.

Definition one_png (_ : dstore) (_ : nat) (_ : Dataset) (product_name : string)
    (_ : unit) : res (list (string * fname_info)) :=
  Ok [(product_name +:+ ".png", OutputInfo "geoips_fname" [] product_name)].

Definition pass (area_def : AreaDefinition) (covg : Q)
    (outputs : list (string * nat)) : St loop_state unit :=
  run_outputs (Kwargs := unit) area_def (SingleSource.sector_type area_def)
    "abi" ["B14BT"] None false None false
    (fun _ => true) (fun _ _ => ["B14BT"])
    (fun _ _ => SingleSource.sector_type area_def) (fun _ _ => ["Infrared"])
    (fun _ _ product_name output_type => (output_type, "compare_outputs"))
    (fun _ _ _ _ => Ok []) output_format_of family_of
    (fun _ => Ok infrared_product)
    (fun _ _ _ _ => covg) (fun _ _ _ _ => covg) (fun _ _ _ => None)
    (fun _ _ _ => tt) (fun _ _ => false) one_png (fun fprod _ => Ok fprod)
    (fun _ _ => false) (fun _ => ([], []))
    outputs.

Definition start_state (output_specs : dstore) : loop_state :=
  {| dicts := output_specs; pad_alg_xarrays := []; alg_xarrays := [];
     final_products := []; removed_products := []; saved_products := [];
     num_jobs := 0; builder_calls := []; builder_requests := [] |}.

Definition annotated_spec : gmap string val :=
  {["output_format" := VStr "imagery_annotated"]}.
Definition clean_spec : gmap string val := {["output_format" := VStr "imagery_clean"]}.


Example two_image_outputs_run :
  match pass static_area 100 [("annotated", 0%nat); ("clean", 1%nat)]
          (start_state [annotated_spec; clean_spec]) with
  | Ok (_, st') =>
      builder_calls st' = [BuildExact "Infrared" ["B14BT"]] /\ num_jobs st' = 2%nat
  | Raise _ => False
  end.
Proof. vm_compute. split; reflexivity. Qed.


(** The same pass with the product database switched on, and
    [write_to_database] as the module defines it: the first product
    rendered ends the pass, for the call never returns. *)
Definition database_sectors : pyval :=
  PyDict [("static", PyDict [("product_database_writer", PyStr "postgres")])].

Definition database_output_dict : pyval :=
  PyDict [("requested_sector_type", PyStr "static")].

Definition the_write_to_database (fprod product_name : string) : res string :=
  ConfigDicts.write_to_database (DbWriter := unit)
    (fun _ => Ok tt) (fun _ final_product _ => Ok final_product)
    fprod product_name database_sectors database_output_dict
    [("coverage", PyNum 100)].

Definition pass_with_database (outputs : list (string * nat))
    : St loop_state unit :=
  run_outputs (Kwargs := unit) static_area
    (SingleSource.sector_type static_area)
    "abi" ["B14BT"] None false None true
    (fun _ => true) (fun _ _ => ["B14BT"])
    (fun _ _ => SingleSource.sector_type static_area) (fun _ _ => ["Infrared"])
    (fun _ _ product_name output_type => (output_type, "compare_outputs"))
    (fun _ _ _ _ => Ok []) output_format_of family_of
    (fun _ => Ok infrared_product)
    (fun _ _ _ _ => 100%Q) (fun _ _ _ _ => 100%Q) (fun _ _ _ => None)
    (fun _ _ _ => tt) (fun _ _ => false) one_png the_write_to_database
    (fun _ _ => false) (fun _ => ([], []))
    outputs.

Example pass_with_database_fails :
  pass_with_database [("annotated", 0%nat); ("clean", 1%nat)]
    (start_state [annotated_spec; clean_spec])
  = Raise (AttributeError "get_plugin").
Proof. vm_compute. reflexivity. Qed.

(** ** The coverage gate at its boundary: with no override and no
    [minimum_coverage] attribute the minimum is 10, and a product whose
    coverage is exactly 10 is rendered. *)

Definition gate (covg fname_covg_value : Q) : St loop_state unit :=
  gate_and_render (Kwargs := unit) false None false
    (fun _ _ _ _ => covg) (fun _ _ _ _ => fname_covg_value) (fun _ _ _ => None)
    (fun _ _ _ => tt) (fun _ _ => false) one_png (fun fprod _ => Ok fprod)
    (fun _ _ => false) (fun _ => ([], []))
    0 "Infrared" "annotated" infrared_product FromAlgCache.

Definition rendering : St loop_state unit :=
  render_product (Kwargs := unit) false None false
    (fun _ _ _ => tt) (fun _ _ => false) one_png (fun fprod _ => Ok fprod)
    (fun _ _ => false) (fun _ => ([], []))
    0 "Infrared" "annotated" infrared_product FromAlgCache.

Lemma coverage_at_minimum_is_rendered :
  gate 10 10 (start_state [annotated_spec])
  = rendering (start_state [annotated_spec]).
Proof.
  unfold gate, rendering.
  pose proof (proj2 (skipped_iff_both_coverages_below (Kwargs := unit)
                       false None false
                       (fun _ _ _ _ => 10%Q) (fun _ _ _ _ => 10%Q)
                       (fun _ _ _ => None) (fun _ _ _ => tt) (fun _ _ => false)
                       one_png (fun fprod _ => Ok fprod) (fun _ _ => false)
                       (fun _ => ([], [])))
                0%nat "Infrared" "annotated" infrared_product FromAlgCache
                (start_state [annotated_spec]) "abi" eq_refl) as Hgate.
  cbv zeta in Hgate. destruct Hgate as (_ & _ & Hequal).
  apply Hequal. reflexivity.
Defined.

Example coverage_gate_runs :
  (* both below 10: skipped, the state is left as it was *)
  gate 9.99 5 (start_state [annotated_spec])
    = Ok (tt, start_state [annotated_spec])
  (* the file-name coverage alone reaches 10: rendered *)
  /\ gate 9.99 10 (start_state [annotated_spec])
     = rendering (start_state [annotated_spec])
  /\ match rendering (start_state [annotated_spec]) with
     | Ok (_, st') => num_jobs st' = 1%nat
     | Raise _ => False
     end.
Proof. repeat split; vm_compute; reflexivity. Qed.

(** ** File names and their metadata

    Two filename formats, each giving a name of its own; the metadata
    filename format, when the output specification sets one, names a YAML
    file after the output file. *)

Definition filename_per_format (filename_format : string) (call : filename_call)
    : option string :=
  match call with
  | FnameStandardMetadata _ _ output_fname _ => Some (output_fname +:+ ".yaml")
  | _ => Some ("20200918.conus.Infrared." +:+ filename_format)
  end.

Definition filename_family_of (filename_format : string) : string :=
  if String.eqb filename_format "metadata_default_fname"
  then "standard_metadata" else "standard".

Definition name_two_formats (metadata_filename_format : option string) :=
  get_output_filenames (OutputDict := string)
    (fun _ _ => []) (fun _ _ => metadata_filename_format) (fun _ _ => [])
    the_fname_covg filename_family_of (fun _ => []) filename_per_format
    ["geoips_fname"; "tc_fname"] "image" "Infrared" infrared_ds
    (Some static_area) None.

(** Without a metadata filename format, the two file names share the one
    metadata key [None]. *)
Lemma two_file_names_one_metadata_key :
  match name_two_formats None with
  | Ok (output_fnames, metadata_fnames) =>
      length output_fnames = 2%nat /\ od_keys metadata_fnames = [None]
  | Raise _ => False
  end.
Proof.
  destruct (name_two_formats None) as [[o m]|e] eqn:Hrun.
  - unfold name_two_formats in Hrun.
    pose proof Hrun as Hkeys.
    apply get_output_filenames_shared_none_key in Hkeys;
      [|intros f _; reflexivity].
    vm_compute in Hrun. injection Hrun as <- <-.
    split; [reflexivity|exact Hkeys].
  - vm_compute in Hrun. discriminate.
Defined.

(** The metadata output format [metadata_default] writes the YAML file it
    is asked for. *)
Definition metadata_writer (_ : string) (call : @output_call string unit)
    : res (option (list string)) :=
  match call with
  | OutStandardMetadata _ _ metadata_yaml_filename _ _ =>
      Ok (Some [metadata_yaml_filename])
  | _ => Ok None
  end.

Definition write_metadata_of
    (names : list (string * fname_info) * list (option string * fname_info)) :=
  output_all_metadata (OutputDict := string) (MplColors := unit)
    (fun _ => "metadata_default") (fun _ => [])
    (fun _ => "standard_metadata") (fun _ => []) metadata_writer
    "image" (fst names) (snd names) infrared_ds (Some static_area).

Lemma metadata_files_join_the_outputs :
  match name_two_formats (Some "metadata_default_fname") ≫= write_metadata_of with
  | Ok final =>
      "20200918.conus.Infrared.geoips_fname" ∈ od_keys final
      /\ "20200918.conus.Infrared.tc_fname" ∈ od_keys final
      /\ length final = 4%nat
  | Raise _ => False
  end.
Proof.
  destruct (name_two_formats (Some "metadata_default_fname")) as [names|e]
    eqn:Hnames; [|vm_compute in Hnames; discriminate].
  cbn [mbind res_mbind res_bind].
  destruct (write_metadata_of names) as [final|e] eqn:Hrun.
  - unfold write_metadata_of in Hrun.
    pose proof Hrun as Hsub.
    apply output_all_metadata_final_outputs in Hsub as [Hsub _].
    vm_compute in Hnames. injection Hnames as <-.
    split; [apply Hsub; vm_compute; set_solver|].
    split; [apply Hsub; vm_compute; set_solver|].
    vm_compute in Hrun. by injection Hrun as <-.
  - vm_compute in Hnames. injection Hnames as <-.
    vm_compute in Hrun. discriminate.
Defined.

(** ** [plot_data] without file names *)

Definition failing_renderer (_ : string) (_ : @output_call string unit)
    : res (option (list string)) :=
  Raise (PluginError "no space left on device").

Definition render_nothing_with
    (renderer : string -> @output_call string unit -> res (option (list string)))
    (output_dict : string) :=
  plot_data (MplColors := unit) (CmapArgs := unit)
    (fun d : string => d) (fun _ => ["geoips_fname"]) (fun _ _ => [])
    (fun _ _ => None) (fun _ _ => []) (fun _ => "metadata_default")
    (fun _ => []) (fun p _ => p) (fun _ _ => None) (fun _ _ => tt)
    the_fname_covg (fun fmt => fmt) (fun _ => []) renderer
    (fun _ => "standard") (fun _ => []) one_filename (fun _ _ => tt)
    output_dict infrared_ds static_area "Infrared" [] None true.

(** With [no_output] set the renderer is still called, and its failure is
    the failure of [plot_data]. *)
Lemma no_output_still_calls_the_renderer :
  render_nothing_with failing_renderer "image"
  = Raise (PluginError "no space left on device").
Proof.
  unfold render_nothing_with.
  eapply plot_data_no_output with (src := "abi").
  - reflexivity.
  - vm_compute. reflexivity.
  - intros call. reflexivity.
Defined.

(** No metadata filename format is set: what [plot_data] returns is the one
    file name it computed. *)
Lemma rendered_output_is_the_file_name :
  match render_with obedient_renderer "image" with
  | Ok final => od_keys final = ["20200918.conus.Infrared.png"]
  | Raise _ => False
  end.
Proof.
  destruct (render_with obedient_renderer "image") as [final|e] eqn:Hrun;
    [|vm_compute in Hrun; discriminate].
  unfold render_with in Hrun.
  eapply plot_data_returns_output_fnames
    with (output_fnames :=
            [("20200918.conus.Infrared.png", OutputInfo "geoips_fname" [] "Infrared")])
    in Hrun.
  - by subst final.
  - intros f _. reflexivity.
  - vm_compute. reflexivity.
Defined.

(** ** Extra fields of the file name *)

(** The data that was read, with the attributes of the metadata copied
    onto it: both hold one dict of extra fields. *)
Definition copied_attrs : store :=
  [metadata_with_fields; with_attrs_of metadata_with_fields infrared_ds].

Lemma adjustment_id_reads_back :
  exists h' d' fields,
    add_filename_extra_field 1 "adjustment_id" (InfoStr "archer") copied_attrs
      = Ok (1%nat, h')
    /\ h' !! 1%nat = Some d'
    /\ filename_extra_fields d' = Some fields
    /\ fields !! "adjustment_id" = Some (InfoStr "archer")
    /\ ds_variables d' = ds_variables infrared_ds
    /\ h' !! 0%nat
       = Some (stamp_extra_field "adjustment_id" (InfoStr "archer")
                 metadata_with_fields).
Proof.
  destruct (add_filename_extra_field_reads_back 1 "adjustment_id"
              (InfoStr "archer") copied_attrs
              (with_attrs_of metadata_with_fields infrared_ds) eq_refl)
    as (h' & d' & fields & Hrun & _ & Hd' & Hfields & Hfield & _ & Hvars & _
        & _ & _ & _ & Hshared & _).
  exists h', d', fields.
  repeat (split; [assumption|]).
  by apply Hshared.
Defined.

(** ** Products of the other types, built from the same data *)

Definition build_product (product_type : string)
    (sector_xarrays : bundle -> AreaDefinition -> list string -> Z -> Z -> bool
                      -> M bundle)
    (area_def : AreaDefinition) (variable_names : option (list string)) : M loc :=
  get_alg_xarray
    (fun _ _ => ["B14BT"]) (fun _ _ => []) (fun _ _ => product_type)
    (fun _ _ => "single_channel") (fun _ _ => tt)
    (fun _ _ => Some "interp_nearest") (fun _ _ => tt)
    (fun _ => "xarray_to_numpy") single_channel no_xarray_algorithm
    interp_into_new_dataset sector_xarrays
    (fun d _ => d) (fun l => hd empty_dataset l) (fun _ dest => dest)
    [("METADATA", 0%nat); ("IR", 1%nat)] area_def "Infrared" true false
    variable_names.

(** A sectoring that finds no data inside the area. *)
Definition nothing_in_sector (_ : bundle) (_ : AreaDefinition) (_ : list string)
    (_ _ : Z) (_ : bool) : M bundle := mret [].

(** Type [alg_cmap]: the algorithm's dataset, at reference 2, is returned. *)
Lemma build_alg_cmap_returns_algorithm_dataset :
  build_product "alg_cmap" keep_bundle static_area (Some ["B14BT"]) two_datasets
  = Ok (2%nat, two_datasets ++ [alg_dataset]).
Proof.
  unfold build_product.
  eapply get_alg_xarray_alg_cmap_returns_alg_xarray
    with (metadata := metadata_ds) (curr := [("METADATA", 0%nat); ("IR", 1%nat)])
         (h1 := two_datasets) (area_def := static_area).
  - reflexivity.
  - reflexivity.
  - reflexivity.
  - reflexivity.
  - reflexivity.
  - vm_compute. reflexivity.
Defined.

(** Type [alg]: the algorithm runs, and the function fails at its return. *)
Lemma build_alg_fails_at_return :
  build_product "alg" keep_bundle static_area (Some ["B14BT"]) two_datasets
  = Raise (UnboundLocalError "final_xarray").
Proof.
  unfold build_product.
  eapply get_alg_xarray_alg_unbound_final_xarray
    with (metadata := metadata_ds) (curr := [("METADATA", 0%nat); ("IR", 1%nat)])
         (h1 := two_datasets) (area_def := static_area).
  - reflexivity.
  - reflexivity.
  - reflexivity.
  - reflexivity.
  - reflexivity.
  - vm_compute. reflexivity.
Defined.

(** Type [interp_alg_cmap] on an area the data does not reach. *)
Lemma build_on_empty_sector_fails :
  build_product "interp_alg_cmap" nothing_in_sector static_area (Some ["B14BT"])
    two_datasets
  = Raise (UnboundLocalError "sect_xarray").
Proof.
  unfold build_product.
  eapply get_alg_xarray_nothing_to_interpolate
    with (metadata := metadata_ds) (curr := []) (h1 := two_datasets).
  - reflexivity.
  - reflexivity.
  - reflexivity.
  - reflexivity.
  - reflexivity.
  - by right.
Defined.

(** A product of a type the function does not handle is not built. *)
Lemma build_unhandled_product_type :
  is_ok (build_product "xarray_dict_to_output_format" keep_bundle static_area
           (Some ["B14BT"]) two_datasets) = false.
Proof.
  unfold build_product.
  eapply get_alg_xarray_unsupported_product_type with (metadata := metadata_ds).
  - reflexivity.
  - reflexivity.
  - reflexivity.
  - reflexivity.
Defined.

(** Type [interp_alg_cmap]: the dataset returned carries the product name. *)
Lemma build_interp_alg_cmap_names_product :
  match build_product "interp_alg_cmap" keep_bundle static_area (Some ["B14BT"])
          two_datasets with
  | Ok (final_xarray, h') =>
      (h' !! final_xarray ≫= product_name_attr) = Some "Infrared"
  | Raise _ => False
  end.
Proof.
  destruct (build_product "interp_alg_cmap" keep_bundle static_area
              (Some ["B14BT"]) two_datasets) as [[final_xarray h']|e] eqn:Hrun;
    [|vm_compute in Hrun; discriminate].
  unfold build_product in Hrun.
  eapply get_alg_xarray_interp_first_names_product
    with (metadata := metadata_ds) in Hrun as (d & -> & Hname);
    [exact Hname|reflexivity..].
Defined.

(** ** A configuration: two outputs, the first with background products *)

Import ConfigDicts.

Definition static_output : pyval :=
  PyDict [("requested_sector_type", PyStr "static");
          ("product_names", PyList [PyStr "Infrared"]);
          ("background_products", PyList [PyStr "Visible"])].

Definition tc_output : pyval :=
  PyDict [("requested_sector_type", PyStr "tc");
          ("product_names", PyList [PyStr "Infrared"])].

Definition the_outputs : list (string * pyval) :=
  [("abi_static", static_output); ("abi_tc", tc_output)].

Definition the_config : list (string * pyval) :=
  [("available_sectors", PyDict []); ("outputs", PyDict the_outputs)].

Ltac each_output H :=
  repeat (apply elem_of_cons in H as [->|H]); [..|by apply elem_of_nil in H].

Lemma the_outputs_give_sector_types : sector_types_given the_outputs.
Proof. intros o Ho. each_output Ho; eexists _, _; split; reflexivity. Qed.

Lemma static_outputs_are_selected :
  get_required_outputs (PyDict the_config) "static"
    = Ok [("abi_static", static_output)]
  /\ is_required_sector_type the_outputs "static" = Ok true
  /\ is_required_sector_type the_outputs "atcf" = Ok false.
Proof.
  assert (Hkeys : NoDup (od_keys the_outputs)).
  { apply NoDup_cons. split; [|apply NoDup_singleton].
    by intros ?%list_elem_of_singleton. }
  destruct (get_required_outputs_selects the_config the_outputs "static"
              eq_refl Hkeys the_outputs_give_sector_types) as [Hsel Hreq].
  destruct (get_required_outputs_selects the_config the_outputs "atcf"
              eq_refl Hkeys the_outputs_give_sector_types) as [_ Hnot].
  split; [exact Hsel|]. split; [exact Hreq|exact Hnot].
Defined.

Lemma background_needed_for_static_only :
  requires_bg the_outputs "static" = Ok true
  /\ requires_bg the_outputs "tc" = Ok false.
Proof.
  assert (Hdict : forall o, o ∈ the_outputs -> exists d, snd o = PyDict d).
  { intros o Ho. each_output Ho; eexists; reflexivity. }
  assert (Hgiven : forall o d, o ∈ the_outputs -> snd o = PyDict d ->
            od_mem d "background_products" = true ->
            is_Some (od_get d "requested_sector_type")).
  { intros o d Ho Hd _. each_output Ho; injection Hd as <-; eexists; reflexivity. }
  split.
  - exact (proj1 (requires_bg_spec the_outputs "static" Hdict Hgiven)).
  - exact (proj1 (requires_bg_spec the_outputs "tc" Hdict Hgiven)).
Defined.

(** ** Area definitions of the available sectors

    The area-definition lookup of the scenario knows the static sector by
    the name of its sector list. *)

Definition area_defs_of (sector_dict : list (string * pyval))
    : res (list AreaDefinition) :=
  match od_get sector_dict "sectorfiles" with
  | Some _ => Ok [static_area]
  | None =>
      match od_get sector_dict "trackfiles" with
      | Some _ => Ok [adjusted_tc_area]
      | None => Ok []
      end
  end.

Definition the_available_sectors : list (string * pyval) :=
  [("static", PyDict [("sectorfiles", PyList [PyStr "conus.yaml"])]);
   ("tc", PyDict [("tcdb", PyBool true)]);
   ("global", PyDict [("unsectored", PyBool true)])].

Definition the_command_line_args : list (string * pyval) :=
  [("trackfiles", PyList []); ("tcdb", PyBool false)].

Definition track_command_line_args : list (string * pyval) :=
  [("trackfiles", PyList [PyStr "bal092020.dat"]); ("tcdb", PyBool true)].

(** Track files on the command line switch the tc database off, though the
    command line itself asks for it. *)
Lemma track_files_switch_tcdb_off :
  od_get (effective_sector_dict [("tcdb", PyBool true)] track_command_line_args)
    "tcdb" = Some (PyBool false)
  /\ od_get (effective_sector_dict [("tcdb", PyBool true)] track_command_line_args)
       "trackfiles" = Some (PyList [PyStr "bal092020.dat"]).
Proof.
  assert (Hkeys : NoDup (od_keys track_command_line_args)).
  { apply NoDup_cons. split; [|apply NoDup_singleton].
    by intros ?%list_elem_of_singleton. }
  destruct (effective_sector_dict_precedence [("tcdb", PyBool true)]
              track_command_line_args Hkeys) as (Hset & _ & Hother & Htcdb).
  split; [by apply Htcdb|].
  rewrite Hother by done. rewrite (Hset "trackfiles" _) by (by left).
  reflexivity.
Defined.

Definition filed_static
    : list (string * list (string * list (string * sector_entry))) :=
  [("conus", [("static",
               [("requested_sector_dict",
                 RequestedSectorDict [("sectorfiles", PyList [PyStr "conus.yaml"])]);
                ("area_def", SectorAreaDef static_area)])])].

(** One area definition filed, two listed. *)
Lemma one_filed_area_def_is_listed_twice :
  get_area_def_list_from_dict filed_static
  = Ok [SectorAreaDef static_area; SectorAreaDef static_area].
Proof.
  apply (get_area_def_list_from_dict_repeats filed_static).
  intros named entry Hnamed Hentry.
  apply list_elem_of_singleton in Hnamed as ->.
  apply list_elem_of_singleton in Hentry as ->.
  eexists _, _. reflexivity.
Defined.

Lemma available_sectors_are_filed_by_name :
  match get_area_defs_from_available_sectors area_defs_of the_available_sectors
          the_command_line_args with
  | Ok area_defs =>
      od_keys area_defs = ["conus"]
      /\ get_area_def_list_from_dict area_defs
         = Ok [SectorAreaDef static_area; SectorAreaDef static_area]
  | Raise _ => False
  end.
Proof.
  destruct (get_area_defs_from_available_sectors area_defs_of
              the_available_sectors the_command_line_args)
    as [area_defs|e] eqn:Hrun; [|vm_compute in Hrun; discriminate].
  pose proof Hrun as Hfiled.
  apply get_area_defs_from_available_sectors_filed in Hfiled as [_ Hlist].
  vm_compute in Hrun. injection Hrun as <-.
  split; [reflexivity|exact Hlist].
Defined.

(** ** Reading on a filed area, and the background of a preprocessed file *)

Import ConfigReads.

(** A reader whose data covers the CONUS area only. *)
Definition conus_reader (area_def : AreaDefinition)
    : @read_outcome Dataset :=
  if String.eqb (area_id area_def) "conus"
  then ReadReturns [("IR", infrared_ds)]
  else ReadIndexError.

Lemma static_area_is_read_as_filed :
  get_sectored_read conus_reader sector_type_is the_clat_clon_resolution_shape
    the_copy_sector_info None filed_static "conus" "static"
  = Ok [("IR", infrared_ds)].
Proof.
  apply (get_sectored_read_area conus_reader sector_type_is
           the_clat_clon_resolution_shape the_copy_sector_info None filed_static
           "conus" "static" static_area).
  - reflexivity.
  - reflexivity.
  - reflexivity.
Defined.

(** The interpolator of the scenario, called as [get_bg_xarray] calls it. *)
Definition interp_nearest (name : string) (area_def : AreaDefinition)
    (input_xarray : loc) (output_xarray : option loc) (_ : option unit)
    (varlist : list string) : M loc :=
  interp_into_new_dataset name area_def input_xarray
    (default input_xarray output_xarray) tt varlist.

Definition preprocessed_store : store := [metadata_ds; infrared_product].

Definition background_of_preprocessed : M loc :=
  get_bg_xarray
    (fun _ _ => ["B14BT"]) (fun _ _ => []) (fun _ _ => "alg_interp_cmap")
    (fun _ _ => "single_channel") (fun _ _ => tt)
    (fun _ _ => Some "interp_nearest") (fun _ _ => tt)
    (fun _ => "xarray_to_numpy") single_channel no_xarray_algorithm
    keep_bundle (fun d _ => d) (fun l => hd empty_dataset l) (fun _ dest => dest)
    sector_type_is the_clat_clon_resolution_shape the_copy_sector_info
    interp_nearest (fun _ d => d)
    [("IR", 1%nat); ("METADATA", 0%nat)] static_area "Infrared" false.

Lemma background_comes_from_the_interpolator :
  match background_of_preprocessed preprocessed_store with
  | Ok (r, h') =>
      exists input args h1 h2,
        interp_nearest "interp_nearest" static_area input None args ["Infrared"] h1
        = Ok (r, h2)
  | Raise _ => False
  end.
Proof.
  destruct (background_of_preprocessed preprocessed_store) as [[r h']|e] eqn:Hrun;
    [|vm_compute in Hrun; discriminate].
  unfold background_of_preprocessed in Hrun.
  apply get_bg_xarray_needs_interpolator in Hrun
    as (metadata_ref & metadata & src & name & input & args & h1 & h2
        & _ & _ & _ & Hname & Hcall).
  injection Hname as <-. eauto.
Defined.

End Scenarios.
